(** * RichFlow: the event payload validator, the analysis controller and the
      dashboard totals, embedded in Rocq

    The development follows the TypeScript sources module by module:
    - [JS]: the JavaScript values the code manipulates (binary64 numbers,
      strings, plain objects) and the builtins it calls;
    - [Zod]: the parsing combinators of the zod 3 library that
      [event.schema.ts] is written with;
    - [EventSchema]: [backend/src/domain/schemas/event.schema.ts];
    - [Migration]: the Prisma SQL migrations;
    - [FinancialView]: the totals of [UserFinancialView.tsx] and
      [AdminUserFinancialView.tsx];
    - [AnalysisController]: [controllers/analysis.controller.ts];
    - [UseIncome]: [frontend/src/hooks/queries/useIncome.ts];
    - [IncomeMutations]: the optimistic mutations of the same file, over
      the query cache of @tanstack/react-query;
    - [CashflowView]: the income and expense totals of the two views;
    - [TestDatabase]: [resetDatabase]. *)

From Stdlib Require Import ZArith QArith String Ascii List Bool Lia Permutation.
From Stdlib Require Import Floats.SpecFloat.
From stdpp Require Import base option gmap strings list pretty.

#[local] Set Warnings "-register-all".
#[local] Open Scope string_scope.

(* ===================================================================== *)
(** * JavaScript values *)
(* ===================================================================== *)

Module JS.

(** ** Numbers: IEEE 754 binary64, as [SpecFloat] specifies them *)

Definition number : Type := spec_float.
Definition prec : Z := 53.
Definition emax : Z := 1024.

Definition plus_zero : number := S754_zero false.
Definition minus_zero : number := S754_zero true.

(** [x + y] and [x - y] on numbers. *)
Definition add (x y : number) : number := SFadd prec emax x y.
Definition sub (x y : number) : number := SFsub prec emax x y.

(** An integer literal such as [10] or [-5]. *)
Definition ofZ (z : Z) : number := binary_normalize prec emax z 0 false.

Definition isNaN (x : number) : bool :=
  match x with S754_nan => true | _ => false end.

(** [x < y] and [x <= y]; both are [false] when an operand is NaN. *)
Definition lt (x y : number) : bool := SFltb x y.
Definition le (x y : number) : bool := SFleb x y.

(** [Number.isInteger]. *)
Definition isInteger (x : number) : bool :=
  match x with
  | S754_zero _ => true
  | S754_finite _ m e =>
      if (0 <=? e)%Z then true else (Z.pos m mod 2 ^ (- e) =? 0)%Z
  | _ => false
  end.

(** A number that is neither NaN nor an infinity. *)
Definition isFinite (x : number) : bool :=
  match x with
  | S754_zero _ | S754_finite _ _ _ => true
  | _ => false
  end.

(** ToBoolean on a number: NaN, +0 and -0 are falsy. *)
Definition number_truthy (x : number) : bool :=
  match x with
  | S754_nan | S754_zero _ => false
  | _ => true
  end.

(** ** Strings: UTF-8 text *)

Definition code (c : ascii) : N := N_of_ascii c.

Definition isDigit (c : ascii) : bool := (48 <=? code c)%N && (code c <=? 57)%N.
Definition isUpper (c : ascii) : bool := (65 <=? code c)%N && (code c <=? 90)%N.
Definition isLower (c : ascii) : bool := (97 <=? code c)%N && (code c <=? 122)%N.
Definition isLetter (c : ascii) : bool := isUpper c || isLower c.

(** [s.length]: the number of UTF-16 code units of the text. *)
Fixpoint length (s : string) : nat :=
  match s with
  | EmptyString => 0
  | String c rest =>
      let n := code c in
      ((if (n <? 128)%N then 1            (* one-byte character *)
        else if (n <? 192)%N then 0       (* continuation byte *)
        else if (n <? 240)%N then 1       (* two- and three-byte characters *)
        else 2)                           (* outside the BMP: a surrogate pair *)
       + length rest)%nat
  end.

(** One-byte white space and line terminators: TAB, LF, VT, FF, CR, SP. *)
Definition isAsciiWhiteSpace (c : ascii) : bool :=
  ((9 <=? code c)%N && (code c <=? 13)%N) || (code c =? 32)%N.

(** Three-byte white space: U+1680, U+2000..U+200A, U+2028, U+2029,
    U+202F, U+205F, U+3000 and U+FEFF. *)
Definition isWhiteSpace3 (c1 c2 c3 : ascii) : bool :=
  let '(a, b, c) := (code c1, code c2, code c3) in
  ((a =? 225) && (b =? 154) && (c =? 128)
   || (a =? 226) && (b =? 128)
      && ((128 <=? c) && (c <=? 138) || (c =? 168) || (c =? 169) || (c =? 175))
   || (a =? 226) && (b =? 129) && (c =? 159)
   || (a =? 227) && (b =? 128) && (c =? 128)
   || (a =? 239) && (b =? 187) && (c =? 191))%N.

(** [TrimString(s, start)]. *)
Fixpoint trimStart (s : string) : string :=
  match s with
  | String c1 s1 =>
      if isAsciiWhiteSpace c1 then trimStart s1
      else
        match s1 with
        | String c2 s2 =>
            if ((code c1 =? 194) && (code c2 =? 160))%N then trimStart s2   (* U+00A0 *)
            else
              match s2 with
              | String c3 s3 => if isWhiteSpace3 c1 c2 c3 then trimStart s3 else s
              | EmptyString => s
              end
        | EmptyString => s
        end
  | EmptyString => s
  end.

Fixpoint rev_string (acc s : string) : string :=
  match s with
  | EmptyString => acc
  | String c rest => rev_string (String c acc) rest
  end.

(** White space read backwards: the bytes of a character come last first. *)
Fixpoint trimStart_rev (s : string) : string :=
  match s with
  | String c1 s1 =>
      if isAsciiWhiteSpace c1 then trimStart_rev s1
      else
        match s1 with
        | String c2 s2 =>
            if ((code c2 =? 194) && (code c1 =? 160))%N then trimStart_rev s2
            else
              match s2 with
              | String c3 s3 => if isWhiteSpace3 c3 c2 c1 then trimStart_rev s3 else s
              | EmptyString => s
              end
        | EmptyString => s
        end
  | EmptyString => s
  end.

(** [s.trim()]. *)
Definition trim (s : string) : string :=
  rev_string "" (trimStart_rev (rev_string "" (trimStart s))).

(** [s.toUpperCase()] on ASCII text: the letters [a]..[z] are raised and
    every other byte is kept.  (Outside ASCII the builtin follows the Unicode
    case mappings, which are not modelled; code that calls it takes the
    function as a parameter.) *)
Definition toUpperCaseChar (c : ascii) : ascii :=
  if isLower c then ascii_of_N (code c - 32) else c.

Fixpoint toUpperCase_ascii (s : string) : string :=
  match s with
  | EmptyString => EmptyString
  | String c rest => String (toUpperCaseChar c) (toUpperCase_ascii rest)
  end.

(** ** [parseFloat] *)

(** The longest run of decimal digits at the head of [s], and the rest. *)
Fixpoint spanDigits (s : string) : list Z * string :=
  match s with
  | String c rest =>
      if isDigit c
      then let '(ds, r) := spanDigits rest in ((Z.of_N (code c) - 48)%Z :: ds, r)
      else ([], s)
  | EmptyString => ([], s)
  end.

Definition digitsValue (ds : list Z) : Z :=
  fold_left (fun acc d => (10 * acc + d)%Z) ds 0%Z.

(** An optional sign: [true] for [-]. *)
Definition spanSign (s : string) : bool * string :=
  match s with
  | String "-" rest => (true, rest)
  | String "+" rest => (false, rest)
  | _ => (false, s)
  end.

(** The mathematical value [n * 10 ^ k] ([0 <= n]) rounded to the nearest
    number, ties to even, with the sign [neg]. *)
Definition roundDecimal (neg : bool) (n k : Z) : number :=
  match n with
  | Z0 => S754_zero neg
  | Zpos p =>
      if (0 <=? k)%Z
      then binary_round prec emax neg (Z.to_pos (Z.pos p * 10 ^ k)) 0
      else SFdiv prec emax (S754_finite neg p 0)
                           (S754_finite false (Z.to_pos (10 ^ (- k))) 0)
  | Zneg _ => S754_nan
  end.

(** The exponent part [e[+-]digits] at the head of [s]; [0] when [s] does
    not start with a complete one. *)
Definition exponentPart (s : string) : Z :=
  match s with
  | String c rest =>
      if (code c =? 101)%N || (code c =? 69)%N
      then
        let '(neg, r) := spanSign rest in
        match spanDigits r with
        | ([], _) => 0%Z
        | (ds, _) => if neg then (- digitsValue ds)%Z else digitsValue ds
        end
      else 0%Z
  | EmptyString => 0%Z
  end.

(** [parseFloat(s)]: white space is skipped, then the longest prefix that
    is a [StrDecimalLiteral] is read; NaN when there is none. *)
Definition parseFloat (s : string) : number :=
  let '(neg, r) := spanSign (trimStart s) in
  if String.prefix "Infinity" r then S754_infinity neg
  else
    let '(ip, r1) := spanDigits r in
    let '(fp, r2) :=
      match r1 with
      | String "." r1' => spanDigits r1'
      | _ => ([], r1)
      end in
    match ip, fp with
    | [], [] => S754_nan
    | _, _ =>
        roundDecimal neg (digitsValue (ip ++ fp))
                     (exponentPart r2 - Z.of_nat (List.length fp))
    end.

(** ** Values *)

Inductive value : Type :=
| JUndefined
| JNull
| JBool (b : bool)
| JNumber (n : number)
| JString (s : string)
| JArray (items : list value)
| JObject (props : gmap string value).

(** ToBoolean. *)
Definition truthy (v : value) : bool :=
  match v with
  | JUndefined | JNull => false
  | JBool b => b
  | JNumber n => number_truthy n
  | JString s => negb (String.eqb s "")
  | JArray _ | JObject _ => true
  end.

Definition isUndefined (v : value) : bool :=
  match v with JUndefined => true | _ => false end.

(** [a || b]. *)
Definition or_else (a b : value) : value := if truthy a then a else b.

(** Property read [o[key]] on an object's own properties. *)
Definition get (props : gmap string value) (key : string) : value :=
  default JUndefined (props !! key).

(** ** Completions: a call returns normally or throws *)

Inductive thrown : Type :=
| ErrorObject (message : string)      (* an instance of [Error] *)
| ThrownValue (v : value).            (* anything else *)

Inductive completion (A : Type) : Type :=
| Normal (a : A)
| Throw (e : thrown).
Arguments Normal {A} a.
Arguments Throw {A} e.

Definition bind {A B} (c : completion A) (k : A -> completion B) : completion B :=
  match c with
  | Normal a => k a
  | Throw e => Throw e
  end.

(** [try { body } catch (e) { handler(e) }]. *)
Definition try_catch {A} (body : completion A) (handler : thrown -> completion A)
  : completion A :=
  match body with
  | Normal a => Normal a
  | Throw e => handler e
  end.

End JS.

(* ===================================================================== *)
(** * The zod 3 parsers used by the schemas *)
(* ===================================================================== *)

Module Zod.
Import JS.

Inductive ZodParsedType : Type :=
| t_string | t_nan | t_number | t_integer | t_float | t_boolean
| t_undefined | t_null | t_array | t_object.

Definition parsedTypeName (t : ZodParsedType) : string :=
  match t with
  | t_string => "string" | t_nan => "nan" | t_number => "number"
  | t_integer => "integer" | t_float => "float" | t_boolean => "boolean"
  | t_undefined => "undefined" | t_null => "null" | t_array => "array"
  | t_object => "object"
  end.

Definition getParsedType (data : value) : ZodParsedType :=
  match data with
  | JUndefined => t_undefined
  | JNull => t_null
  | JBool _ => t_boolean
  | JNumber n => if isNaN n then t_nan else t_number
  | JString _ => t_string
  | JArray _ => t_array
  | JObject _ => t_object
  end.

Inductive ZodIssueCode : Type :=
| invalid_type | too_small | invalid_string | invalid_union | custom.

Record ZodIssue : Type := {
  issue_code : ZodIssueCode;
  issue_path : list string;
  issue_message : string;
}.

(** What a parser returns: the status ([valid], [dirty] or [aborted]), the
    parsed value unless aborted, and the issues added to the context. *)
Inductive ParseReturn : Type :=
| OK (v : value)
| DIRTY (v : value) (issues : list ZodIssue)
| INVALID (issues : list ZodIssue).

Definition issuesOf (r : ParseReturn) : list ZodIssue :=
  match r with
  | OK _ => []
  | DIRTY _ issues | INVALID issues => issues
  end.

Definition isAborted (r : ParseReturn) : bool :=
  match r with INVALID _ => true | _ => false end.

(** A schema: its [_parse], given the path of the input and the input. *)
Definition ZodType : Type := list string -> value -> ParseReturn.

(** The default error map's message for [invalid_type]. *)
Definition invalidType (expected : ZodParsedType) (path : list string) (data : value)
  : ZodIssue :=
  {| issue_code := invalid_type;
     issue_path := path;
     issue_message :=
       match data with
       | JUndefined => "Required"
       | _ => "Expected " +:+ parsedTypeName expected +:+ ", received "
              +:+ parsedTypeName (getParsedType data)
       end |}.

Definition finish (data : value) (issues : list ZodIssue) : ParseReturn :=
  match issues with
  | [] => OK data
  | _ => DIRTY data issues
  end.

(** ** [z.string()] with its checks *)

Inductive ZodStringCheck : Type :=
| str_min (minimum : nat) (message : option string)
| str_email.

(** zod's e-mail pattern, case-insensitive: no leading dot and no two dots
    in a row; a local part of letters, digits and [_ ' + - .] that ends in a
    letter, a digit or one of [_ + -]; an [@]; one or more dot-terminated
    labels, each a letter or digit followed by letters, digits and [-]; and
    a top-level domain of two or more letters. *)
Definition isAlnum (c : ascii) : bool := isLetter c || isDigit c.
Definition isLocalEnd (c : ascii) : bool :=
  isAlnum c || (code c =? 95)%N || (code c =? 43)%N || (code c =? 45)%N.
Definition isLocalChar (c : ascii) : bool :=
  isLocalEnd c || (code c =? 39)%N || (code c =? 46)%N.

Fixpoint splitOn (sep : ascii) (s : string) : list string :=
  match s with
  | EmptyString => [""]
  | String c rest =>
      if Ascii.eqb c sep then "" :: splitOn sep rest
      else match splitOn sep rest with
           | piece :: pieces => String c piece :: pieces
           | [] => [String c ""]
           end
  end.

Definition allChars (p : ascii -> bool) (s : string) : bool :=
  forallb p (list_ascii_of_string s).

Definition isDomainLabel (s : string) : bool :=
  match s with
  | String c rest => isAlnum c && allChars (fun d => isAlnum d || (code d =? 45)%N) rest
  | EmptyString => false
  end.

Definition isTopLevelDomain (s : string) : bool :=
  allChars isLetter s && (2 <=? String.length s)%nat.

Definition isLocalPart (s : string) : bool :=
  match rev (list_ascii_of_string s) with
  | last :: front =>
      isLocalEnd last && forallb isLocalChar front
      && negb (String.prefix "." s)
  | [] => false
  end.

Fixpoint hasDoubleDot (s : string) : bool :=
  match s with
  | String "." (String "." _) => true
  | String _ rest => hasDoubleDot rest
  | EmptyString => false
  end.

Definition emailRegex (s : string) : bool :=
  negb (hasDoubleDot s)
  && match splitOn "@" s with
     | [local; domain] =>
         isLocalPart local
         && match rev (splitOn "." domain) with
            | tld :: (_ :: _) as labels =>
                isTopLevelDomain tld && forallb isDomainLabel labels
            | _ => false
            end
     | _ => false
     end.

Definition stringCheck (path : list string) (s : string) (check : ZodStringCheck)
  : list ZodIssue :=
  match check with
  | str_min minimum message =>
      if (JS.length s <? minimum)%nat
      then [{| issue_code := too_small; issue_path := path;
               issue_message :=
                 default ("String must contain at least " +:+ pretty minimum
                          +:+ " character(s)") message |}]
      else []
  | str_email =>
      if emailRegex s then []
      else [{| issue_code := invalid_string; issue_path := path;
               issue_message := "Invalid email" |}]
  end.

Definition ZodString (checks : list ZodStringCheck) : ZodType := fun path data =>
  match data with
  | JString s => finish data (flat_map (stringCheck path s) checks)
  | _ => INVALID [invalidType t_string path data]
  end.

(** ** [z.number()] with its checks *)

Inductive ZodNumberCheck : Type :=
| num_int
| num_min (minimum : Z) (inclusive : bool).

Definition numberCheck (path : list string) (n : number) (check : ZodNumberCheck)
  : list ZodIssue :=
  match check with
  | num_int =>
      if isInteger n then []
      else [{| issue_code := invalid_type; issue_path := path;
               issue_message := "Expected integer, received float" |}]
  | num_min minimum inclusive =>
      if (if inclusive then lt n (ofZ minimum) else le n (ofZ minimum))
      then [{| issue_code := too_small; issue_path := path;
               issue_message :=
                 "Number must be "
                 +:+ (if inclusive then "greater than or equal to " else "greater than ")
                 +:+ pretty minimum |}]
      else []
  end.

Definition ZodNumber (checks : list ZodNumberCheck) : ZodType := fun path data =>
  match data with
  | JNumber n =>
      if isNaN n then INVALID [invalidType t_number path data]
      else finish data (flat_map (numberCheck path n) checks)
  | _ => INVALID [invalidType t_number path data]
  end.

(** [.nonnegative()], [.positive()] and [.int()]. *)
Definition nonnegative : ZodNumberCheck := num_min 0 true.
Definition positive : ZodNumberCheck := num_min 0 false.
Definition int : ZodNumberCheck := num_int.

(** ** [z.object(shape)], stripping or passing unknown keys through *)

Inductive UnknownKeys : Type := strip | passthrough.

(** One entry of [pairs]: the key, the parsed value, and [alwaysSet]. *)
Definition Pair : Type := string * ParseReturn * bool.

(** [ParseStatus.mergeObjectSync]. *)
Definition setPair (final : gmap string value) (pair : Pair) : gmap string value :=
  let '(key, r, alwaysSet) := pair in
  match r with
  | OK v | DIRTY v _ =>
      if negb (String.eqb key "__proto__")
         && (negb (isUndefined v) || alwaysSet)
      then <[key := v]> final
      else final
  | INVALID _ => final
  end.

Definition mergeObjectSync (pairs : list Pair) (extra : gmap string value)
  : ParseReturn :=
  let issues := flat_map (fun p => issuesOf p.1.2) pairs in
  if existsb (fun p => isAborted p.1.2) pairs then INVALID issues
  else finish (JObject (fold_left setPair pairs extra)) issues.

Definition shapePairs (shape : list (string * ZodType)) (path : list string)
    (props : gmap string value) : list Pair :=
  map (fun '(key, keyValidator) =>
         (key, keyValidator (path ++ [key])%list (get props key),
          bool_decide (is_Some (props !! key))))
      shape.

(** The keys outside the shape that [passthrough] copies: every own
    property but [__proto__] and those whose value is [undefined]. *)
Definition extraProps (shape : list (string * ZodType)) (props : gmap string value)
  : gmap string value :=
  filter (fun kv => (kv.1 ∉ shape.*1) /\ (kv.1 ≠ "__proto__") /\ isUndefined kv.2 = false)
         props.

Definition ZodObject (shape : list (string * ZodType)) (unknownKeys : UnknownKeys)
  : ZodType := fun path data =>
  match data with
  | JObject props =>
      mergeObjectSync
        (shapePairs shape path props)
        match unknownKeys with
        | passthrough => extraProps shape props
        | strip => ∅
        end
  | _ => INVALID [invalidType t_object path data]
  end.

(** ** [z.union(options)] *)

(** The first valid option wins; failing that the first dirty one, with
    its issues; failing that a single [invalid_union] issue. *)
Fixpoint unionFrom (options : list ZodType) (dirty : option ParseReturn)
    (path : list string) (data : value) : ParseReturn :=
  match options with
  | option :: rest =>
      match option path data with
      | OK v => OK v
      | DIRTY v issues =>
          unionFrom rest (Some (default (DIRTY v issues) dirty)) path data
      | INVALID _ => unionFrom rest dirty path data
      end
  | [] =>
      default (INVALID [{| issue_code := invalid_union; issue_path := path;
                           issue_message := "Invalid input" |}])
              dirty
  end.

Definition ZodUnion (options : list ZodType) : ZodType := unionFrom options None.

(** ** [.refine(check, message)], [.optional()] and [.nullable()] *)

Definition ZodEffects (schema : ZodType) (check : value -> bool) (message : string)
  : ZodType := fun path data =>
  match schema path data with
  | INVALID issues => INVALID issues
  | r =>
      let v := match r with OK v | DIRTY v _ => v | INVALID _ => JUndefined end in
      let refinement :=
        if check v then []
        else [{| issue_code := custom; issue_path := path;
                 issue_message := message |}] in
      finish v (issuesOf r ++ refinement)
  end.

Definition ZodOptional (schema : ZodType) : ZodType := fun path data =>
  match data with
  | JUndefined => OK JUndefined
  | _ => schema path data
  end.

Definition ZodNullable (schema : ZodType) : ZodType := fun path data =>
  match data with
  | JNull => OK JNull
  | _ => schema path data
  end.

(** ** [schema.safeParse(data)] *)

Inductive SafeParseReturn : Type :=
| SafeParseSuccess (data : value)
| SafeParseError (issues : list ZodIssue).

Definition safeParse (schema : ZodType) (data : value) : completion SafeParseReturn :=
  match schema [] data with
  | OK v => Normal (SafeParseSuccess v)
  | DIRTY _ issues | INVALID issues =>
      match issues with
      | [] => Throw (ErrorObject "Validation failed but no issues detected.")
      | _ => Normal (SafeParseError issues)
      end
  end.

End Zod.

(* ===================================================================== *)
(** * backend/src/domain/schemas/event.schema.ts *)
(* ===================================================================== *)

Module EventSchema.
Import JS Zod.

(** Modelled from the spec: the [EntityType] enum of [types/event.types.ts],
    which is not among the sources; the specification lists its six members. *)
Inductive EntityType : Type :=
| INCOME | EXPENSE | ASSET | LIABILITY | CASH_SAVINGS | USER.

Definition entityTypeName (entityType : EntityType) : string :=
  match entityType with
  | INCOME => "INCOME" | EXPENSE => "EXPENSE" | ASSET => "ASSET"
  | LIABILITY => "LIABILITY" | CASH_SAVINGS => "CASH_SAVINGS" | USER => "USER"
  end.

(** The refinement of the string option: [!isNaN(parseFloat(val))]. *)
Definition isNumberString (val : value) : bool :=
  match val with
  | JString s => negb (isNaN (parseFloat s))
  | _ => false
  end.

Definition monetaryValueSchema : ZodType :=
  ZodUnion
    [ ZodNumber [nonnegative];
      ZodObject [] passthrough;
      ZodEffects (ZodString []) isNumberString "Must be a valid number string" ].

Definition AssetEventDataSchema : ZodType :=
  ZodObject
    [ ("name", ZodString [str_min 1 (Some "Asset name is required")]);
      ("value", monetaryValueSchema) ]
    strip.

Definition LiabilityEventDataSchema : ZodType :=
  ZodObject
    [ ("name", ZodString [str_min 1 (Some "Liability name is required")]);
      ("value", monetaryValueSchema) ]
    strip.

Definition ExpenseEventDataSchema : ZodType :=
  ZodObject
    [ ("name", ZodString [str_min 1 (Some "Expense name is required")]);
      ("amount", monetaryValueSchema) ]
    strip.

Definition IncomeEventDataSchema : ZodType :=
  ZodObject
    [ ("name", ZodString [str_min 1 (Some "Income name is required")]);
      ("amount", monetaryValueSchema);
      ("type", ZodString [str_min 1 (Some "Income type is required")]);
      ("quadrant", ZodNullable (ZodOptional (ZodString []))) ]
    strip.

Definition CashSavingsEventDataSchema : ZodType :=
  ZodObject [ ("amount", monetaryValueSchema) ] strip.

Definition UserEventDataSchema : ZodType :=
  ZodObject
    [ ("preferredCurrencyId", ZodOptional (ZodNumber [int; positive]));
      ("name", ZodOptional (ZodString []));
      ("email", ZodOptional (ZodString [str_email])) ]
    passthrough.

Definition eventDataSchemaMap (entityType : EntityType) : option ZodType :=
  match entityType with
  | ASSET => Some AssetEventDataSchema
  | LIABILITY => Some LiabilityEventDataSchema
  | EXPENSE => Some ExpenseEventDataSchema
  | INCOME => Some IncomeEventDataSchema
  | CASH_SAVINGS => Some CashSavingsEventDataSchema
  | USER => Some UserEventDataSchema
  end.

(** [path.join('.')] and [messages.join('; ')]. *)
Fixpoint join (sep : string) (parts : list string) : string :=
  match parts with
  | [] => ""
  | [part] => part
  | part :: rest => part +:+ sep +:+ join sep rest
  end.

Definition issueText (err : ZodIssue) : string :=
  join "." (issue_path err) +:+ ": " +:+ issue_message err.

Definition validateEventPayload (entityType : EntityType) (payload : value)
  : completion value :=
  match eventDataSchemaMap entityType with
  | None =>
      Throw (ErrorObject ("No validation schema found for entity type: "
                          +:+ entityTypeName entityType))
  | Some schema =>
      bind (safeParse schema payload) (fun result =>
        match result with
        | SafeParseError issues =>
            let errorMessages := join "; " (map issueText issues) in
            Throw (ErrorObject ("Invalid " +:+ entityTypeName entityType
                                +:+ " event payload: " +:+ errorMessages))
        | SafeParseSuccess data => Normal data
        end)
  end.

(** The two result shapes of the non-throwing variant. *)
Inductive ValidationOutcome : Type :=
| ValidationResult (data : value)         (* [{ success: true, data }] *)
| ValidationError (error : string).       (* [{ success: false, error }] *)

Definition safeValidateEventPayload (entityType : EntityType) (payload : value)
  : completion ValidationOutcome :=
  try_catch
    (bind (validateEventPayload entityType payload) (fun data =>
       Normal (ValidationResult data)))
    (fun error =>
       Normal (ValidationError
                 match error with
                 | ErrorObject message => message
                 | ThrownValue _ => "Unknown validation error"
                 end)).

(** The monetary field of each payload shape. *)
Definition monetaryField (entityType : EntityType) : option string :=
  match entityType with
  | ASSET | LIABILITY => Some "value"
  | EXPENSE | INCOME | CASH_SAVINGS => Some "amount"
  | USER => None
  end.

End EventSchema.


(* ===================================================================== *)
(** * backend test utilities: resetDatabase *)
(* ===================================================================== *)

Module TestDatabase.
Import JS.

(** The double quote. *)
Definition dquote : string := String "034"%char "".

(** The name of a table of the public schema, schema and table quoted. *)
Definition qualified (name : string) : string :=
  dquote +:+ "public" +:+ dquote +:+ "." +:+ dquote +:+ name +:+ dquote.

(** [resetDatabase], given the rows of
    [SELECT tablename FROM pg_tables WHERE schemaname='public']: the
    statements it passes to [prisma.$executeRawUnsafe]. *)
Definition resetDatabase (tablenames : list string) : list string :=
  let tables :=
    EventSchema.join ", "
      (map qualified
           (List.filter (fun name => negb (String.eqb name "_prisma_migrations"))
                        tablenames)) in
  if (0 <? JS.length tables)%nat
  then ["TRUNCATE TABLE " +:+ tables +:+ " CASCADE;"]
  else [].

End TestDatabase.

(* ===================================================================== *)
(** * backend/prisma/migrations *)
(* ===================================================================== *)

Module Migration.

Inductive SqlType : Type :=
| SERIAL | TEXT | BOOLEAN | INTEGER | JSONB
| TIMESTAMP (precision : nat)
| DOUBLE_PRECISION
| DECIMAL (precision scale : nat).

Record Column : Type := {
  data_type : SqlType;
  not_null : bool;
  default_expr : option string;
}.

Definition col (ty : SqlType) : Column :=
  {| data_type := ty; not_null := true; default_expr := None |}.
Definition col_null (ty : SqlType) : Column :=
  {| data_type := ty; not_null := false; default_expr := None |}.
Definition col_default (ty : SqlType) (expr : string) : Column :=
  {| data_type := ty; not_null := true; default_expr := Some expr |}.

(** The statements the two migrations are made of.  Indexes and foreign
    keys name columns but leave every column as it is. *)
Inductive Statement : Type :=
| CREATE_TABLE (table : string) (columns : list (string * Column))
| ALTER_COLUMN_SET_DATA_TYPE (table column : string) (ty : SqlType)
| CREATE_INDEX (table : string) (columns : list string)
| ADD_FOREIGN_KEY (table column ref_table ref_column : string).

(** A database schema: table name to column name to column. *)
Abbreviation Schema := (gmap string (gmap string Column)).

Definition hasColumn (s : Schema) (table column : string) : bool :=
  match s !! table with
  | Some columns => bool_decide (is_Some (columns !! column))
  | None => false
  end.

(** One statement; [None] is the database's error for a table that
    exists already, or for a table or a column that is missing.  The rows
    a table holds are not part of a schema: a change of type that the
    database refuses for the values stored in the column, or for an old
    type with no assignment cast to the new one, succeeds here.  What is
    proved of a migration is therefore proved of its runs that succeed, or
    of its failure on a missing table or column. *)
Definition execute (s : Schema) (stmt : Statement) : option Schema :=
  match stmt with
  | CREATE_TABLE table columns =>
      match s !! table with
      | Some _ => None
      | None => Some (<[table := list_to_map columns]> s)
      end
  | ALTER_COLUMN_SET_DATA_TYPE table column ty =>
      match s !! table with
      | Some columns =>
          match columns !! column with
          | Some c =>
              Some (<[table :=
                        <[column := {| data_type := ty;
                                       not_null := not_null c;
                                       default_expr := default_expr c |}]> columns]> s)
          | None => None
          end
      | None => None
      end
  | CREATE_INDEX table columns =>
      if forallb (hasColumn s table) columns then Some s else None
  | ADD_FOREIGN_KEY table column ref_table ref_column =>
      if hasColumn s table column && hasColumn s ref_table ref_column
      then Some s else None
  end.

(** A migration file: its statements in order, all or nothing. *)
Fixpoint migrate (s : Schema) (stmts : list Statement) : option Schema :=
  match stmts with
  | [] => Some s
  | stmt :: rest =>
      match execute s stmt with
      | Some s' => migrate s' rest
      | None => None
      end
  end.

Definition columnType (s : Schema) (table column : string) : option SqlType :=
  match s !! table with
  | Some columns => data_type <$> columns !! column
  | None => None
  end.

Definition now : string := "CURRENT_TIMESTAMP".

(** The initial migration (the first [migration.sql], which creates every
    table). *)
Definition init : list Statement :=
  [ CREATE_TABLE "User"
      [ ("id", col SERIAL); ("name", col TEXT); ("email", col TEXT);
        ("password", col TEXT); ("isAdmin", col_default BOOLEAN "false");
        ("preferredCurrencyId", col_default INTEGER "1");
        ("createdAt", col_default (TIMESTAMP 3) now);
        ("updatedAt", col (TIMESTAMP 3)); ("lastLogin", col_null (TIMESTAMP 3)) ];
    CREATE_TABLE "Session"
      [ ("id", col SERIAL); ("token", col TEXT); ("expiresAt", col (TIMESTAMP 3));
        ("createdAt", col_default (TIMESTAMP 3) now);
        ("isValid", col_default BOOLEAN "true"); ("userId", col INTEGER) ];
    CREATE_TABLE "Expense"
      [ ("id", col SERIAL); ("name", col TEXT); ("amount", col DOUBLE_PRECISION);
        ("isId", col INTEGER) ];
    CREATE_TABLE "Asset"
      [ ("id", col SERIAL); ("name", col TEXT); ("value", col DOUBLE_PRECISION);
        ("bsId", col INTEGER) ];
    CREATE_TABLE "Liability"
      [ ("id", col SERIAL); ("name", col TEXT); ("value", col DOUBLE_PRECISION);
        ("bsId", col INTEGER) ];
    CREATE_TABLE "BalanceSheet" [ ("id", col SERIAL); ("userId", col INTEGER) ];
    CREATE_TABLE "IncomeLine"
      [ ("id", col SERIAL); ("name", col TEXT); ("amount", col DOUBLE_PRECISION);
        ("type", col TEXT); ("isId", col INTEGER); ("quadrant", col_null TEXT) ];
    CREATE_TABLE "IncomeStatement" [ ("id", col SERIAL); ("userId", col INTEGER) ];
    CREATE_TABLE "CashSavings"
      [ ("id", col SERIAL); ("amount", col_default DOUBLE_PRECISION "0");
        ("userId", col INTEGER) ];
    CREATE_TABLE "Currency"
      [ ("id", col SERIAL); ("cur_symbol", col TEXT); ("cur_name", col TEXT) ];
    CREATE_TABLE "Event"
      [ ("id", col SERIAL); ("timestamp", col_default (TIMESTAMP 3) now);
        ("actionType", col TEXT); ("entityType", col TEXT);
        ("entitySubtype", col_null TEXT); ("userId", col INTEGER);
        ("entityId", col INTEGER); ("beforeValue", col_null JSONB);
        ("afterValue", col_null JSONB) ];
    CREATE_TABLE "FinancialSnapshot"
      [ ("id", col TEXT); ("userId", col INTEGER); ("date", col (TIMESTAMP 3));
        ("data", col JSONB); ("createdAt", col_default (TIMESTAMP 3) now) ];
    CREATE_INDEX "User" ["name"];
    CREATE_INDEX "User" ["email"];
    CREATE_INDEX "BalanceSheet" ["userId"];
    CREATE_INDEX "IncomeStatement" ["userId"];
    CREATE_INDEX "CashSavings" ["userId"];
    CREATE_INDEX "Event" ["userId"];
    CREATE_INDEX "Event" ["entityType"];
    CREATE_INDEX "Event" ["entityId"];
    CREATE_INDEX "Event" ["userId"; "timestamp"];
    CREATE_INDEX "FinancialSnapshot" ["userId"; "date"];
    ADD_FOREIGN_KEY "User" "preferredCurrencyId" "Currency" "id";
    ADD_FOREIGN_KEY "Session" "userId" "User" "id";
    ADD_FOREIGN_KEY "Expense" "isId" "IncomeStatement" "id";
    ADD_FOREIGN_KEY "Asset" "bsId" "BalanceSheet" "id";
    ADD_FOREIGN_KEY "Liability" "bsId" "BalanceSheet" "id";
    ADD_FOREIGN_KEY "BalanceSheet" "userId" "User" "id";
    ADD_FOREIGN_KEY "IncomeLine" "isId" "IncomeStatement" "id";
    ADD_FOREIGN_KEY "IncomeStatement" "userId" "User" "id";
    ADD_FOREIGN_KEY "CashSavings" "userId" "User" "id";
    ADD_FOREIGN_KEY "Event" "userId" "User" "id";
    ADD_FOREIGN_KEY "FinancialSnapshot" "userId" "User" "id" ].

(** [20251226081726_decimal_precision/migration.sql]. *)
Definition decimal_precision : list Statement :=
  [ ALTER_COLUMN_SET_DATA_TYPE "Asset" "value" (DECIMAL 15 2);
    ALTER_COLUMN_SET_DATA_TYPE "CashSavings" "amount" (DECIMAL 15 2);
    ALTER_COLUMN_SET_DATA_TYPE "Expense" "amount" (DECIMAL 15 2);
    ALTER_COLUMN_SET_DATA_TYPE "IncomeLine" "amount" (DECIMAL 15 2);
    ALTER_COLUMN_SET_DATA_TYPE "Liability" "value" (DECIMAL 15 2) ].

(** The monetary columns of the entity tables. *)
Definition monetaryColumns : list (string * string) :=
  [ ("Asset", "value"); ("Liability", "value"); ("Expense", "amount");
    ("IncomeLine", "amount"); ("CashSavings", "amount") ].

(** A fixed-point type, as opposed to a floating-point one. *)
Definition isFixedPoint (ty : SqlType) : bool :=
  match ty with DECIMAL _ _ => true | _ => false end.

End Migration.

(* ===================================================================== *)
(** * The totals of the two financial views *)
(* ===================================================================== *)

Module FinancialView.
Import JS.

(** A monetary value as the API delivers it.  The interfaces declare
    [value: number] and [amount: number]; the Decimal columns reach the
    client as strings (AdminUserFinancialView: "API may return strings"). *)
Inductive Amount : Type :=
| Num (n : number)
| Str (s : string).

(** The parts of [FinancialData] the balance-sheet totals read. *)
Record Asset : Type := { asset_id : Z; asset_name : string; asset_value : Amount }.
Record Liability : Type :=
  { liability_id : Z; liability_name : string; liability_value : Amount }.
Record BalanceSheet : Type :=
  { assets : list Asset; liabilities : list Liability }.
Record FinancialData : Type := { balanceSheet : option BalanceSheet }.

(** ** [Number(x)] *)

(** The value of [c] as a digit of the base, if it is one. *)
Definition digitIn (base : Z) (c : ascii) : option Z :=
  let n := Z.of_N (code c) in
  let d := if isDigit c then (n - 48)%Z
           else if ((97 <=? n) && (n <=? 102))%Z then (n - 87)%Z
           else if ((65 <=? n) && (n <=? 70))%Z then (n - 55)%Z
           else base in
  if (d <? base)%Z then Some d else None.

Fixpoint digitsIn (base : Z) (s : string) : option (list Z) :=
  match s with
  | EmptyString => Some []
  | String c rest =>
      d ← digitIn base c; ds ← digitsIn base rest; Some (d :: ds)
  end.

(** [0x], [0o] and [0b] literals: the prefix and one digit or more. *)
Definition nonDecimalIntegerLiteral (t : string) : option Z :=
  match t with
  | String "0" (String p (String c rest)) =>
      let base :=
        if Ascii.eqb p "x" || Ascii.eqb p "X" then 16%Z
        else if Ascii.eqb p "o" || Ascii.eqb p "O" then 8%Z
        else if Ascii.eqb p "b" || Ascii.eqb p "B" then 2%Z
        else 0%Z in
      if (base =? 0)%Z then None
      else (fun ds => fold_left (fun acc d => (base * acc + d)%Z) ds 0%Z)
           <$> digitsIn base (String c rest)
  | _ => None
  end.

(** A [StrDecimalLiteral] from the first character to the last: an
    optional sign, then [Infinity], or digits with an optional fraction and
    an optional exponent. *)
Definition isStrDecimalLiteral (t : string) : bool :=
  let '(_, r) := spanSign t in
  if String.eqb r "Infinity" then true
  else
    let '(ip, r1) := spanDigits r in
    let '(fp, r2) :=
      match r1 with
      | String "." r1' => spanDigits r1'
      | _ => ([], r1)
      end in
    match ip, fp with
    | [], [] => false
    | _, _ =>
        match r2 with
        | EmptyString => true
        | String c r3 =>
            ((code c =? 101)%N || (code c =? 69)%N)
            && match spanDigits (spanSign r3).2 with
               | (_ :: _, EmptyString) => true
               | _ => false
               end
        end
    end.

(** [StringToNumber]: white space is trimmed at both ends; the empty
    string is [0]; the whole of what is left must be a numeric literal,
    else the result is NaN. *)
Definition StringToNumber (s : string) : number :=
  let t := trim s in
  if String.eqb t "" then ofZ 0
  else match nonDecimalIntegerLiteral t with
       | Some z => ofZ z
       | None => if isStrDecimalLiteral t then parseFloat t else S754_nan
       end.

(** [Number(x)]: a number is itself, a string is converted. *)
Definition Number (x : Amount) : number :=
  match x with
  | Num n => n
  | Str s => StringToNumber s
  end.

(** ** [a + b], [a - b] and [a || 0] *)

Section Builtins.

(** [Number::toString], the decimal text of a number. *)
Variable toString : number -> string.

Definition ToString (a : Amount) : string :=
  match a with
  | Num n => toString n
  | Str s => s
  end.

(** [a + b]: numbers are added; when either operand is a string, both
    are turned into strings and joined. *)
Definition plusOp (a b : Amount) : Amount :=
  match a, b with
  | Num x, Num y => Num (add x y)
  | _, _ => Str (ToString a +:+ ToString b)
  end.

End Builtins.

(** [a - b]: both operands are converted to numbers. *)
Definition minusOp (a b : Amount) : number := sub (Number a) (Number b).

(** [x || 0] on a number, where [x] is [undefined] when the optional
    chain stopped. *)
Definition orZero (x : option number) : number :=
  match x with
  | Some n => if number_truthy n then n else ofZ 0
  | None => ofZ 0
  end.

(** [x || 0] on a number or a string; the empty string is falsy. *)
Definition orZeroOf (x : option Amount) : Amount :=
  match x with
  | Some (Num n) => if number_truthy n then Num n else Num (ofZ 0)
  | Some (Str s) => if String.eqb s "" then Num (ofZ 0) else Str s
  | None => Num (ofZ 0)
  end.

(** [components/AdminUserFinancialView]: values pass through [Number]. *)
Module Admin.

Definition totalAssets (financialData : FinancialData) : number :=
  orZero ((fun bs => fold_left (fun sum asset => add sum (Number (asset_value asset)))
                               (assets bs) (ofZ 0))
          <$> balanceSheet financialData).

Definition totalLiabilities (financialData : FinancialData) : number :=
  orZero ((fun bs => fold_left (fun sum liability =>
                                  add sum (Number (liability_value liability)))
                               (liabilities bs) (ofZ 0))
          <$> balanceSheet financialData).

Definition netWorth (financialData : FinancialData) : number :=
  sub (totalAssets financialData) (totalLiabilities financialData).

End Admin.

(** [components/UserFinancialView/UserFinancialView.tsx]: values are
    added as they come. *)
Module User.

Section Builtins.

Variable toString : number -> string.

Definition totalAssets (financialData : FinancialData) : Amount :=
  orZeroOf ((fun bs => fold_left (fun sum asset => plusOp toString sum (asset_value asset))
                                 (assets bs) (Num (ofZ 0)))
            <$> balanceSheet financialData).

Definition totalLiabilities (financialData : FinancialData) : Amount :=
  orZeroOf ((fun bs => fold_left (fun sum liability =>
                                    plusOp toString sum (liability_value liability))
                                 (liabilities bs) (Num (ofZ 0)))
            <$> balanceSheet financialData).

Definition netWorth (financialData : FinancialData) : number :=
  minusOp (totalAssets financialData) (totalLiabilities financialData).

End Builtins.

End User.

(** The left-to-right sum of a list of numbers, from [0]. *)
Definition sum (xs : list number) : number := fold_left add xs (ofZ 0).

Definition assetValues (financialData : FinancialData) : list Amount :=
  match balanceSheet financialData with
  | Some bs => map asset_value (assets bs)
  | None => []
  end.

Definition liabilityValues (financialData : FinancialData) : list Amount :=
  match balanceSheet financialData with
  | Some bs => map liability_value (liabilities bs)
  | None => []
  end.

(** A finite binary64 number: what a JSON number or a DECIMAL(15,2) amount
    becomes. *)
Definition finiteNumber (x : number) : bool :=
  isFinite x && valid_binary prec emax x.

End FinancialView.


(* ===================================================================== *)
(** * The income and expense totals of the financial views *)
(* ===================================================================== *)

Module CashflowView.
Import JS FinancialView.

(** The parts of [FinancialData] the income, expense and savings totals
    read. *)
Record Income : Type :=
  { income_id : Z; income_name : string; income_amount : Amount; income_type : string }.
Record Expense : Type :=
  { expense_id : Z; expense_name : string; expense_amount : Amount }.
Record IncomeStatement : Type := { expenses : list Expense }.
Record CashSavings : Type := { cashSavings_amount : Amount }.
Record CashflowData : Type := {
  income : option (list Income);
  incomeStatement : option IncomeStatement;
  cashSavings : option CashSavings;
}.

(** [financialData.income?.filter(i => i.type === type) || []]. *)
Definition incomeOfType (type : string) (financialData : CashflowData) : list Income :=
  default [] (List.filter (fun i => String.eqb (income_type i) type)
              <$> income financialData).

(** [financialData.incomeStatement?.expenses || []]. *)
Definition expensesOf (financialData : CashflowData) : list Expense :=
  default [] (expenses <$> incomeStatement financialData).

(** [components/AdminUserFinancialView]: amounts pass through [Number]. *)
Module Admin.

Definition totalOf (items : list Income) : number :=
  fold_left (fun sum i => add sum (Number (income_amount i))) items (ofZ 0).

Definition totalIncome (financialData : CashflowData) : number :=
  let totalEarnedIncome := totalOf (incomeOfType "Earned" financialData) in
  let totalPortfolioIncome := totalOf (incomeOfType "Portfolio" financialData) in
  let totalPassiveIncome := totalOf (incomeOfType "Passive" financialData) in
  add (add totalEarnedIncome totalPortfolioIncome) totalPassiveIncome.

Definition totalExpenses (financialData : CashflowData) : number :=
  fold_left (fun sum e => add sum (Number (expense_amount e)))
            (expensesOf financialData) (ofZ 0).

Definition cashflow (financialData : CashflowData) : number :=
  sub (totalIncome financialData) (totalExpenses financialData).

(** [Number(financialData.cashSavings?.amount) || 0]; [Number(undefined)]
    is NaN. *)
Definition cashSavingsTotal (financialData : CashflowData) : number :=
  let n := match cashSavings financialData with
           | Some c => Number (cashSavings_amount c)
           | None => S754_nan
           end in
  if number_truthy n then n else ofZ 0.

End Admin.

(** [components/UserFinancialView/UserFinancialView.tsx]: amounts are
    added as they come. *)
Module User.

Section Builtins.

Variable toString : number -> string.

Definition totalOf (items : list Income) : Amount :=
  fold_left (fun sum i => plusOp toString sum (income_amount i)) items (Num (ofZ 0)).

Definition totalIncome (financialData : CashflowData) : Amount :=
  let totalEarnedIncome := totalOf (incomeOfType "Earned" financialData) in
  let totalPortfolioIncome := totalOf (incomeOfType "Portfolio" financialData) in
  let totalPassiveIncome := totalOf (incomeOfType "Passive" financialData) in
  plusOp toString (plusOp toString totalEarnedIncome totalPortfolioIncome)
         totalPassiveIncome.

Definition totalExpenses (financialData : CashflowData) : Amount :=
  fold_left (fun sum e => plusOp toString sum (expense_amount e))
            (expensesOf financialData) (Num (ofZ 0)).

End Builtins.

(** [financialData.cashSavings?.amount || 0]. *)
Definition cashSavingsTotal (financialData : CashflowData) : Amount :=
  orZeroOf (cashSavings_amount <$> cashSavings financialData).

End User.

End CashflowView.

(* ===================================================================== *)
(** * backend/src/controllers/analysis.controller.ts *)
(* ===================================================================== *)

Module AnalysisController.
Import JS.

(** The request as the handlers read it: [req.user?.userId] and [req.query]. *)
Record AuthUser : Type := { userId : value }.
Record Request : Type := { user : option AuthUser; query : gmap string value }.

(** [res.status(code).json(body)]. *)
Record Response : Type := { status : Z; json : value }.

(** What a handler does besides answering. *)
Inductive Effect : Type :=
| call_getFinancialSnapshot (userId date : value)
| call_getFinancialTrajectory (userId startDate endDate interval : value)
| console_error (label : string) (error : thrown).

(** A handler's run: the effects in order, and how it completed. *)
Definition IO (A : Type) : Type := list Effect * completion A.

Definition ret {A} (a : A) : IO A := ([], Normal a).

Definition io_bind {A B} (m : IO A) (k : A -> IO B) : IO B :=
  match m with
  | (trace, Normal a) => let '(trace', r) := k a in (trace ++ trace', r)%list
  | (trace, Throw e) => (trace, Throw e)
  end.

Definition io_catch {A} (body : IO A) (handler : thrown -> IO A) : IO A :=
  match body with
  | (trace, Normal a) => (trace, Normal a)
  | (trace, Throw e) => let '(trace', r) := handler e in (trace ++ trace', r)%list
  end.

Notation "'let!' x := m 'in' k" := (io_bind m (fun x => k))
  (at level 10, x name, m at level 100, k at level 200).

Definition log_error (label : string) (error : thrown) : IO unit :=
  ([console_error label error], Normal tt).

Definition error_body (message : value) : value :=
  JObject {[ "error" := message ]}.

(** [error.message] for a caught value; reading a property of [null] or
    [undefined] throws a TypeError. *)
Definition message_of (error : thrown) : IO value :=
  match error with
  | ErrorObject message => ret (JString message)
  | ThrownValue (JObject props) => ret (get props "message")
  | ThrownValue (JUndefined | JNull) =>
      ([], Throw (ErrorObject "Cannot read properties of undefined (reading 'message')"))
  | ThrownValue _ => ret JUndefined
  end.

Section Services.

(** [services/analysis.service]: outside this file; each call resolves to a
    value or rejects. *)
Variable getFinancialSnapshot : value -> value -> completion value.
Variable getFinancialTrajectory : value -> value -> value -> value -> completion value.

Definition await_getFinancialSnapshot (userId date : value) : IO value :=
  ([call_getFinancialSnapshot userId date], getFinancialSnapshot userId date).

Definition await_getFinancialTrajectory (userId startDate endDate interval : value)
  : IO value :=
  ([call_getFinancialTrajectory userId startDate endDate interval],
   getFinancialTrajectory userId startDate endDate interval).

Definition requestUserId (req : Request) : value :=
  match user req with
  | Some u => userId u
  | None => JUndefined
  end.

Definition getFinancialSnapshotHandler (req : Request) : IO Response :=
  io_catch
    (let userId := requestUserId req in
     if negb (truthy userId)
     then ret {| status := 401; json := error_body (JString "Authentication required") |}
     else
       let date := get (query req) "date" in
       let! snapshot := await_getFinancialSnapshot userId date in
       ret {| status := 200; json := snapshot |})
    (fun error =>
       let! _ := log_error "Get financial snapshot error:" error in
       let! message := message_of error in
       ret {| status := 500;
              json := error_body (or_else message
                                          (JString "Failed to get financial snapshot")) |}).

Definition getFinancialTrajectoryHandler (req : Request) : IO Response :=
  io_catch
    (let userId := requestUserId req in
     if negb (truthy userId)
     then ret {| status := 401; json := error_body (JString "Authentication required") |}
     else
       let startDate := get (query req) "startDate" in
       let endDate := get (query req) "endDate" in
       let interval := or_else (get (query req) "interval") (JString "monthly") in
       if negb (truthy startDate) || negb (truthy endDate)
       then ret {| status := 400;
                   json := error_body (JString "startDate and endDate are required") |}
       else
         let! trajectory :=
           await_getFinancialTrajectory userId startDate endDate interval in
         ret {| status := 200; json := trajectory |})
    (fun error =>
       let! _ := log_error "Get financial trajectory error:" error in
       let! message := message_of error in
       ret {| status := 500;
              json := error_body (or_else message
                                          (JString "Failed to get financial trajectory")) |}).

End Services.

(** The service calls of a run. *)
Definition isServiceCall (e : Effect) : bool :=
  match e with
  | call_getFinancialSnapshot _ _ | call_getFinancialTrajectory _ _ _ _ => true
  | console_error _ _ => false
  end.

Definition serviceCalls (trace : list Effect) : list Effect :=
  List.filter isServiceCall trace.

End AnalysisController.

(* ===================================================================== *)
(** * frontend/src/hooks/queries/useIncome.ts *)
(* ===================================================================== *)

Module UseIncome.
Import JS.

Inductive IncomeQuadrant : Type :=
| EMPLOYEE | SELF_EMPLOYED | BUSINESS_OWNER | INVESTOR.

Inductive IncomeType : Type := Earned | Portfolio | Passive.

Definition IncomeType_eqb (a b : IncomeType) : bool :=
  match a, b with
  | Earned, Earned | Portfolio, Portfolio | Passive, Passive => true
  | _, _ => false
  end.

Record IncomeItem : Type := {
  id : value;
  name : value;
  amount : number;
  type : IncomeType;
  quadrant : IncomeQuadrant;
}.

Record NormalizedIncome : Type := {
  earned : list IncomeItem;
  portfolio : list IncomeItem;
  passive : list IncomeItem;
  all : list IncomeItem;
}.

Record IncomeTotals : Type := {
  totals_earned : number;
  totals_portfolio : number;
  totals_passive : number;
  totals_total : number;
  totals_passiveAndPortfolio : number;
}.

(** An income line of the API response, with the field types the casts of
    [normalizeIncomeItem] assume: [amount] a number or a string, [type] a
    string that may be missing. *)
Inductive RawAmount : Type :=
| amount_number (n : number)
| amount_string (s : string).

Record RawIncome : Type := {
  raw_id : value;
  raw_name : value;
  raw_amount : RawAmount;
  raw_type : option string;
  raw_quadrant : value;
}.

Definition typeQuadrantFallback (t : IncomeType) : IncomeQuadrant :=
  match t with
  | Earned => EMPLOYEE
  | Portfolio => INVESTOR
  | Passive => BUSINESS_OWNER
  end.

Section Builtins.

(** [String.prototype.toUpperCase]. *)
Variable toUpperCase : string -> string.

Definition normalizeQuadrant (v : value) (fallback : IncomeQuadrant) : IncomeQuadrant :=
  match v with
  | JString s =>
      let normalized := toUpperCase (trim s) in
      if String.eqb normalized "EMPLOYEE" then EMPLOYEE
      else if String.eqb normalized "SELF_EMPLOYED" then SELF_EMPLOYED
      else if String.eqb normalized "BUSINESS_OWNER" then BUSINESS_OWNER
      else if String.eqb normalized "INVESTOR" then INVESTOR
      else fallback
  | _ => fallback
  end.

Definition parseIncomeType (t : option string) : IncomeType :=
  match toUpperCase <$> t with
  | Some upper =>
      if String.eqb upper "EARNED" then Earned
      else if String.eqb upper "PORTFOLIO" then Portfolio
      else if String.eqb upper "PASSIVE" then Passive
      else Earned
  | None => Earned
  end.

Definition normalizeIncomeItem (item : RawIncome) : IncomeItem :=
  let type := parseIncomeType (raw_type item) in
  {| id := raw_id item;
     name := raw_name item;
     amount := match raw_amount item with
               | amount_number n => n
               | amount_string s => parseFloat s
               end;
     type := type;
     quadrant := normalizeQuadrant (raw_quadrant item) (typeQuadrantFallback type) |}.

(** [data] is the array of the response ([[]] when it is not an array). *)
Definition normalizeIncomeData (data : list RawIncome) : NormalizedIncome :=
  let all := map normalizeIncomeItem data in
  {| earned := List.filter (fun i => IncomeType_eqb (type i) Earned) all;
     portfolio := List.filter (fun i => IncomeType_eqb (type i) Portfolio) all;
     passive := List.filter (fun i => IncomeType_eqb (type i) Passive) all;
     all := all |}.

End Builtins.

Definition calculateIncomeTotals (income : NormalizedIncome) : IncomeTotals :=
  let earned := fold_left (fun sum i => add sum (amount i)) (earned income) (ofZ 0) in
  let portfolio := fold_left (fun sum i => add sum (amount i)) (portfolio income) (ofZ 0) in
  let passive := fold_left (fun sum i => add sum (amount i)) (passive income) (ofZ 0) in
  {| totals_earned := earned;
     totals_portfolio := portfolio;
     totals_passive := passive;
     totals_total := add (add earned portfolio) passive;
     totals_passiveAndPortfolio := add passive portfolio |}.

(** The left-to-right sum of the amounts of a list of items. *)
Definition sumAmounts (items : list IncomeItem) : number :=
  fold_left add (map amount items) (ofZ 0).

End UseIncome.


(* ===================================================================== *)
(** * frontend/src/hooks/queries/useIncome.ts: the optimistic mutations *)
(* ===================================================================== *)

Module IncomeMutations.
Import JS UseIncome.

(** ** The query cache, as [QueryClient] of @tanstack/react-query keeps it *)

(** The entry under [incomeKeys.all]: its data, [undefined] until
    something is stored, and the mark [invalidateQueries] sets. *)
Record QueryState : Type := { data : value; isInvalidated : bool }.

Definition getQueryData (q : QueryState) : value := data q.

(** [setQueryData(key, updater)]: the updater is given the data of the
    entry; a result of [undefined] leaves the entry as it is, any other
    result is stored and the entry is marked fresh. *)
Definition setData (q : QueryState) (result : value) : QueryState :=
  if isUndefined result then q else {| data := result; isInvalidated := false |}.

Definition setQueryData (q : QueryState) (updater : value -> completion value)
  : completion QueryState :=
  bind (updater (data q)) (fun result => Normal (setData q result)).

Definition invalidateQueries (q : QueryState) : QueryState :=
  {| data := data q; isInvalidated := true |}.

(** ** The values the callbacks build *)

Definition typeName (t : IncomeType) : string :=
  match t with
  | Earned => "Earned" | Portfolio => "Portfolio" | Passive => "Passive"
  end.

Definition quadrantName (q : IncomeQuadrant) : string :=
  match q with
  | EMPLOYEE => "EMPLOYEE" | SELF_EMPLOYED => "SELF_EMPLOYED"
  | BUSINESS_OWNER => "BUSINESS_OWNER" | INVESTOR => "INVESTOR"
  end.

Record AddIncomeInput : Type := {
  input_name : string;
  input_amount : number;
  input_type : IncomeType;
  input_quadrant : option IncomeQuadrant;
}.

Record UpdateIncomeInput : Type := {
  update_id : number;
  update_fields : AddIncomeInput;
}.

Record DeleteIncomeInput : Type := {
  delete_id : number;
  delete_type : IncomeType;
}.

(** [input.quadrant || typeQuadrantFallback[input.type]]. *)
Definition resolvedQuadrant (input : AddIncomeInput) : IncomeQuadrant :=
  default (typeQuadrantFallback (input_type input)) (input_quadrant input).

(** [Array.isArray(old) ? old : []]. *)
Definition oldArray (old : value) : list value :=
  match old with
  | JArray items => items
  | _ => []
  end.

(** [item.id] on a cached item: a property read, which throws on [null]
    and [undefined] and finds nothing on a primitive or an array. *)
Definition item_id (item : value) : completion value :=
  match item with
  | JObject props => Normal (get props "id")
  | JUndefined | JNull =>
      Throw (ErrorObject "Cannot read properties of undefined (reading 'id')")
  | _ => Normal JUndefined
  end.

(** [v === n] for a number [n]. *)
Definition strictEqualsNumber (v : value) (n : number) : bool :=
  match v with
  | JNumber m => SFeqb m n
  | _ => false
  end.

(** [{ ...item, name, amount, type, quadrant }]. *)
Definition withFields (input : AddIncomeInput) (props : gmap string value)
  : gmap string value :=
  <["quadrant" := JString (quadrantName (resolvedQuadrant input))]>
    (<["type" := JString (typeName (input_type input))]>
       (<["amount" := JNumber (input_amount input)]>
          (<["name" := JString (input_name input)]> props))).

(** [array.map(f)] and [array.filter(f)] with a callback that may throw. *)
Fixpoint mapM (f : value -> completion value) (items : list value)
  : completion (list value) :=
  match items with
  | [] => Normal []
  | item :: rest =>
      bind (f item) (fun item' =>
      bind (mapM f rest) (fun rest' => Normal (item' :: rest')))
  end.

Fixpoint filterM (f : value -> completion bool) (items : list value)
  : completion (list value) :=
  match items with
  | [] => Normal []
  | item :: rest =>
      bind (f item) (fun keep =>
      bind (filterM f rest) (fun rest' =>
        Normal (if keep then item :: rest' else rest')))
  end.

(** ** [useAddIncomeMutation] *)

Section Clock.

(** [Date.now()]. *)
Variable now : number.

Definition optimisticItem (newIncome : AddIncomeInput) : value :=
  JObject (withFields newIncome {[ "id" := JNumber (SFopp now) ]}).

Definition addUpdater (newIncome : AddIncomeInput) (old : value) : completion value :=
  Normal (JArray (oldArray old ++ [optimisticItem newIncome])).

End Clock.

(** ** [useUpdateIncomeMutation] *)

Definition updateItem (updatedIncome : UpdateIncomeInput) (item : value)
  : completion value :=
  bind (item_id item) (fun id =>
    if strictEqualsNumber id (update_id updatedIncome)
    then Normal match item with
                | JObject props => JObject (withFields (update_fields updatedIncome) props)
                | _ => item
                end
    else Normal item).

Definition updateUpdater (updatedIncome : UpdateIncomeInput) (old : value)
  : completion value :=
  bind (mapM (updateItem updatedIncome) (oldArray old)) (fun items =>
    Normal (JArray items)).

(** ** [useDeleteIncomeMutation] *)

Definition keepItem (deletedIncome : DeleteIncomeInput) (item : value)
  : completion bool :=
  bind (item_id item) (fun id =>
    Normal (negb (strictEqualsNumber id (delete_id deletedIncome)))).

Definition deleteUpdater (deletedIncome : DeleteIncomeInput) (old : value)
  : completion value :=
  bind (filterM (keepItem deletedIncome) (oldArray old)) (fun items =>
    Normal (JArray items)).

(** ** The callbacks, which the three hooks share but for the updater *)

(** The context [onMutate] returns: [{ previousData }]. *)
Record MutationContext : Type := { previousData : value }.

(** [cancelQueries] stops a fetch in flight and leaves the data alone. *)
Definition onMutate (updater : value -> completion value) (q : QueryState)
  : completion (QueryState * MutationContext) :=
  let previousData := getQueryData q in
  bind (setQueryData q updater) (fun q' =>
    Normal (q', {| previousData := previousData |})).

(** [if (context?.previousData) setQueryData(key, context.previousData)]. *)
Definition onError (context : option MutationContext) (q : QueryState) : QueryState :=
  match context with
  | Some c => if truthy (previousData c) then setData q (previousData c) else q
  | None => q
  end.

Definition onSettled (q : QueryState) : QueryState := invalidateQueries q.

(** A mutation whose request fails, as [useMutation] runs the callbacks:
    [onMutate], then [onError] with the context [onMutate] returned
    ([undefined] when [onMutate] itself threw), then [onSettled]. *)
Definition failedMutation (updater : value -> completion value) (q : QueryState)
  : QueryState :=
  match onMutate updater q with
  | Normal (q', context) => onSettled (onError (Some context) q')
  | Throw _ => onSettled (onError None q)
  end.

End IncomeMutations.


(* ===================================================================== *)
(** * Notions the properties are stated with *)
(* ===================================================================== *)

Section ValidatorNotions.
Import JS Zod EventSchema.

(** A field result that lets its object through: not aborted, no issue. *)
Definition clean (r : ParseReturn) : bool :=
  match r with
  | OK _ | DIRTY _ [] => true
  | _ => false
  end.

Definition keyOf (p : Pair) : string := p.1.1.

(** What the passthrough object option hands back: the own properties but
    [__proto__] and those whose value is [undefined]. *)
Definition ownProps (o : gmap string value) : gmap string value :=
  filter (fun kv => (kv.1 ≠ "__proto__") /\ isUndefined kv.2 = false) o.

(** What the monetary union hands back for a value it accepts. *)
Definition returnedAs (v : value) : value :=
  match v with
  | JObject o => JObject (ownProps o)
  | _ => v
  end.

(** The example payloads of the specification, and the rent of the second
    one with its amount written as a string. *)
Definition emptyNameAsset : value :=
  JObject {[ "name" := JString ""; "value" := JNumber (ofZ 10) ]}.
Definition negativeRent : value :=
  JObject {[ "name" := JString "Rent"; "amount" := JNumber (ofZ (-5)) ]}.
Definition jobIncome : value :=
  JObject {[ "name" := JString "Job"; "amount" := JString "1200.50";
             "type" := JString "Earned" ]}.
Definition negativeRentString : value :=
  JObject {[ "name" := JString "Rent"; "amount" := JString "-5" ]}.

(** A decimal numeral from the first character to the last: an optional
    sign, digits with an optional fraction, an optional exponent. *)
Definition isDecimalNumeral (s : string) : bool :=
  let '(_, r) := spanSign s in
  let '(ip, r1) := spanDigits r in
  let '(fp, r2) :=
    match r1 with
    | String "." r1' => spanDigits r1'
    | _ => ([], r1)
    end in
  match ip, fp with
  | [], [] => false
  | _, _ =>
      match r2 with
      | EmptyString => true
      | String c r3 =>
          ((code c =? 101)%N || (code c =? 69)%N)
          && match spanDigits (spanSign r3).2 with
             | (_ :: _, EmptyString) => true
             | _ => false
             end
      end
  end.

(** The values that denote an exact decimal quantity: a finite number, a
    string that is a decimal numeral, or a decimal object (decimal.js keeps
    the digits, the exponent and the sign under [d], [e] and [s]). *)
Definition denotesDecimal (v : value) : bool :=
  match v with
  | JNumber n => isFinite n
  | JString s => isDecimalNumeral s
  | JObject o =>
      bool_decide (is_Some (o !! "d") /\ is_Some (o !! "e") /\ is_Some (o !! "s"))
  | _ => false
  end.

End ValidatorNotions.

Section MigrationNotions.
Import Migration.

(** The columns of a schema whose type is floating point. *)
Definition floatingPointColumns (s : Schema) : list (string * string) :=
  flat_map (fun '(table, columns) =>
              flat_map (fun '(column, c) =>
                          match data_type c with
                          | DOUBLE_PRECISION => [(table, column)]
                          | _ => []
                          end)
                       (map_to_list columns))
           (map_to_list s).

(** The schema the initial migration creates, and the schema the
    decimal_precision migration turns it into. *)
Definition initialSchema : Schema :=
  Eval vm_compute in default ∅ (migrate ∅ init).
Definition migratedSchema : Schema :=
  Eval vm_compute in default ∅ (migrate initialSchema decimal_precision).

End MigrationNotions.

Section NumberNotions.
Import JS.

Definition emin64 : Z := SpecFloat.emin prec emax.

(** What a running total can be: [+0], a finite number whose exponent is
    not below the least one, or an infinity. *)
Definition runningTotal (x : number) : Prop :=
  match x with
  | S754_zero s => s = false
  | S754_finite _ _ e => (emin64 <= e)%Z
  | S754_infinity _ => True
  | S754_nan => False
  end.

(** What is added to it: a zero or a finite number. *)
Definition addend (x : number) : Prop :=
  match x with
  | S754_zero _ => True
  | S754_finite _ _ e => (emin64 <= e)%Z
  | _ => False
  end.



End NumberNotions.

Section ViewNotions.
Import JS FinancialView.

(** The balance sheet of the end-to-end scenario. *)
Definition houseAndMortgage : FinancialData :=
  {| balanceSheet := Some
       {| assets := [ {| asset_id := 1; asset_name := "House";
                         asset_value := Num (ofZ 300000) |} ];
          liabilities := [ {| liability_id := 1; liability_name := "Mortgage";
                              liability_value := Num (ofZ 250000) |} ] |} |}.

(** A balance sheet as the API delivers it, the values of the Decimal
    columns as strings: a house, a car and a mortgage. *)
Definition deliveredBalanceSheet : FinancialData :=
  {| balanceSheet := Some
       {| assets := [ {| asset_id := 1; asset_name := "House";
                         asset_value := Str "300000" |};
                      {| asset_id := 2; asset_name := "Car";
                         asset_value := Str "20000" |} ];
          liabilities := [ {| liability_id := 1; liability_name := "Mortgage";
                              liability_value := Str "250000" |} ] |} |}.

(** A value that is a number, and a finite one. *)
Definition finiteValue (x : Amount) : bool :=
  match x with
  | Num n => finiteNumber n
  | Str _ => false
  end.

End ViewNotions.

Section IncomeNotions.
Import JS UseIncome.

Definition incomeLine (amount type : string) : RawIncome :=
  {| raw_id := JUndefined; raw_name := JUndefined;
     raw_amount := amount_string amount; raw_type := Some type;
     raw_quadrant := JUndefined |}.


End IncomeNotions.

Section ControllerNotions.
Import JS AnalysisController.

Definition unauthorized : Response :=
  {| status := 401; json := error_body (JString "Authentication required") |}.
Definition datesRequired : Response :=
  {| status := 400;
     json := error_body (JString "startDate and endDate are required") |}.

(** A service that resolves to an empty series, and three requests. *)
Definition emptySeries : value -> value -> value -> value -> completion value :=
  fun _ _ _ _ => Normal (JArray []).

Definition anonymousRequest : Request :=
  {| user := None; query := ∅ |}.
Definition undatedRequest : Request :=
  {| user := Some {| userId := JNumber (ofZ 7) |};
     query := {[ "endDate" := JString "2025-12-31" ]} |}.
Definition datedRequest : Request :=
  {| user := Some {| userId := JNumber (ofZ 7) |};
     query := {[ "startDate" := JString "2025-01-01";
                 "endDate" := JString "2025-12-31" ]} |}.

End ControllerNotions.



Section SchemaNotions.
Import Migration.

(** The column of a table, with its nullability and default. *)
Definition columnOf (s : Schema) (table column : string) : option Column :=
  s !! table ≫= fun columns => columns !! column.

(** A column with its type set to [ty], and nothing else changed. *)
Definition retyped (ty : SqlType) (c : Column) : Column :=
  {| data_type := ty; not_null := not_null c; default_expr := default_expr c |}.

(** [ALTER COLUMN ... SET DATA TYPE ty], one statement for each target. *)
Definition alterAll (ty : SqlType) (targets : list (string * string)) : list Statement :=
  map (fun tc => ALTER_COLUMN_SET_DATA_TYPE tc.1 tc.2 ty) targets.

End SchemaNotions.

Section HandlerNotions.
Import JS AnalysisController.

(** The body of a 500 answer: the message of the error, or the handler's
    own text when the message is empty. *)
Definition failureBody (message fallback : string) : value :=
  error_body (JString (if String.eqb message "" then fallback else message)).

(** A snapshot service that rejects with an [Error], one that resolves
    to [null], and two more requests. *)
Definition snapshotUnavailable : value -> value -> completion value :=
  fun _ _ => Throw (ErrorObject "snapshot unavailable").
Definition noSnapshot : value -> value -> completion value :=
  fun _ _ => Normal JNull.
Definition snapshotRequest : Request :=
  {| user := Some {| userId := JNumber (ofZ 7) |};
     query := {[ "date" := JString "2025-06-30" ]} |}.
Definition yearlyRequest : Request :=
  {| user := Some {| userId := JNumber (ofZ 7) |};
     query := {[ "startDate" := JString "2025-01-01";
                 "endDate" := JString "2025-12-31";
                 "interval" := JString "yearly" ]} |}.



End HandlerNotions.

Section PayloadNotions.
Import JS Zod EventSchema.

(** The keys each payload schema declares. *)
Definition declaredKeys (entityType : EntityType) : list string :=
  match entityType with
  | ASSET | LIABILITY => ["name"; "value"]
  | EXPENSE => ["name"; "amount"]
  | INCOME => ["name"; "amount"; "type"; "quadrant"]
  | CASH_SAVINGS => ["amount"]
  | USER => ["preferredCurrencyId"; "name"; "email"]
  end.

(** What [mergeObjectSync] stores under the key of a pair that did not
    abort: the parsed value, unless it is [undefined] and the key was not in
    the input. *)
Definition fieldOut (r : ParseReturn) (present : bool) : option value :=
  match r with
  | OK v | DIRTY v _ => if negb (isUndefined v) || present then Some v else None
  | INVALID _ => None
  end.

(** A validator that hands back, for every input it lets through, a value
    it lets through unchanged. *)
Definition stable (ty : ZodType) : Prop :=
  forall path v, clean (ty path v) = true ->
    exists v', ty path v = OK v' /\ ty path v' = OK v'
               /\ (isUndefined v = true -> v' = JUndefined).

(** A validator that reports at least one issue whenever it does not
    return [OK]. *)
Definition informative (ty : ZodType) : Prop :=
  forall path v, match ty path v with
                 | OK _ => True
                 | DIRTY _ issues | INVALID issues => issues <> []
                 end.

(** A validator that returns its input whenever it lets it through. *)
Definition returnsInput (ty : ZodType) : Prop :=
  forall path v, clean (ty path v) = true -> ty path v = OK v.

(** How each payload schema treats the keys it does not declare. *)
Definition unknownKeysOf (entityType : EntityType) : UnknownKeys :=
  match entityType with USER => passthrough | _ => strip end.

(** What an object schema starts its result from. *)
Definition extraOf (shape : list (string * ZodType)) (unknownKeys : UnknownKeys)
    (props : gmap string value) : gmap string value :=
  match unknownKeys with passthrough => extraProps shape props | strip => ∅ end.

Definition notAnObject (v : value) : Prop :=
  match v with JObject _ => False | _ => True end.

(** An asset payload with a key the schema does not declare, the same
    payload without it, and a user payload with such a key. *)
Definition taggedAsset : value :=
  JObject {[ "name" := JString "House"; "value" := JNumber (ofZ 10);
             "note" := JString "x" ]}.
Definition plainAsset : value :=
  JObject {[ "name" := JString "House"; "value" := JNumber (ofZ 10) ]}.
Definition themedUser : value :=
  JObject {[ "name" := JString "Ann"; "theme" := JString "dark" ]}.

End PayloadNotions.

Section NumeralNotions.
Import JS Zod EventSchema.

(** The text starts with a decimal numeral: after an optional sign, the
    word [Infinity], a digit, or a dot and a digit. *)
Definition startsNumeral (s : string) : bool :=
  let r := (spanSign s).2 in
  String.prefix "Infinity" r
  || match r with
     | String c rest =>
         isDigit c
         || (Ascii.eqb c "." && match rest with
                                | String d _ => isDigit d
                                | EmptyString => false
                                end)
     | EmptyString => false
     end.

(** The values the monetary union accepts. *)
Definition acceptsMonetary (v : value) : bool :=
  match v with
  | JNumber n => negb (isNaN n) && negb (lt n (ofZ 0))
  | JObject _ => true
  | JString s => startsNumeral (trimStart s)
  | _ => false
  end.

End NumeralNotions.

Section AcceptNotions.
Import JS Zod EventSchema.

(** A string of one character or more; a string or nothing; a string,
    [null] or nothing. *)
Definition nonEmptyString (v : value) : bool :=
  match v with JString s => (1 <=? JS.length s)%nat | _ => false end.
Definition optionalString (v : value) : bool :=
  match v with JUndefined | JString _ => true | _ => false end.
Definition nullishString (v : value) : bool :=
  match v with JUndefined | JNull | JString _ => true | _ => false end.

(** A positive integer or nothing; an e-mail address or nothing. *)
Definition optionalId (v : value) : bool :=
  match v with
  | JUndefined => true
  | JNumber n => negb (isNaN n) && isInteger n && negb (le n (ofZ 0))
  | _ => false
  end.
Definition optionalEmail (v : value) : bool :=
  match v with
  | JUndefined => true
  | JString s => emailRegex s
  | _ => false
  end.

(** The payload objects each entity type takes, field by field. *)
Definition acceptablePayload (entityType : EntityType) (props : gmap string value)
  : bool :=
  match entityType with
  | ASSET | LIABILITY =>
      nonEmptyString (get props "name") && acceptsMonetary (get props "value")
  | EXPENSE =>
      nonEmptyString (get props "name") && acceptsMonetary (get props "amount")
  | INCOME =>
      nonEmptyString (get props "name") && acceptsMonetary (get props "amount")
      && nonEmptyString (get props "type") && nullishString (get props "quadrant")
  | CASH_SAVINGS => acceptsMonetary (get props "amount")
  | USER =>
      optionalId (get props "preferredCurrencyId") && optionalString (get props "name")
      && optionalEmail (get props "email")
  end.

End AcceptNotions.

Section AmountNotions.
Import JS UseIncome.

(** The amount of a line does not read as a number. *)
Definition unreadableAmount (line : RawIncome) : bool :=
  match raw_amount line with
  | amount_number n => isNaN n
  | amount_string s => negb (startsNumeral (trimStart s))
  end.

End AmountNotions.

Section MutationNotions.
Import JS UseIncome IncomeMutations.

(** An income to add, a cached income line, a cache holding two lines and
    a cache holding nothing. *)
Definition salary : AddIncomeInput :=
  {| input_name := "Salary"; input_amount := ofZ 5000; input_type := Earned;
     input_quadrant := None |}.

Definition cachedLine (id : Z) (name : string) : value :=
  JObject {[ "id" := JNumber (ofZ id); "name" := JString name;
             "amount" := JNumber (ofZ 100); "type" := JString "Passive" ]}.

Definition twoLines : QueryState :=
  {| data := JArray [cachedLine 1 "Rent"; cachedLine 2 "Royalties"];
     isInvalidated := false |}.

Definition nothingCached : QueryState :=
  {| data := JUndefined; isInvalidated := false |}.

(** The updaters of the three hooks. *)
Inductive Mutation : Type :=
| AddIncome (now : number) (input : AddIncomeInput)
| UpdateIncome (input : UpdateIncomeInput)
| DeleteIncome (input : DeleteIncomeInput).

Definition updaterOf (m : Mutation) : value -> completion value :=
  match m with
  | AddIncome now input => addUpdater now input
  | UpdateIncome input => updateUpdater input
  | DeleteIncome input => deleteUpdater input
  end.

(** Whether a cached item is the one a mutation names: [item.id === id]. *)
Definition hasId (id : number) (item : value) : bool :=
  match item_id item with
  | Normal v => strictEqualsNumber v id
  | Throw _ => false
  end.

(** An update of the line with id 2. *)
Definition raise : UpdateIncomeInput :=
  {| update_id := ofZ 2;
     update_fields := {| input_name := "Royalties"; input_amount := ofZ 150;
                         input_type := Passive; input_quadrant := Some INVESTOR |} |}.

End MutationNotions.

Section TotalsNotions.
Import JS FinancialView CashflowView UseIncome.

(** The income types the views filter on. *)
Definition recognisedTypes : list string := ["Earned"; "Portfolio"; "Passive"].

(** The financial data with [lines] as its income. *)
Definition withIncome (financialData : CashflowData) (lines : list Income)
  : CashflowData :=
  {| income := Some lines;
     incomeStatement := incomeStatement financialData;
     cashSavings := cashSavings financialData |}.

(** A salary of 5000 with the given type, and financial data with nothing
    in it. *)
Definition salaryLine (type : string) : Income :=
  {| income_id := 1; income_name := "Salary"; income_amount := Num (ofZ 5000);
     income_type := type |}.

Definition noData : CashflowData :=
  {| income := None; incomeStatement := None; cashSavings := None |}.

(** The tables other than the migration log. *)
Definition dataTables (tablenames : list string) : list string :=
  List.filter (fun name => negb (String.eqb name "_prisma_migrations")) tablenames.

End TotalsNotions.

(* ===================================================================== *)
(** * The event payload validator *)
(* ===================================================================== *)

Ltac settle := solve [ discriminate | intro; discriminate | tauto | auto | split; auto ].

Section ValidatorProofs.
Import JS Zod EventSchema.

Lemma clean_spec r : clean r = true <-> isAborted r = false /\ issuesOf r = [].
Proof. destruct r as [v|v [|i l]|l]; simpl; intuition congruence. Qed.

Lemma finish_OK v issues out : finish v issues = OK out <-> issues = [] /\ out = v.
Proof. destruct issues; simpl; intuition congruence. Qed.

Lemma flat_map_nil {A B} (f : A -> list B) (l : list A) :
  flat_map f l = [] <-> Forall (fun x => f x = []) l.
Proof.
  induction l as [|x l IH]; simpl.
  - split; auto.
  - rewrite Forall_cons, <- IH. split.
    + intros H. apply app_eq_nil in H. tauto.
    + intros [-> ->]. reflexivity.
Qed.

Lemma existsb_false {A} (f : A -> bool) (l : list A) :
  existsb f l = false <-> Forall (fun x => f x = false) l.
Proof.
  induction l as [|x l IH]; simpl.
  - split; auto.
  - rewrite Forall_cons, <- IH, orb_false_iff. tauto.
Qed.

(** An object is returned exactly when every pair is clean. *)
Lemma mergeObjectSync_OK pairs extra out :
  mergeObjectSync pairs extra = OK out <->
  Forall (fun p : Pair => clean p.1.2 = true) pairs
  /\ out = JObject (fold_left setPair pairs extra).
Proof.
  unfold mergeObjectSync.
  match goal with
  | |- context [existsb ?f pairs] => destruct (existsb f pairs) eqn:Hab
  end.
  - split; [intros; discriminate|]. intros [Hc _]. exfalso.
    apply not_false_iff_true in Hab. apply Hab. apply existsb_false.
    eapply Forall_impl; [exact Hc|]. intros p Hp. apply clean_spec in Hp. tauto.
  - apply existsb_false in Hab. rewrite finish_OK, flat_map_nil.
    split.
    + intros [Hi ->]. split; [|reflexivity].
      rewrite Forall_forall in *. intros p Hp. apply clean_spec. auto.
    + intros [Hc ->]. split; [|reflexivity].
      eapply Forall_impl; [exact Hc|]. intros p Hp. apply clean_spec in Hp. tauto.
Qed.

(** The validator returns exactly when the entity's schema returns [OK]. *)
Lemma validate_Normal et p out :
  validateEventPayload et p = Normal out <->
  exists schema, eventDataSchemaMap et = Some schema /\ schema [] p = OK out.
Proof.
  unfold validateEventPayload, safeParse, bind.
  destruct (eventDataSchemaMap et) as [schema|];
    [|split; [intros; discriminate|intros (?&?&?); discriminate]].
  split.
  - intros H. exists schema. split; [reflexivity|].
    destruct (schema [] p) as [v|v [|i l]|[|i l]]; try discriminate. congruence.
  - intros (sch & [= <-] & ->). reflexivity.
Qed.

Lemma extraProps_nil o : extraProps [] o = ownProps o.
Proof.
  unfold extraProps, ownProps. apply map_filter_ext.
  intros i x _. simpl. rewrite elem_of_nil. tauto.
Qed.

Lemma monetary_object path o :
  monetaryValueSchema path (JObject o) = OK (JObject (ownProps o)).
Proof.
  unfold monetaryValueSchema, ZodUnion. simpl.
  unfold mergeObjectSync. simpl. now rewrite extraProps_nil.
Qed.

(** The monetary union, option by option. *)
Lemma monetary_result path v :
  match monetaryValueSchema path v with
  | OK out =>
      out = returnedAs v
      /\ match v with JNumber _ | JObject _ | JString _ => True | _ => False end
  | DIRTY _ issues | INVALID issues => issues <> []
  end.
Proof.
  destruct v as [| |b|n|s|xs|o]; try (simpl; settle).
  - unfold monetaryValueSchema, ZodUnion. simpl.
    destruct (isNaN n); simpl; [settle|].
    destruct (lt n (S754_zero false)); simpl; settle.
  - unfold monetaryValueSchema, ZodUnion. simpl.
    unfold ZodEffects. simpl.
    destruct (negb (isNaN (parseFloat s))); simpl; settle.
  - rewrite monetary_object. simpl. settle.
Qed.

Lemma monetary_clean path v :
  clean (monetaryValueSchema path v) = true ->
  monetaryValueSchema path v = OK (returnedAs v)
  /\ match v with JNumber _ | JObject _ | JString _ => True | _ => False end.
Proof.
  pose proof (monetary_result path v) as H.
  destruct (monetaryValueSchema path v) as [out|out [|i l]|[|i l]]; simpl;
    try discriminate; try congruence.
  intros _. destruct H as [-> H]. auto.
Qed.

Lemma fold_setPair_other pairs m k :
  k ∉ map keyOf pairs -> fold_left setPair pairs m !! k = m !! k.
Proof.
  revert m. induction pairs as [|[[key r] a] pairs IH]; intros m Hk; [reflexivity|].
  simpl in *. apply not_elem_of_cons in Hk as [Hne Hk].
  rewrite IH by exact Hk. unfold keyOf in Hne. simpl in Hne.
  destruct r; simpl; try reflexivity;
    (destruct (_ && _); [now rewrite lookup_insert_ne|reflexivity]).
Qed.

(** The value an object schema returns under one of its keys. *)
Lemma ZodObject_field shape unknownKeys path props out k (ty : ZodType) :
  NoDup shape.*1 -> (k, ty) ∈ shape -> k ≠ "__proto__" ->
  ZodObject shape unknownKeys path (JObject props) = OK out ->
  exists outp,
    out = JObject outp
    /\ clean (ty (path ++ [k])%list (get props k)) = true
    /\ forall v, ty (path ++ [k])%list (get props k) = OK v -> is_Some (props !! k) ->
                 outp !! k = Some v.
Proof.
  intros Hnd Hin Hproto H. unfold ZodObject in H.
  apply mergeObjectSync_OK in H as [Hclean ->].
  eexists. split; [reflexivity|].
  apply list_elem_of_split in Hin as (s1 & s2 & ->).
  rewrite fmap_app, fmap_cons in Hnd. simpl in Hnd.
  apply NoDup_app in Hnd as (_ & Hs1 & Hnd). apply NoDup_cons in Hnd as [Hs2 _].
  unfold shapePairs in *. rewrite map_app in *. simpl in *.
  apply Forall_app in Hclean as [_ Hclean]. apply Forall_cons in Hclean as [Hk _].
  split; [exact Hk|].
  intros v Hv Hsome. rewrite fold_left_app. simpl. rewrite Hv.
  rewrite fold_setPair_other.
  - simpl. rewrite (bool_decide_eq_true_2 _ Hsome), orb_true_r.
    destruct (String.eqb_spec k "__proto__"); [contradiction|]. simpl.
    apply lookup_insert_eq.
  - unfold keyOf. rewrite map_map. intros Hin. apply Hs2.
    apply list_elem_of_fmap in Hin as ([key' ty'] & -> & Hin).
    apply list_elem_of_fmap. exists (key', ty'). auto.
Qed.

Lemma ZodObject_accepts shape unknownKeys path props :
  (exists out, ZodObject shape unknownKeys path (JObject props) = OK out) <->
  Forall (fun kt : string * ZodType =>
            clean (kt.2 (path ++ [kt.1])%list (get props kt.1)) = true) shape.
Proof.
  unfold ZodObject. split.
  - intros [out H]. apply mergeObjectSync_OK in H as [H _].
    unfold shapePairs in H. rewrite Forall_map in H.
    eapply Forall_impl; [exact H|]. now intros [key ty].
  - intros H. eexists. apply mergeObjectSync_OK. split; [|reflexivity].
    unfold shapePairs. rewrite Forall_map.
    eapply Forall_impl; [exact H|]. now intros [key ty].
Qed.

(** Replacing the value under one key by a value its validator accepts
    keeps an accepted object accepted. *)
Lemma ZodObject_replace shape unknownKeys path props k v w :
  (forall ty : ZodType, (k, ty) ∈ shape -> clean (ty (path ++ [k])%list w) = true) ->
  (exists out, ZodObject shape unknownKeys path (JObject (<[k := v]> props)) = OK out) ->
  exists out, ZodObject shape unknownKeys path (JObject (<[k := w]> props)) = OK out.
Proof.
  intros Hw. rewrite !ZodObject_accepts, !Forall_forall.
  intros H [key ty] Hin. simpl. unfold get.
  destruct (decide (key = k)) as [->|Hne].
  - rewrite lookup_insert_eq. simpl. now apply Hw.
  - rewrite lookup_insert_ne by congruence.
    specialize (H _ Hin). simpl in H. unfold get in H.
    now rewrite lookup_insert_ne in H by congruence.
Qed.

(** The payload schemas with a monetary field: a stripping object schema
    whose shape holds the monetary union under that field, and only it. *)
Lemma monetary_schema et k :
  monetaryField et = Some k ->
  exists shape,
    eventDataSchemaMap et = Some (ZodObject shape strip)
    /\ NoDup shape.*1
    /\ k ≠ "__proto__"
    /\ (k, monetaryValueSchema) ∈ shape
    /\ forall ty, (k, ty) ∈ shape -> ty = monetaryValueSchema.
Proof.
  destruct et; intros [= <-]; simpl; eexists; (split; [reflexivity|]);
    (split; [apply (bool_decide_unpack _); vm_compute; reflexivity|]);
    (split; [discriminate|]);
    (split; [rewrite !elem_of_cons; auto|]);
    intros ty; rewrite !elem_of_cons, elem_of_nil;
    intros H; repeat destruct H as [H|H]; try contradiction;
    injection H; intros; try discriminate; auto.
Qed.

(** [validateEventPayload] throws nothing but instances of [Error]. *)
Lemma validate_throws_Error et payload e :
  validateEventPayload et payload = Throw e -> exists message, e = ErrorObject message.
Proof.
  unfold validateEventPayload, safeParse, bind.
  destruct (eventDataSchemaMap et) as [schema|]; [|intros [= <-]; eauto].
  destruct (schema [] payload) as [v|v [|i l]|[|i l]]; intros [= <-]; eauto.
Qed.

Lemma monetary_negative_string path :
  monetaryValueSchema path (JString "-5") = OK (JString "-5").
Proof. reflexivity. Qed.

End ValidatorProofs.

Section ValidatorClaims.
Import JS Zod EventSchema.

(** C2, as the code has it: [validateEventPayload] checks the monetary
    field and does not convert it.  When it returns, the payload was an
    object whose monetary field held a number, an object or a string, and
    the returned payload holds that value under the same field: a number or
    a string as it was supplied, an object as the copy of its own defined
    properties.  In particular the string ['1200.50'] of the INCOME example
    comes back as the string ['1200.50']. *)
Theorem monetary_field_returned_as_supplied et k payload out :
  monetaryField et = Some k ->
  validateEventPayload et payload = Normal out ->
  exists props outp v,
    payload = JObject props /\ out = JObject outp
    /\ props !! k = Some v
    /\ match v with JNumber _ | JObject _ | JString _ => True | _ => False end
    /\ outp !! k = Some (returnedAs v).
Proof.
  intros Hk Hv. apply validate_Normal in Hv as (schema & Hs & Hok).
  destruct (monetary_schema et k Hk) as (shape & Hs' & Hnd & Hproto & Hin & _).
  rewrite Hs' in Hs. injection Hs as <-.
  destruct payload as [| | | | | |props]; try discriminate.
  destruct (ZodObject_field _ _ _ _ _ _ _ Hnd Hin Hproto Hok)
    as (outp & -> & Hclean & Hlookup).
  apply monetary_clean in Hclean as [Hm Hform].
  exists props, outp, (get props k). unfold get in *.
  destruct (props !! k) as [v|] eqn:Hpk; simpl in *; [|contradiction].
  repeat split; auto.
Qed.

(** The INCOME example of the specification: it is accepted and returned
    with its amount still the string it was. *)
Lemma monetary_field_returned_as_supplied_witness :
  monetaryField INCOME = Some "amount"
  /\ validateEventPayload INCOME jobIncome = Normal jobIncome
  /\ exists props outp v,
       jobIncome = JObject props /\ jobIncome = JObject outp
       /\ props !! "amount" = Some v
       /\ match v with JNumber _ | JObject _ | JString _ => True | _ => False end
       /\ outp !! "amount" = Some (returnedAs v).
Proof.
  split; [reflexivity|]. split; [vm_compute; reflexivity|].
  apply (monetary_field_returned_as_supplied INCOME "amount" jobIncome jobIncome).
  - reflexivity.
  - vm_compute. reflexivity.
Defined.

(** C2 as stated fails.  The string ['12abc'] and the empty object are
    accepted as amounts and returned as they are, and neither denotes a
    decimal; and one quantity supplied as the string ['1200.50'] and as the
    number [1200.5] comes back in two different forms, so nothing is
    normalized. *)
Lemma accepted_amount_not_decimal :
  validateEventPayload CASH_SAVINGS (JObject {[ "amount" := JString "12abc" ]})
    = Normal (JObject {[ "amount" := JString "12abc" ]})
  /\ denotesDecimal (JString "12abc") = false
  /\ validateEventPayload CASH_SAVINGS (JObject {[ "amount" := JObject ∅ ]})
     = Normal (JObject {[ "amount" := JObject ∅ ]})
  /\ denotesDecimal (JObject ∅) = false
  /\ validateEventPayload CASH_SAVINGS (JObject {[ "amount" := JString "1200.50" ]})
     = Normal (JObject {[ "amount" := JString "1200.50" ]})
  /\ validateEventPayload CASH_SAVINGS
       (JObject {[ "amount" := JNumber (parseFloat "1200.50") ]})
     = Normal (JObject {[ "amount" := JNumber (parseFloat "1200.50") ]})
  /\ JString "1200.50" ≠ JNumber (parseFloat "1200.50").
Proof.
  repeat split; try (vm_compute; reflexivity). discriminate.
Qed.

(** C3 at its failing input: the amount ['-5'], a string that reads as the
    negative number -5, is accepted for an EXPENSE while the number -5 is
    rejected; and wherever a payload is accepted, the same payload with its
    monetary field replaced by ['-5'] is accepted too, for each of the five
    entity types. *)
Theorem negative_amount_string_accepted :
  parseFloat "-5" = ofZ (-5)
  /\ lt (parseFloat "-5") (ofZ 0) = true
  /\ validateEventPayload EXPENSE negativeRentString = Normal negativeRentString
  /\ (exists message,
        validateEventPayload EXPENSE negativeRent = Throw (ErrorObject message))
  /\ forall et k props v,
       monetaryField et = Some k ->
       (exists out, validateEventPayload et (JObject (<[k := v]> props)) = Normal out) ->
       exists out,
         validateEventPayload et (JObject (<[k := JString "-5"]> props)) = Normal out.
Proof.
  split; [vm_compute; reflexivity|]. split; [vm_compute; reflexivity|].
  split; [vm_compute; reflexivity|]. split; [eexists; vm_compute; reflexivity|].
  intros et k props v Hk [out Hv]. apply validate_Normal in Hv as (schema & Hs & Hok).
  destruct (monetary_schema et k Hk) as (shape & Hs' & _ & _ & _ & Hty).
  rewrite Hs' in Hs. injection Hs as <-.
  destruct (ZodObject_replace shape strip [] props k v (JString "-5")) as [out' Hok'].
  - intros ty Hty'. rewrite (Hty _ Hty'), monetary_negative_string. reflexivity.
  - eauto.
  - exists out'. apply validate_Normal. eauto.
Qed.

(** C4: the three example payloads of the specification.  The asset with
    an empty name is rejected for its name, the rent of -5 is rejected for
    its amount, and the income whose amount is the string ['1200.50'] is
    accepted. *)
Theorem payload_rejection_examples :
  validateEventPayload ASSET emptyNameAsset
    = Throw (ErrorObject "Invalid ASSET event payload: name: Asset name is required")
  /\ validateEventPayload EXPENSE negativeRent
     = Throw (ErrorObject
         "Invalid EXPENSE event payload: amount: Number must be greater than or equal to 0")
  /\ validateEventPayload INCOME jobIncome = Normal jobIncome.
Proof.
  split; [|split].
  - (* the name fails [min(1)]; the value 10 passes the number option *)
    vm_compute. reflexivity.
  - (* -5 is a number below 0: the number option is dirty, the others abort *)
    vm_compute. reflexivity.
  - vm_compute. reflexivity.
Qed.

(** C5: [safeValidateEventPayload] always returns.  It returns
    [{success: true, data}] exactly when [validateEventPayload] returns
    [data], and [{success: false, error}] exactly when [validateEventPayload]
    throws an error whose message is [error]. *)
Theorem safeValidate_never_raises et payload :
  (exists r, safeValidateEventPayload et payload = Normal r)
  /\ (forall data,
        safeValidateEventPayload et payload = Normal (ValidationResult data)
        <-> validateEventPayload et payload = Normal data)
  /\ (forall message,
        safeValidateEventPayload et payload = Normal (ValidationError message)
        <-> validateEventPayload et payload = Throw (ErrorObject message)).
Proof.
  unfold safeValidateEventPayload, try_catch, bind.
  destruct (validateEventPayload et payload) as [data|e] eqn:Hv.
  - split; [eauto|]. split; intros x; split; intros H; congruence.
  - destruct (validate_throws_Error _ _ _ Hv) as [message ->].
    split; [eauto|]. split; intros x; split; intros H; congruence.
Qed.

(** C8: any object passes as a monetary value.  For each entity type with
    a monetary field, a payload that is accepted with some value in that
    field is accepted with any object [o] in its place, whatever [o] holds,
    and the object comes back under the field. *)
Theorem any_object_passes_as_monetary_value et k props v o :
  monetaryField et = Some k ->
  (exists out, validateEventPayload et (JObject (<[k := v]> props)) = Normal out) ->
  exists outp,
    validateEventPayload et (JObject (<[k := JObject o]> props)) = Normal (JObject outp)
    /\ outp !! k = Some (JObject (ownProps o)).
Proof.
  intros Hk [out Hv]. apply validate_Normal in Hv as (schema & Hs & Hok).
  destruct (monetary_schema et k Hk) as (shape & Hs' & Hnd & Hproto & Hin & Hty).
  rewrite Hs' in Hs. injection Hs as <-.
  destruct (ZodObject_replace shape strip [] props k v (JObject o)) as [out' Hok'].
  - intros ty Hty'. rewrite (Hty _ Hty'), monetary_object. reflexivity.
  - eauto.
  - destruct (ZodObject_field _ _ _ _ _ _ _ Hnd Hin Hproto Hok')
      as (outp & -> & _ & Hlookup).
    exists outp. split.
    + apply validate_Normal. eauto.
    + apply Hlookup.
      * unfold get. rewrite lookup_insert_eq. apply monetary_object.
      * rewrite lookup_insert_eq. eauto.
Qed.

(** The empty object as the amount of cash savings. *)
Lemma any_object_passes_as_monetary_value_witness :
  monetaryField CASH_SAVINGS = Some "amount"
  /\ (exists out, validateEventPayload CASH_SAVINGS
                    (JObject (<["amount" := JNumber (ofZ 0)]> ∅)) = Normal out)
  /\ exists outp,
       validateEventPayload CASH_SAVINGS (JObject (<["amount" := JObject ∅]> ∅))
         = Normal (JObject outp)
       /\ outp !! "amount" = Some (JObject (ownProps ∅)).
Proof.
  split; [reflexivity|].
  split; [eexists; vm_compute; reflexivity|].
  apply (any_object_passes_as_monetary_value CASH_SAVINGS "amount" ∅ (JNumber (ofZ 0)) ∅).
  - reflexivity.
  - eexists. vm_compute. reflexivity.
Defined.

End ValidatorClaims.

(* ===================================================================== *)
(** * The migrations *)
(* ===================================================================== *)

Section MigrationProofs.
Import Migration.

Lemma columnType_alter (s s' : Schema) table column ty t c :
  execute s (ALTER_COLUMN_SET_DATA_TYPE table column ty) = Some s' ->
  columnType s' t c =
    if decide (t = table /\ c = column) then Some ty else columnType s t c.
Proof.
  unfold execute, columnType.
  destruct (s !! table) as [columns|] eqn:Ht; [|discriminate].
  destruct (columns !! column) as [old|] eqn:Hc; [|discriminate].
  intros [= <-].
  destruct (decide (t = table)) as [->|Hne].
  - rewrite lookup_insert_eq, Ht.
    destruct (decide (c = column)) as [->|Hne'].
    + rewrite lookup_insert_eq. rewrite decide_True by auto. reflexivity.
    + rewrite lookup_insert_ne by congruence. rewrite decide_False by tauto.
      reflexivity.
  - rewrite lookup_insert_ne by congruence. rewrite decide_False by tauto.
    reflexivity.
Qed.

Lemma migrate_step (s s' : Schema) stmt rest :
  migrate s (stmt :: rest) = Some s' ->
  exists s1, execute s stmt = Some s1 /\ migrate s1 rest = Some s'.
Proof.
  simpl. destruct (execute s stmt) as [s1|]; [eauto|discriminate].
Qed.

(** C6: once the decimal_precision migration has run, each of Asset.value,
    Liability.value, Expense.amount, IncomeLine.amount and CashSavings.amount
    has the type DECIMAL(15,2), a fixed-point type and not DOUBLE PRECISION;
    this holds from whatever schema the migration ran on. *)
Theorem monetary_columns_are_decimal (s s' : Schema) table column :
  migrate s decimal_precision = Some s' ->
  (table, column) ∈ monetaryColumns ->
  columnType s' table column = Some (DECIMAL 15 2)
  /\ isFixedPoint (DECIMAL 15 2) = true
  /\ DECIMAL 15 2 ≠ DOUBLE_PRECISION.
Proof.
  intros Hm Hin. split; [|split; [reflexivity|discriminate]].
  unfold decimal_precision in Hm.
  apply migrate_step in Hm as (s1 & E1 & Hm).
  apply migrate_step in Hm as (s2 & E2 & Hm).
  apply migrate_step in Hm as (s3 & E3 & Hm).
  apply migrate_step in Hm as (s4 & E4 & Hm).
  apply migrate_step in Hm as (s5 & E5 & Hm).
  injection Hm as <-.
  rewrite (columnType_alter _ _ _ _ _ _ _ E5), (columnType_alter _ _ _ _ _ _ _ E4),
    (columnType_alter _ _ _ _ _ _ _ E3), (columnType_alter _ _ _ _ _ _ _ E2),
    (columnType_alter _ _ _ _ _ _ _ E1).
  unfold monetaryColumns in Hin. rewrite !elem_of_cons, elem_of_nil in Hin.
  destruct Hin as [H|[H|[H|[H|[H|[]]]]]]; injection H as -> ->;
    repeat case_decide; try reflexivity; exfalso;
    repeat match goal with
           | Hd : ¬ (_ ∧ _) |- _ => first [ apply Hd; split; reflexivity | clear Hd ]
           end.
Qed.

Lemma init_creates_initialSchema : migrate ∅ init = Some initialSchema.
Proof. vm_cast_no_check (eq_refl (Some initialSchema)). Qed.

Lemma decimal_precision_runs :
  migrate initialSchema decimal_precision = Some migratedSchema.
Proof. vm_cast_no_check (eq_refl (Some migratedSchema)). Qed.

Lemma Asset_value_is_monetary : ("Asset", "value") ∈ monetaryColumns.
Proof. unfold monetaryColumns. rewrite elem_of_cons. auto. Qed.

(** The schema of the initial migration, where Asset.value is DOUBLE
    PRECISION, takes the decimal_precision migration. *)
Lemma monetary_columns_are_decimal_witness :
  migrate ∅ init = Some initialSchema
  /\ migrate initialSchema decimal_precision = Some migratedSchema
  /\ ("Asset", "value") ∈ monetaryColumns
  /\ columnType migratedSchema "Asset" "value" = Some (DECIMAL 15 2)
  /\ isFixedPoint (DECIMAL 15 2) = true
  /\ DECIMAL 15 2 ≠ DOUBLE_PRECISION.
Proof.
  split; [exact init_creates_initialSchema|].
  split; [exact decimal_precision_runs|].
  split; [exact Asset_value_is_monetary|].
  exact (monetary_columns_are_decimal initialSchema migratedSchema "Asset" "value"
           decimal_precision_runs Asset_value_is_monetary).
Defined.

(** The initial schema has five floating-point columns; after the
    decimal_precision migration no column of any table is floating point. *)
Lemma no_floating_point_column_left :
  List.length (floatingPointColumns initialSchema) = 5%nat
  /\ columnType initialSchema "Asset" "value" = Some DOUBLE_PRECISION
  /\ floatingPointColumns migratedSchema = [].
Proof. repeat split; vm_compute; reflexivity. Qed.

End MigrationProofs.

(* ===================================================================== *)
(** * Sums of binary64 numbers *)
(* ===================================================================== *)

Section NumberProofs.
Import JS.
#[local] Open Scope Z_scope.

Lemma shr_1_spec s :
  0 <= shr_m s ->
  0 <= shr_m (shr_1 s)
  /\ Zdigits2 (shr_m (shr_1 s)) = Z.max 0 (Zdigits2 (shr_m s) - 1).
Proof.
  destruct s as [m r st]. simpl. intros Hm.
  destruct m as [|[p|p|]|p]; simpl; try lia.
Qed.

Lemma iter_shr_1_spec p : forall s,
  0 <= shr_m s ->
  0 <= shr_m (SpecFloat.iter_pos shr_1 p s)
  /\ Zdigits2 (shr_m (SpecFloat.iter_pos shr_1 p s))
     = Z.max 0 (Zdigits2 (shr_m s) - Z.pos p).
Proof.
  induction p as [p IH|p IH|]; intros s Hs; simpl.
  - destruct (shr_1_spec s Hs) as [H1 D1].
    destruct (IH _ H1) as [H2 D2]. destruct (IH _ H2) as [H3 D3].
    split; [exact H3|]. rewrite D3, D2, D1. lia.
  - destruct (IH _ Hs) as [H2 D2]. destruct (IH _ H2) as [H3 D3].
    split; [exact H3|]. rewrite D3, D2. lia.
  - apply shr_1_spec, Hs.
Qed.

Lemma Zdigits2_pos m : 0 < m -> 0 < Zdigits2 m.
Proof. destruct m; simpl; lia. Qed.

Lemma Zdigits2_nonzero m : 0 <= m -> 0 < Zdigits2 m -> 0 < m.
Proof. destruct m; simpl; lia. Qed.

Lemma shr_record_of_loc_m m l : shr_m (shr_record_of_loc m l) = m.
Proof. destruct l as [|[]]; reflexivity. Qed.

(** Shifting a positive mantissa to its rounding exponent keeps it
    positive, and does not lower the exponent. *)
Lemma shr_fexp_spec m e l :
  0 < m -> emin64 <= e ->
  0 < shr_m (shr_fexp prec emax m e l).1 /\ e <= (shr_fexp prec emax m e l).2.
Proof.
  intros Hm He. unfold shr_fexp, shr.
  pose proof (Zdigits2_pos m Hm) as Hd.
  destruct (fexp prec emax (Zdigits2 m + e) - e) as [|n|n] eqn:Hn; simpl;
    rewrite ?shr_record_of_loc_m; try (split; lia).
  assert (Hs : 0 <= shr_m (shr_record_of_loc m l))
    by (rewrite shr_record_of_loc_m; lia).
  destruct (iter_shr_1_spec n _ Hs) as [H0 D]. rewrite shr_record_of_loc_m in D.
  split; [|lia]. apply Zdigits2_nonzero; [exact H0|]. rewrite D.
  unfold emin64, fexp, SpecFloat.emin, prec, emax in *. lia.
Qed.

Lemma round_nearest_even_pos m l : 0 < m -> 0 < round_nearest_even m l.
Proof.
  intros Hm. destruct l as [|[]]; simpl; try lia.
  destruct (Z.even m); lia.
Qed.

Lemma binary_round_aux_spec sx mx ex lx :
  0 < mx -> emin64 <= ex ->
  match binary_round_aux prec emax sx mx ex lx with
  | S754_finite s _ e => s = sx /\ emin64 <= e
  | S754_infinity s => s = sx
  | _ => False
  end.
Proof.
  intros Hm He. unfold binary_round_aux.
  pose proof (shr_fexp_spec mx ex lx Hm He) as [H1 E1].
  destruct (shr_fexp prec emax mx ex lx) as [mrs' e']. simpl in H1, E1.
  pose proof (round_nearest_even_pos _ (loc_of_shr_record mrs') H1) as H2.
  assert (He' : emin64 <= e') by lia.
  pose proof (shr_fexp_spec _ e' loc_Exact H2 He') as [H3 E3].
  destruct (shr_fexp prec emax _ e' loc_Exact) as [mrs'' e'']. simpl in H3, E3.
  destruct (shr_m mrs'') as [|m|m]; try lia.
  destruct (e'' <=? emax - prec); [split; [reflexivity|lia]|reflexivity].
Qed.

Lemma binary_round_spec sx mx ex :
  emin64 <= ex ->
  match binary_round prec emax sx mx ex with
  | S754_finite s _ e => s = sx /\ emin64 <= e
  | S754_infinity s => s = sx
  | _ => False
  end.
Proof.
  intros He. unfold binary_round, shl_align.
  destruct (fexp prec emax (Z.pos (digits2_pos mx) + ex) - ex) as [|d|d] eqn:Hd;
    apply binary_round_aux_spec; try lia.
  unfold emin64, fexp, SpecFloat.emin, prec, emax in *. lia.
Qed.

Lemma binary_normalize_total m e :
  emin64 <= e -> runningTotal (binary_normalize prec emax m e false).
Proof.
  intros He. destruct m as [|p|p]; simpl; [reflexivity| |];
    match goal with |- runningTotal (binary_round _ _ ?s ?p ?e) =>
      pose proof (binary_round_spec s p e He) as H;
      destruct (binary_round prec emax s p e); simpl in *; tauto
    end.
Qed.

Lemma add_runningTotal acc v :
  runningTotal acc -> addend v -> runningTotal (add acc v).
Proof.
  destruct acc as [sa|sa| |sa ma ea], v as [sv|sv| |sv mv ev]; simpl;
    try tauto; try (intros -> _; destruct sv; reflexivity).
  intros Ha Hv. apply binary_normalize_total. lia.
Qed.

Lemma fold_add_runningTotal {A} (f : A -> number) (xs : list A) acc :
  runningTotal acc -> Forall (fun x => addend (f x)) xs ->
  runningTotal (fold_left (fun sum x => add sum (f x)) xs acc).
Proof.
  revert acc. induction xs as [|x xs IH]; intros acc Hacc Hxs; simpl; [exact Hacc|].
  apply Forall_cons in Hxs as [Hx Hxs]. apply IH; [|exact Hxs].
  now apply add_runningTotal.
Qed.


End NumberProofs.

(* ===================================================================== *)
(** * The totals of the financial views *)
(* ===================================================================== *)

Section FinancialViewProofs.
Import JS FinancialView.

Lemma finiteNumber_addend x : finiteNumber x = true -> addend x.
Proof.
  unfold finiteNumber. destruct x as [s|s| |s m e]; simpl; try discriminate; auto.
  unfold bounded, canonical_mantissa, fexp. intros H.
  apply andb_prop in H as [H _]. apply Z.eqb_eq in H.
  unfold emin64. lia.
Qed.

Lemma orZero_runningTotal x : runningTotal x -> orZero (Some x) = x.
Proof. destruct x as [s|s| |s m e]; simpl; try tauto. now intros ->. Qed.

Lemma fold_add_map {A} (f : A -> number) (xs : list A) acc :
  fold_left (fun sum x => add sum (f x)) xs acc = fold_left add (map f xs) acc.
Proof. revert acc. induction xs; intros acc; simpl; auto. Qed.

Lemma sum_runningTotal xs :
  Forall (fun x => finiteNumber x = true) xs -> runningTotal (sum xs).
Proof.
  intros H. unfold sum. rewrite <- (map_id xs), <- fold_add_map.
  apply fold_add_runningTotal; [reflexivity|].
  eapply Forall_impl; [exact H|]. intros x. apply finiteNumber_addend.
Qed.

Lemma orZero_sum {A} (f : A -> number) (xs : list A) :
  Forall (fun x => finiteNumber x = true) (map f xs) ->
  orZero (Some (fold_left (fun sum x => add sum (f x)) xs (ofZ 0))) = sum (map f xs).
Proof.
  intros H. rewrite (fold_add_map f xs).
  apply orZero_runningTotal, sum_runningTotal, H.
Qed.

Lemma fold_add_Number {A} (f : A -> Amount) (xs : list A) acc :
  fold_left (fun sum x => add sum (Number (f x))) xs acc
  = fold_left add (map Number (map f xs)) acc.
Proof. revert acc. induction xs; intros acc; simpl; auto. Qed.

(** The admin view adds the values: for every balance sheet whose values
    convert to finite numbers, its net worth is the sum of the assets minus
    the sum of the liabilities. *)
Lemma Admin_netWorth_adds financialData :
  Forall (fun x => finiteNumber (Number x) = true) (assetValues financialData) ->
  Forall (fun x => finiteNumber (Number x) = true) (liabilityValues financialData) ->
  Admin.netWorth financialData
  = sub (sum (map Number (assetValues financialData)))
        (sum (map Number (liabilityValues financialData))).
Proof.
  unfold Admin.netWorth, Admin.totalAssets, Admin.totalLiabilities,
    assetValues, liabilityValues.
  destruct (balanceSheet financialData) as [bs|]; intros Ha Hl; [|reflexivity].
  cbn [fmap option_fmap option_map]. rewrite !fold_add_Number.
  rewrite !orZero_runningTotal; [reflexivity| |];
    apply sum_runningTotal; now rewrite Forall_map.
Qed.

Lemma fold_plusOp_numbers {A} toString (f : A -> Amount) (xs : list A) acc :
  Forall (fun x => finiteValue x = true) (map f xs) ->
  fold_left (fun sum x => plusOp toString sum (f x)) xs (Num acc)
  = Num (fold_left add (map Number (map f xs)) acc).
Proof.
  revert acc. induction xs as [|x xs IH]; intros acc H; simpl; [reflexivity|].
  simpl in H. apply Forall_cons in H as [Hx H].
  destruct (f x) as [n|s]; [|discriminate]. simpl. now apply IH.
Qed.

Lemma finiteValue_Number x : finiteValue x = true -> finiteNumber (Number x) = true.
Proof. destruct x; simpl; [auto|discriminate]. Qed.

Lemma orZeroOf_runningTotal x : runningTotal x -> orZeroOf (Some (Num x)) = Num x.
Proof. destruct x as [s|s| |s m e]; simpl; try tauto. now intros ->. Qed.

(** The user view adds the values as well, as long as every value is a
    number. *)
Lemma User_netWorth_adds_numbers toString financialData :
  Forall (fun x => finiteValue x = true) (assetValues financialData) ->
  Forall (fun x => finiteValue x = true) (liabilityValues financialData) ->
  User.netWorth toString financialData
  = sub (sum (map Number (assetValues financialData)))
        (sum (map Number (liabilityValues financialData))).
Proof.
  unfold User.netWorth, User.totalAssets, User.totalLiabilities,
    assetValues, liabilityValues.
  destruct (balanceSheet financialData) as [bs|]; intros Ha Hl; [|reflexivity].
  cbn [fmap option_fmap option_map].
  rewrite !fold_plusOp_numbers by assumption.
  rewrite !orZeroOf_runningTotal; [reflexivity| |];
    apply sum_runningTotal; rewrite Forall_map;
    (eapply Forall_impl; [eassumption|]); apply finiteValue_Number.
Qed.

(** C7 at its failing input: the balance sheet as the API delivers it, the
    values of the Decimal columns as strings (House ['300000'], Car
    ['20000'], Mortgage ['250000']).  The sum of the asset values minus the
    sum of the liability values is 70000, and the admin view, which
    converts each value with [Number], gives 70000.  The user view adds the
    values as they come: [0 + '300000'] is the string ['0300000'], the total
    of the assets is the string ['030000020000'], that of the liabilities
    ['0250000'], and the net worth is 30000020000 - 250000 = 29999770000.
    On the numbers of the specification's scenario both views give
    50000. *)
Theorem user_view_concatenates_string_values :
  sub (sum (map Number (assetValues deliveredBalanceSheet)))
      (sum (map Number (liabilityValues deliveredBalanceSheet))) = ofZ 70000
  /\ Admin.netWorth deliveredBalanceSheet = ofZ 70000
  /\ (forall toString, toString (ofZ 0) = "0" ->
        User.totalAssets toString deliveredBalanceSheet = Str "030000020000"
        /\ User.totalLiabilities toString deliveredBalanceSheet = Str "0250000"
        /\ User.netWorth toString deliveredBalanceSheet = ofZ 29999770000)
  /\ ofZ 29999770000 <> ofZ 70000
  /\ Admin.netWorth houseAndMortgage = ofZ 50000
  /\ forall toString, User.netWorth toString houseAndMortgage = ofZ 50000.
Proof.
  split; [vm_compute; reflexivity|]. split; [vm_compute; reflexivity|].
  split.
  { intros toString H0.
    assert (Ha : User.totalAssets toString deliveredBalanceSheet = Str "030000020000").
    { unfold User.totalAssets, deliveredBalanceSheet. cbn [balanceSheet assets asset_value
        fmap option_fmap option_map fold_left plusOp ToString]. rewrite H0. reflexivity. }
    assert (Hl : User.totalLiabilities toString deliveredBalanceSheet = Str "0250000").
    { unfold User.totalLiabilities, deliveredBalanceSheet. cbn [balanceSheet liabilities
        liability_value fmap option_fmap option_map fold_left plusOp ToString].
      rewrite H0. reflexivity. }
    split; [exact Ha|]. split; [exact Hl|].
    unfold User.netWorth. rewrite Ha, Hl. vm_compute. reflexivity. }
  split; [vm_compute; discriminate|].
  split; [vm_compute; reflexivity|].
  intros toString. rewrite User_netWorth_adds_numbers by (repeat constructor).
  vm_compute. reflexivity.
Qed.

End FinancialViewProofs.

(* ===================================================================== *)
(** * The income totals *)
(* ===================================================================== *)

Section UseIncomeProofs.
Import JS UseIncome.


Lemma filter_by_type_In (items : list IncomeItem) t i :
  In i (List.filter (fun i => IncomeType_eqb (type i) t) items)
  <-> In i items /\ type i = t.
Proof.
  rewrite filter_In. destruct (type i), t; simpl; intuition congruence.
Qed.

Lemma sumAmounts_fold (items : list IncomeItem) :
  fold_left (fun sum i => add sum (amount i)) items (ofZ 0) = sumAmounts items.
Proof.
  unfold sumAmounts. generalize (ofZ 0).
  induction items; intros acc; simpl; auto.
Qed.



End UseIncomeProofs.

(* ===================================================================== *)
(** * The analysis controller *)
(* ===================================================================== *)

Section ControllerProofs.
Import JS AnalysisController.

Lemma get_absent (props : gmap string value) key :
  props !! key = None -> truthy (get props key) = false.
Proof. unfold get. now intros ->. Qed.

(** C9: [getFinancialTrajectoryHandler], for every trajectory service.
    A request without an authenticated user id is answered 401 and no
    service is called.  An authenticated request whose query lacks
    [startDate] or [endDate] is answered 400 with the error
    ['startDate and endDate are required'], and no service is called.  An
    authenticated request with both dates and no [interval] calls
    [getFinancialTrajectory] once, with the interval ['monthly'], and
    answers 200 with the trajectory when the call resolves. *)
Theorem getFinancialTrajectoryHandler_guards
    (getFinancialTrajectory : value -> value -> value -> value -> completion value)
    (req : Request) :
  (truthy (requestUserId req) = false ->
   getFinancialTrajectoryHandler getFinancialTrajectory req = ([], Normal unauthorized))
  /\ (truthy (requestUserId req) = true ->
      query req !! "startDate" = None \/ query req !! "endDate" = None ->
      getFinancialTrajectoryHandler getFinancialTrajectory req
        = ([], Normal datesRequired))
  /\ (truthy (requestUserId req) = true ->
      truthy (get (query req) "startDate") = true ->
      truthy (get (query req) "endDate") = true ->
      query req !! "interval" = None ->
      exists trace r,
        getFinancialTrajectoryHandler getFinancialTrajectory req
          = (call_getFinancialTrajectory (requestUserId req)
               (get (query req) "startDate") (get (query req) "endDate")
               (JString "monthly") :: trace, r)
        /\ serviceCalls trace = []
        /\ forall trajectory,
             getFinancialTrajectory (requestUserId req)
               (get (query req) "startDate") (get (query req) "endDate")
               (JString "monthly") = Normal trajectory ->
             trace = [] /\ r = Normal {| status := 200; json := trajectory |}).
Proof.
  unfold getFinancialTrajectoryHandler. split; [|split].
  - intros ->. reflexivity.
  - intros -> Hd. simpl.
    assert (negb (truthy (get (query req) "startDate"))
            || negb (truthy (get (query req) "endDate")) = true) as ->.
    { destruct Hd as [Hd|Hd]; rewrite (get_absent _ _ Hd); simpl;
        [reflexivity|apply orb_true_r]. }
    reflexivity.
  - intros -> -> -> Hi. simpl.
    unfold or_else. rewrite (get_absent _ _ Hi).
    unfold await_getFinancialTrajectory, io_bind, io_catch. simpl.
    destruct (getFinancialTrajectory _ _ _ _) as [trajectory|e] eqn:Hsvc.
    + simpl. eexists _, _. split; [reflexivity|]. split; [reflexivity|].
      intros t [= <-]. auto.
    + unfold message_of.
      destruct e as [message|[]]; simpl;
        (eexists _, _; split; [reflexivity|]; split; [reflexivity|]; discriminate).
Qed.

(** An anonymous request, a request without [startDate], and a request
    with both dates and no interval. *)
Lemma getFinancialTrajectoryHandler_guards_witness :
  getFinancialTrajectoryHandler emptySeries anonymousRequest = ([], Normal unauthorized)
  /\ getFinancialTrajectoryHandler emptySeries undatedRequest = ([], Normal datesRequired)
  /\ getFinancialTrajectoryHandler emptySeries datedRequest
     = ([call_getFinancialTrajectory (JNumber (ofZ 7)) (JString "2025-01-01")
           (JString "2025-12-31") (JString "monthly")],
        Normal {| status := 200; json := JArray [] |}).
Proof.
  split; [|split].
  - apply (proj1 (getFinancialTrajectoryHandler_guards emptySeries anonymousRequest)).
    reflexivity.
  - apply (proj1 (proj2 (getFinancialTrajectoryHandler_guards emptySeries undatedRequest))).
    + reflexivity.
    + left. reflexivity.
  - destruct (proj2 (proj2 (getFinancialTrajectoryHandler_guards emptySeries datedRequest))
                eq_refl eq_refl eq_refl eq_refl)
      as (trace & r & Heq & _ & Hok).
    destruct (Hok (JArray []) eq_refl) as [-> ->]. exact Heq.
Defined.

End ControllerProofs.

(* ===================================================================== *)
(** * The decimal_precision migration: what it changes, when it fails *)
(* ===================================================================== *)

Section MigrationFrame.
Import Migration.

Lemma execute_alter_Some (s s' : Schema) table column ty :
  execute s (ALTER_COLUMN_SET_DATA_TYPE table column ty) = Some s' ->
  exists columns c,
    s !! table = Some columns /\ columns !! column = Some c
    /\ s' = <[table := <[column := retyped ty c]> columns]> s.
Proof.
  unfold execute.
  destruct (s !! table) as [columns|]; [|discriminate].
  destruct (columns !! column) as [c|] eqn:Hc; [|discriminate].
  intros [= <-]. eauto.
Qed.

Lemma execute_alter_None (s : Schema) table column ty :
  execute s (ALTER_COLUMN_SET_DATA_TYPE table column ty) = None
  <-> hasColumn s table column = false.
Proof.
  unfold execute, hasColumn.
  destruct (s !! table) as [columns|]; [|tauto].
  destruct (columns !! column) as [c|] eqn:Hc.
  - rewrite bool_decide_eq_false. split; [discriminate|]. intros H. destruct H. eauto.
  - rewrite bool_decide_eq_false. split; [|reflexivity]. intros _ [x Hx]. discriminate.
Qed.

Lemma columnOf_alter (s s' : Schema) table column ty t c :
  execute s (ALTER_COLUMN_SET_DATA_TYPE table column ty) = Some s' ->
  columnOf s' t c =
    if decide (t = table /\ c = column) then retyped ty <$> columnOf s t c
    else columnOf s t c.
Proof.
  intros H. apply execute_alter_Some in H as (columns & old & Ht & Hc & ->).
  unfold columnOf.
  destruct (decide (t = table)) as [->|Hne].
  - rewrite lookup_insert_eq, Ht. simpl.
    destruct (decide (c = column)) as [->|Hne'].
    + rewrite lookup_insert_eq, Hc. rewrite decide_True by auto. reflexivity.
    + rewrite lookup_insert_ne by congruence. rewrite decide_False by tauto.
      reflexivity.
  - rewrite lookup_insert_ne by congruence. rewrite decide_False by tauto.
    reflexivity.
Qed.

Lemma dom_alter (s s' : Schema) table column ty :
  execute s (ALTER_COLUMN_SET_DATA_TYPE table column ty) = Some s' ->
  dom s' = dom s.
Proof.
  intros H. apply execute_alter_Some in H as (columns & old & Ht & Hc & ->).
  apply dom_insert_lookup_L. eauto.
Qed.

Lemma hasColumn_columnOf (s : Schema) t c :
  hasColumn s t c = bool_decide (is_Some (columnOf s t c)).
Proof.
  unfold hasColumn, columnOf. destruct (s !! t) as [columns|]; reflexivity.
Qed.

Lemma hasColumn_alter (s s' : Schema) table column ty t c :
  execute s (ALTER_COLUMN_SET_DATA_TYPE table column ty) = Some s' ->
  hasColumn s' t c = hasColumn s t c.
Proof.
  intros H. rewrite !hasColumn_columnOf, (columnOf_alter _ _ _ _ _ _ _ H).
  case_decide; [|reflexivity].
  apply bool_decide_ext. rewrite fmap_is_Some. reflexivity.
Qed.

Lemma decimal_precision_steps (s s' : Schema) :
  migrate s decimal_precision = Some s' ->
  exists s1 s2 s3 s4,
    execute s (ALTER_COLUMN_SET_DATA_TYPE "Asset" "value" (DECIMAL 15 2)) = Some s1
    /\ execute s1 (ALTER_COLUMN_SET_DATA_TYPE "CashSavings" "amount" (DECIMAL 15 2)) = Some s2
    /\ execute s2 (ALTER_COLUMN_SET_DATA_TYPE "Expense" "amount" (DECIMAL 15 2)) = Some s3
    /\ execute s3 (ALTER_COLUMN_SET_DATA_TYPE "IncomeLine" "amount" (DECIMAL 15 2)) = Some s4
    /\ execute s4 (ALTER_COLUMN_SET_DATA_TYPE "Liability" "value" (DECIMAL 15 2)) = Some s'.
Proof.
  intros Hm. unfold decimal_precision in Hm.
  apply migrate_step in Hm as (s1 & E1 & Hm).
  apply migrate_step in Hm as (s2 & E2 & Hm).
  apply migrate_step in Hm as (s3 & E3 & Hm).
  apply migrate_step in Hm as (s4 & E4 & Hm).
  apply migrate_step in Hm as (s5 & E5 & Hm).
  injection Hm as <-. eauto 10.
Qed.

Ltac decide_columns :=
  repeat case_decide; try reflexivity;
  try (exfalso;
       repeat match goal with
              | Hd : ¬ (_ ∧ _) |- _ => first [ apply Hd; split; reflexivity | clear Hd ]
              | Hd : _ ∧ _ |- _ => destruct Hd
              end; congruence).

(** Column by column: the five monetary columns are retyped, and every
    other column of every table is as it was. *)
Lemma decimal_precision_columnOf (s s' : Schema) table column :
  migrate s decimal_precision = Some s' ->
  columnOf s' table column =
    if bool_decide ((table, column) ∈ monetaryColumns)
    then retyped (DECIMAL 15 2) <$> columnOf s table column
    else columnOf s table column.
Proof.
  intros Hm.
  apply decimal_precision_steps in Hm as (s1 & s2 & s3 & s4 & E1 & E2 & E3 & E4 & E5).
  rewrite (columnOf_alter _ _ _ _ _ _ _ E5), (columnOf_alter _ _ _ _ _ _ _ E4),
    (columnOf_alter _ _ _ _ _ _ _ E3), (columnOf_alter _ _ _ _ _ _ _ E2),
    (columnOf_alter _ _ _ _ _ _ _ E1).
  unfold monetaryColumns.
  case_bool_decide as Hin; rewrite !elem_of_cons, elem_of_nil in Hin.
  - destruct Hin as [H|[H|[H|[H|[H|[]]]]]]; injection H as -> ->; decide_columns.
  - repeat case_decide; try reflexivity; exfalso; apply Hin;
      repeat match goal with Hd : _ ∧ _ |- _ => destruct Hd as [-> ->] end; tauto.
Qed.

Lemma decimal_precision_dom (s s' : Schema) :
  migrate s decimal_precision = Some s' -> dom s' = dom s.
Proof.
  intros Hm.
  apply decimal_precision_steps in Hm as (s1 & s2 & s3 & s4 & E1 & E2 & E3 & E4 & E5).
  rewrite (dom_alter _ _ _ _ _ E5), (dom_alter _ _ _ _ _ E4), (dom_alter _ _ _ _ _ E3),
    (dom_alter _ _ _ _ _ E2). exact (dom_alter _ _ _ _ _ E1).
Qed.

(** X1: the decimal_precision migration changes column types and nothing
    else.  Wherever it succeeds, the schema has the same tables afterwards;
    each of the five monetary columns keeps its nullability and its default
    and has the type DECIMAL(15,2); and every other column of every table,
    present or not, is exactly as it was. *)
Theorem decimal_precision_changes_types_only (s s' : Schema) :
  migrate s decimal_precision = Some s' ->
  dom s' = dom s
  /\ forall table column,
       columnOf s' table column =
         if bool_decide ((table, column) ∈ monetaryColumns)
         then retyped (DECIMAL 15 2) <$> columnOf s table column
         else columnOf s table column.
Proof.
  intros Hm. split; [exact (decimal_precision_dom s s' Hm)|].
  intros table column. exact (decimal_precision_columnOf s s' table column Hm).
Qed.

Lemma User_email_is_not_monetary : ("User", "email") ∉ monetaryColumns.
Proof.
  unfold monetaryColumns. rewrite !not_elem_of_cons.
  repeat split; try discriminate. apply not_elem_of_nil.
Qed.

(** On the schema of the initial migration: the same tables, Asset.value
    retyped, User.email untouched. *)
Lemma decimal_precision_changes_types_only_witness :
  dom migratedSchema = dom initialSchema
  /\ columnOf migratedSchema "Asset" "value"
     = retyped (DECIMAL 15 2) <$> columnOf initialSchema "Asset" "value"
  /\ columnOf migratedSchema "User" "email" = columnOf initialSchema "User" "email".
Proof.
  destruct (decimal_precision_changes_types_only initialSchema migratedSchema
              decimal_precision_runs) as [Hd Hc].
  split; [exact Hd|]. split.
  - rewrite (Hc "Asset" "value").
    now rewrite (bool_decide_eq_true_2 _ Asset_value_is_monetary).
  - rewrite (Hc "User" "email").
    now rewrite (bool_decide_eq_false_2 _ User_email_is_not_monetary).
Defined.

Lemma migrate_cons (s : Schema) stmt rest :
  migrate s (stmt :: rest) = execute s stmt ≫= fun s1 => migrate s1 rest.
Proof. simpl. destruct (execute s stmt); reflexivity. Qed.

Lemma migrate_alterAll_None ty targets : forall s : Schema,
  migrate s (alterAll ty targets) = None
  <-> exists tc, tc ∈ targets /\ hasColumn s tc.1 tc.2 = false.
Proof.
  induction targets as [|[t c] targets IH]; intros s.
  - simpl. split; [discriminate|]. intros (tc & Hin & _). now apply elem_of_nil in Hin.
  - unfold alterAll. rewrite map_cons, migrate_cons. fold (alterAll ty targets).
    cbn [fst snd].
    destruct (execute s (ALTER_COLUMN_SET_DATA_TYPE t c ty)) as [s1|] eqn:E1;
      cbn [mbind option_bind].
    + rewrite IH. split; intros (tc & Hin & Hno).
      * exists tc. rewrite elem_of_cons.
        rewrite (hasColumn_alter _ _ _ _ _ _ _ E1) in Hno. auto.
      * apply elem_of_cons in Hin as [->|Hin].
        -- cbn [fst snd] in Hno. apply (execute_alter_None s t c ty) in Hno. congruence.
        -- exists tc. rewrite (hasColumn_alter _ _ _ _ _ _ _ E1). auto.
    + split; [intros _|reflexivity]. apply execute_alter_None in E1.
      exists (t, c). rewrite elem_of_cons. auto.
Qed.

Lemma decimal_precision_alterAll :
  decimal_precision
  = alterAll (DECIMAL 15 2)
      [ ("Asset", "value"); ("CashSavings", "amount"); ("Expense", "amount");
        ("IncomeLine", "amount"); ("Liability", "value") ].
Proof. reflexivity. Qed.

(** X2: the decimal_precision migration needs all five monetary columns.
    If one of them, or its table, is missing from the schema the migration
    is applied to, the migration fails as a whole, whichever of its five
    statements meets the gap. *)
Theorem decimal_precision_fails_on_missing_column (s : Schema) table column :
  (table, column) ∈ monetaryColumns ->
  hasColumn s table column = false ->
  migrate s decimal_precision = None.
Proof.
  intros Hin Hno. rewrite decimal_precision_alterAll. apply migrate_alterAll_None.
  exists (table, column). split; [|exact Hno].
  unfold monetaryColumns in Hin. rewrite !elem_of_cons, elem_of_nil in *. tauto.
Qed.

Lemma Liability_value_is_monetary : ("Liability", "value") ∈ monetaryColumns.
Proof. unfold monetaryColumns. rewrite !elem_of_cons. auto. Qed.

(** The initial schema without the Liability table: the first four
    statements apply and the fifth fails. *)
Lemma decimal_precision_fails_on_missing_column_witness :
  hasColumn (delete "Liability" initialSchema) "Liability" "value" = false
  /\ migrate (delete "Liability" initialSchema) decimal_precision = None.
Proof.
  assert (H : hasColumn (delete "Liability" initialSchema) "Liability" "value" = false).
  { unfold hasColumn. now rewrite lookup_delete_eq. }
  split; [exact H|].
  exact (decimal_precision_fails_on_missing_column _ "Liability" "value"
           Liability_value_is_monetary H).
Defined.

Lemma retyped_same ty c : data_type c = ty -> retyped ty c = c.
Proof. destruct c. simpl. now intros ->. Qed.

Lemma execute_alter_same (s : Schema) table column ty c :
  columnOf s table column = Some c -> data_type c = ty ->
  execute s (ALTER_COLUMN_SET_DATA_TYPE table column ty) = Some s.
Proof.
  unfold columnOf, execute. destruct (s !! table) as [columns|] eqn:Ht; [|discriminate].
  simpl. intros Hc Hty. rewrite Hc. f_equal.
  fold (retyped ty c). rewrite (retyped_same _ _ Hty).
  rewrite (insert_id columns) by exact Hc. now apply insert_id.
Qed.

Lemma migrate_alterAll_same ty targets (s : Schema) :
  (forall tc, tc ∈ targets ->
     exists col, columnOf s tc.1 tc.2 = Some col /\ data_type col = ty) ->
  migrate s (alterAll ty targets) = Some s.
Proof.
  induction targets as [|[t c] targets IH]; intros H; [reflexivity|].
  unfold alterAll. rewrite map_cons, migrate_cons. fold (alterAll ty targets).
  cbn [fst snd].
  destruct (H (t, c)) as (col & Hc & Hty); [rewrite elem_of_cons; auto|].
  rewrite (execute_alter_same s t c ty col Hc Hty). cbn [mbind option_bind].
  apply IH. intros tc Hin. apply H. rewrite elem_of_cons. auto.
Qed.

(** X3: the decimal_precision migration can be run again.  On the schema
    it produced it succeeds and changes nothing. *)
Theorem decimal_precision_idempotent (s s' : Schema) :
  migrate s decimal_precision = Some s' ->
  migrate s' decimal_precision = Some s'.
Proof.
  intros Hm. rewrite decimal_precision_alterAll. apply migrate_alterAll_same.
  intros [t c] Hin. cbn [fst snd].
  assert (Hmon : (t, c) ∈ monetaryColumns).
  { unfold monetaryColumns. rewrite !elem_of_cons, elem_of_nil in *. tauto. }
  rewrite (decimal_precision_columnOf s s' t c Hm), (bool_decide_eq_true_2 _ Hmon).
  destruct (columnOf s t c) as [col|] eqn:Hs.
  - exists (retyped (DECIMAL 15 2) col). auto.
  - exfalso.
    assert (migrate s decimal_precision = None) as Hn; [|congruence].
    rewrite decimal_precision_alterAll. apply migrate_alterAll_None.
    exists (t, c). split; [exact Hin|].
    cbn [fst snd]. rewrite hasColumn_columnOf, Hs. reflexivity.
Qed.

(** The schema the migration made of the initial one takes it again. *)
Lemma decimal_precision_idempotent_witness :
  migrate migratedSchema decimal_precision = Some migratedSchema.
Proof.
  exact (decimal_precision_idempotent initialSchema migratedSchema
           decimal_precision_runs).
Defined.

End MigrationFrame.

(* ===================================================================== *)
(** * The analysis controller: the snapshot handler and the failure path *)
(* ===================================================================== *)

Section HandlerProofs.
Import JS AnalysisController.

Lemma or_else_message message fallback :
  error_body (or_else (JString message) (JString fallback)) = failureBody message fallback.
Proof.
  unfold or_else, failureBody. simpl. now destruct (String.eqb message "").
Qed.

(** X4: [getFinancialSnapshotHandler], for every snapshot service.  A
    request without an authenticated user id is answered 401 with the
    error ['Authentication required'] and no service is called.  An
    authenticated request calls [getFinancialSnapshot] first and once, with
    the user id and the [date] of the query ([undefined] when the query
    has none), and answers 200 with the snapshot when the call resolves. *)
Theorem getFinancialSnapshotHandler_guards
    (getFinancialSnapshot : value -> value -> completion value) (req : Request) :
  (truthy (requestUserId req) = false ->
   getFinancialSnapshotHandler getFinancialSnapshot req = ([], Normal unauthorized))
  /\ (truthy (requestUserId req) = true ->
      exists trace r,
        getFinancialSnapshotHandler getFinancialSnapshot req
          = (call_getFinancialSnapshot (requestUserId req) (get (query req) "date")
               :: trace, r)
        /\ serviceCalls trace = []
        /\ forall snapshot,
             getFinancialSnapshot (requestUserId req) (get (query req) "date")
               = Normal snapshot ->
             trace = [] /\ r = Normal {| status := 200; json := snapshot |}).
Proof.
  unfold getFinancialSnapshotHandler. split.
  - intros ->. reflexivity.
  - intros ->. simpl.
    unfold await_getFinancialSnapshot, io_bind, io_catch. simpl.
    destruct (getFinancialSnapshot _ _) as [snapshot|e] eqn:Hsvc.
    + simpl. eexists _, _. split; [reflexivity|]. split; [reflexivity|].
      intros t [= <-]. auto.
    + unfold message_of.
      destruct e as [message|[]]; simpl;
        (eexists _, _; split; [reflexivity|]; split; [reflexivity|]; discriminate).
Qed.

(** An anonymous request, and a request for the snapshot of a date. *)
Lemma getFinancialSnapshotHandler_guards_witness :
  getFinancialSnapshotHandler noSnapshot anonymousRequest = ([], Normal unauthorized)
  /\ getFinancialSnapshotHandler noSnapshot snapshotRequest
     = ([call_getFinancialSnapshot (JNumber (ofZ 7)) (JString "2025-06-30")],
        Normal {| status := 200; json := JNull |}).
Proof.
  split.
  - apply (proj1 (getFinancialSnapshotHandler_guards noSnapshot anonymousRequest)).
    reflexivity.
  - destruct (proj2 (getFinancialSnapshotHandler_guards noSnapshot snapshotRequest)
                eq_refl) as (trace & r & Heq & _ & Hok).
    destruct (Hok JNull eq_refl) as [-> ->]. exact Heq.
Defined.

(** X5: a service that fails.  When the service rejects an authenticated
    request with an [Error], each handler logs the error and answers 500;
    the body carries the message of the error, or the handler's own text
    (['Failed to get financial snapshot'], ['Failed to get financial
    trajectory']) when that message is empty. *)
Theorem service_error_is_answered_500
    (getFinancialSnapshot : value -> value -> completion value)
    (getFinancialTrajectory : value -> value -> value -> value -> completion value)
    (req : Request) (message : string) :
  truthy (requestUserId req) = true ->
  (getFinancialSnapshot (requestUserId req) (get (query req) "date")
     = Throw (ErrorObject message) ->
   getFinancialSnapshotHandler getFinancialSnapshot req
   = ([ call_getFinancialSnapshot (requestUserId req) (get (query req) "date");
        console_error "Get financial snapshot error:" (ErrorObject message) ],
      Normal {| status := 500;
                json := failureBody message "Failed to get financial snapshot" |}))
  /\ (truthy (get (query req) "startDate") = true ->
      truthy (get (query req) "endDate") = true ->
      getFinancialTrajectory (requestUserId req)
        (get (query req) "startDate") (get (query req) "endDate")
        (or_else (get (query req) "interval") (JString "monthly"))
        = Throw (ErrorObject message) ->
      getFinancialTrajectoryHandler getFinancialTrajectory req
      = ([ call_getFinancialTrajectory (requestUserId req)
             (get (query req) "startDate") (get (query req) "endDate")
             (or_else (get (query req) "interval") (JString "monthly"));
           console_error "Get financial trajectory error:" (ErrorObject message) ],
         Normal {| status := 500;
                   json := failureBody message "Failed to get financial trajectory" |})).
Proof.
  intros Hu. split.
  - intros Hsvc. unfold getFinancialSnapshotHandler. rewrite Hu. simpl.
    unfold await_getFinancialSnapshot, io_bind, io_catch. rewrite Hsvc. simpl.
    now rewrite or_else_message.
  - intros Hs He Hsvc. unfold getFinancialTrajectoryHandler. rewrite Hu, Hs, He. simpl.
    unfold await_getFinancialTrajectory, io_bind, io_catch. rewrite Hsvc. simpl.
    now rewrite or_else_message.
Qed.

(** The snapshot service is unavailable. *)
Lemma service_error_is_answered_500_witness :
  getFinancialSnapshotHandler snapshotUnavailable snapshotRequest
  = ([ call_getFinancialSnapshot (JNumber (ofZ 7)) (JString "2025-06-30");
       console_error "Get financial snapshot error:" (ErrorObject "snapshot unavailable") ],
     Normal {| status := 500;
               json := error_body (JString "snapshot unavailable") |}).
Proof.
  exact (proj1 (service_error_is_answered_500 snapshotUnavailable emptySeries
                  snapshotRequest "snapshot unavailable" eq_refl) eq_refl).
Defined.

(** X6: the interval is not checked.  Whatever truthy value the query
    holds under [interval], [getFinancialTrajectoryHandler] passes it to
    [getFinancialTrajectory] as it is: the handler does not restrict it to
    ['daily'], ['weekly'] and ['monthly']. *)
Theorem interval_is_passed_unchecked
    (getFinancialTrajectory : value -> value -> value -> value -> completion value)
    (req : Request) (interval : value) :
  truthy (requestUserId req) = true ->
  truthy (get (query req) "startDate") = true ->
  truthy (get (query req) "endDate") = true ->
  query req !! "interval" = Some interval ->
  truthy interval = true ->
  exists trace r,
    getFinancialTrajectoryHandler getFinancialTrajectory req
    = (call_getFinancialTrajectory (requestUserId req)
         (get (query req) "startDate") (get (query req) "endDate") interval :: trace, r)
    /\ serviceCalls trace = [].
Proof.
  intros Hu Hs He Hi Ht. unfold getFinancialTrajectoryHandler.
  assert (Hg : or_else (get (query req) "interval") (JString "monthly") = interval).
  { unfold or_else, get. rewrite Hi. simpl. now rewrite Ht. }
  rewrite Hu, Hs, He, Hg. simpl.
  unfold await_getFinancialTrajectory, io_bind, io_catch.
  destruct (getFinancialTrajectory _ _ _ _) as [trajectory|e]; simpl.
  - eexists _, _. split; reflexivity.
  - unfold message_of.
    destruct e as [message|[]]; simpl; eexists _, _; split; reflexivity.
Qed.

(** A request for a yearly trajectory reaches the service. *)
Lemma interval_is_passed_unchecked_witness :
  exists trace r,
    getFinancialTrajectoryHandler emptySeries yearlyRequest
    = (call_getFinancialTrajectory (JNumber (ofZ 7)) (JString "2025-01-01")
         (JString "2025-12-31") (JString "yearly") :: trace, r)
    /\ serviceCalls trace = [].
Proof.
  exact (interval_is_passed_unchecked emptySeries yearlyRequest (JString "yearly")
           eq_refl eq_refl eq_refl eq_refl eq_refl).
Defined.


End HandlerProofs.

(* ===================================================================== *)
(** * The event payload validator: keys, errors and idempotence *)
(* ===================================================================== *)

Section PayloadProofs.
Import JS Zod EventSchema.

Lemma isUndefined_true v : isUndefined v = true -> v = JUndefined.
Proof. destruct v; simpl; congruence. Qed.

Lemma setPair_lookup_eq m k r a :
  k ≠ "__proto__" ->
  setPair m (k, r, a) !! k = match fieldOut r a with Some v => Some v | None => m !! k end.
Proof.
  intros Hk. unfold setPair, fieldOut.
  destruct (String.eqb_spec k "__proto__"); [contradiction|]. simpl.
  destruct r as [v|v i|i]; try reflexivity;
    (destruct (negb (isUndefined v) || a); [apply lookup_insert_eq|reflexivity]).
Qed.

Lemma fold_setPair_lookup pairs m k r a :
  NoDup (map keyOf pairs) -> (k, r, a) ∈ pairs -> k ≠ "__proto__" ->
  fold_left setPair pairs m !! k
  = match fieldOut r a with Some v => Some v | None => m !! k end.
Proof.
  intros Hnd Hin Hk. apply list_elem_of_split in Hin as (p1 & p2 & ->).
  rewrite map_app in Hnd. simpl in Hnd.
  apply NoDup_app in Hnd as (_ & H1 & Hnd). apply NoDup_cons in Hnd as [H2 _].
  rewrite fold_left_app. cbn [fold_left]. rewrite (fold_setPair_other p2) by exact H2.
  rewrite setPair_lookup_eq by exact Hk.
  rewrite (fold_setPair_other p1); [reflexivity|].
  intros Hin. apply (H1 k Hin). unfold keyOf. simpl. apply elem_of_cons. auto.
Qed.

Lemma keyOf_shapePairs shape path props :
  map keyOf (shapePairs shape path props) = shape.*1.
Proof.
  unfold shapePairs. rewrite map_map. apply map_ext. now intros [k ty].
Qed.

Lemma extraProps_lookup shape props k :
  extraProps shape props !! k
  = match props !! k with
    | Some v => if bool_decide (k ∈ shape.*1) || String.eqb k "__proto__" || isUndefined v
                then None else Some v
    | None => None
    end.
Proof.
  unfold extraProps.
  destruct (props !! k) as [v|] eqn:Hp.
  - destruct (bool_decide (k ∈ shape.*1) || String.eqb k "__proto__" || isUndefined v)
      eqn:Hb.
    + apply map_lookup_filter_None. right. intros x Hx. rewrite Hp in Hx.
      injection Hx as <-. simpl. intros (H1 & H2 & H3).
      apply orb_true_iff in Hb as [Hb|Hb]; [apply orb_true_iff in Hb as [Hb|Hb]|].
      * apply bool_decide_eq_true in Hb. contradiction.
      * apply String.eqb_eq in Hb. contradiction.
      * congruence.
    + apply map_lookup_filter_Some. split; [exact Hp|]. simpl.
      apply orb_false_iff in Hb as [Hb H3]. apply orb_false_iff in Hb as [H1 H2].
      apply bool_decide_eq_false in H1. apply String.eqb_neq in H2. auto.
  - apply map_lookup_filter_None. left. exact Hp.
Qed.

(** What an object schema returns, key by key. *)
Lemma ZodObject_out shape unknownKeys path props out :
  NoDup shape.*1 -> "__proto__" ∉ shape.*1 ->
  ZodObject shape unknownKeys path (JObject props) = OK out ->
  exists outp,
    out = JObject outp
    /\ (forall k ty, (k, ty) ∈ shape ->
          clean (ty (path ++ [k])%list (get props k)) = true
          /\ outp !! k = fieldOut (ty (path ++ [k])%list (get props k))
                                  (bool_decide (is_Some (props !! k))))
    /\ (forall k, k ∉ shape.*1 -> outp !! k = extraOf shape unknownKeys props !! k).
Proof.
  intros Hnd Hproto H. unfold ZodObject in H. fold (extraOf shape unknownKeys props) in H.
  apply mergeObjectSync_OK in H as [Hclean ->].
  eexists. split; [reflexivity|]. split.
  - intros k ty Hin.
    assert (Hpair : (k, ty (path ++ [k])%list (get props k),
                     bool_decide (is_Some (props !! k))) ∈ shapePairs shape path props).
    { unfold shapePairs. apply list_elem_of_fmap. exists (k, ty). auto. }
    split.
    + rewrite Forall_forall in Hclean. exact (Hclean _ Hpair).
    + rewrite (fold_setPair_lookup _ _ _ _ _ (eq_ind_r (fun l => NoDup l) Hnd
                 (keyOf_shapePairs shape path props)) Hpair).
      * destruct (fieldOut _ _) eqn:Hf; [reflexivity|].
        assert (Hk : k ∈ shape.*1) by (apply list_elem_of_fmap; exists (k, ty); auto).
        destruct unknownKeys; simpl; [apply lookup_empty|].
        rewrite extraProps_lookup. destruct (props !! k); [|reflexivity].
        now rewrite (bool_decide_eq_true_2 _ Hk).
      * intros ->. apply Hproto. apply list_elem_of_fmap. exists ("__proto__", ty). auto.
  - intros k Hk. apply fold_setPair_other. now rewrite keyOf_shapePairs.
Qed.

Lemma clean_finish v issues : clean (finish v issues) = true -> finish v issues = OK v.
Proof. destruct issues; simpl; [reflexivity|discriminate]. Qed.

Lemma ZodString_returnsInput checks : returnsInput (ZodString checks).
Proof.
  intros path [| |b|n|s|xs|o]; simpl; try discriminate. apply clean_finish.
Qed.

Lemma ZodNumber_returnsInput checks : returnsInput (ZodNumber checks).
Proof.
  intros path [| |b|n|s|xs|o]; simpl; try discriminate.
  destruct (isNaN n); [discriminate|]. apply clean_finish.
Qed.

Lemma ZodOptional_returnsInput ty : returnsInput ty -> returnsInput (ZodOptional ty).
Proof. intros H path [| |b|n|s|xs|o]; simpl; try apply H. reflexivity. Qed.

Lemma ZodNullable_returnsInput ty : returnsInput ty -> returnsInput (ZodNullable ty).
Proof. intros H path [| |b|n|s|xs|o]; simpl; try apply H. reflexivity. Qed.

Lemma returnsInput_stable ty : returnsInput ty -> stable ty.
Proof.
  intros H path v Hc. exists v. rewrite (H _ _ Hc). split; [reflexivity|].
  split; [reflexivity|]. apply isUndefined_true.
Qed.

Lemma ownProps_idemp o : ownProps (ownProps o) = ownProps o.
Proof.
  unfold ownProps. apply map_eq. intros k.
  destruct (filter _ o !! k) as [v|] eqn:Hk.
  - apply map_lookup_filter_Some. split; [exact Hk|].
    apply map_lookup_filter_Some in Hk. tauto.
  - apply map_lookup_filter_None. left. exact Hk.
Qed.

Lemma returnedAs_idemp v : returnedAs (returnedAs v) = returnedAs v.
Proof. destruct v; simpl; try reflexivity. now rewrite ownProps_idemp. Qed.

Lemma monetary_stable : stable monetaryValueSchema.
Proof.
  intros path v Hc. exists (returnedAs v).
  destruct (monetary_clean path v Hc) as [Hm Hform]. split; [exact Hm|]. split.
  - destruct v as [| |b|n|s|xs|o]; try contradiction; try exact Hm.
    simpl. rewrite monetary_object. now rewrite ownProps_idemp.
  - intros Hu. apply isUndefined_true in Hu. subst v. contradiction.
Qed.

Lemma finish_informative v issues :
  match finish v issues with
  | OK _ => True
  | DIRTY _ issues | INVALID issues => issues <> []
  end.
Proof. destruct issues; simpl; [exact I|discriminate]. Qed.

Lemma ZodString_informative checks : informative (ZodString checks).
Proof.
  intros path [| |b|n|s|xs|o]; simpl; try discriminate. apply finish_informative.
Qed.

Lemma ZodNumber_informative checks : informative (ZodNumber checks).
Proof.
  intros path [| |b|n|s|xs|o]; simpl; try discriminate.
  destruct (isNaN n); [discriminate|]. apply finish_informative.
Qed.

Lemma ZodOptional_informative ty : informative ty -> informative (ZodOptional ty).
Proof. intros H path [| |b|n|s|xs|o]; simpl; try apply H. exact I. Qed.

Lemma ZodNullable_informative ty : informative ty -> informative (ZodNullable ty).
Proof. intros H path [| |b|n|s|xs|o]; simpl; try apply H. exact I. Qed.

Lemma monetary_informative : informative monetaryValueSchema.
Proof.
  intros path v. pose proof (monetary_result path v) as H.
  destruct (monetaryValueSchema path v); tauto.
Qed.

Lemma flat_map_not_nil {A B} (f : A -> list B) (l : list A) x :
  x ∈ l -> f x <> [] -> flat_map f l <> [].
Proof.
  intros Hin Hx Hnil. apply flat_map_nil in Hnil. rewrite Forall_forall in Hnil.
  exact (Hx (Hnil _ Hin)).
Qed.

Lemma ZodObject_informative shape unknownKeys :
  Forall (fun kt : string * ZodType => informative kt.2) shape ->
  informative (ZodObject shape unknownKeys).
Proof.
  intros Hf path [| |b|n|s|xs|props]; simpl; try discriminate.
  unfold mergeObjectSync.
  match goal with
  | |- context [existsb ?f ?pairs] => destruct (existsb f pairs) eqn:Hab
  end; [|apply finish_informative].
  apply existsb_exists in Hab as ([[k r] a] & Hin & Hr). simpl in Hr.
  apply (flat_map_not_nil _ _ (k, r, a)); [now apply list_elem_of_In|]. simpl.
  unfold shapePairs in Hin. apply in_map_iff in Hin as ([k' ty] & Heq & Hin).
  injection Heq as -> <- _.
  rewrite Forall_forall in Hf. apply list_elem_of_In in Hin.
  pose proof (Hf _ Hin (path ++ [k])%list (get props k)) as Hi. simpl in Hi.
  destruct (ty (path ++ [k])%list (get props k)); [discriminate|discriminate|exact Hi].
Qed.

(** One field of an object schema, on the object the schema returned. *)
Lemma stable_field (ty : ZodType) path k (props outp : gmap string value) :
  stable ty ->
  clean (ty (path ++ [k])%list (get props k)) = true ->
  outp !! k = fieldOut (ty (path ++ [k])%list (get props k))
                       (bool_decide (is_Some (props !! k))) ->
  ty (path ++ [k])%list (get outp k) = OK (get outp k)
  /\ fieldOut (OK (get outp k)) (bool_decide (is_Some (outp !! k))) = outp !! k
  /\ (is_Some (outp !! k) -> is_Some (props !! k)).
Proof.
  intros Hst Hc Hout. destruct (Hst _ _ Hc) as (v' & H1 & H2 & H3).
  rewrite H1 in Hout. unfold fieldOut in *.
  destruct (props !! k) as [v|] eqn:Hp.
  - rewrite (bool_decide_eq_true_2 (is_Some (Some v))), orb_true_r in Hout by eauto.
    assert (Hg : get outp k = v') by (unfold get; now rewrite Hout).
    rewrite Hg, Hout.
    rewrite (bool_decide_eq_true_2 (is_Some (Some v'))), orb_true_r by eauto. eauto.
  - assert (v' = JUndefined) as ->.
    { apply H3. unfold get. now rewrite Hp. }
    rewrite (bool_decide_eq_false_2 (is_Some None)) in Hout
      by (intros [? ?]; discriminate).
    cbn [isUndefined negb orb] in Hout.
    assert (Hg : get outp k = JUndefined) by (unfold get; now rewrite Hout).
    rewrite Hg, Hout.
    rewrite (bool_decide_eq_false_2 (is_Some None)) by (intros [? ?]; discriminate).
    split; [exact H2|]. split; [reflexivity|]. intros [? ?]. discriminate.
Qed.

Lemma extraOf_idemp shape unknownKeys (props outp : gmap string value) k :
  outp !! k = extraOf shape unknownKeys props !! k ->
  extraOf shape unknownKeys outp !! k = outp !! k.
Proof.
  destruct unknownKeys; simpl.
  - rewrite lookup_empty. congruence.
  - rewrite !extraProps_lookup. intros H.
    destruct (outp !! k) as [v|] eqn:Ho; [|reflexivity].
    destruct (props !! k) as [w|]; [|discriminate].
    destruct (_ || isUndefined w) eqn:Hb in H; [discriminate|].
    injection H as ->. now rewrite Hb.
Qed.

Lemma extraOf_shape_key shape unknownKeys (props : gmap string value) k :
  k ∈ shape.*1 -> extraOf shape unknownKeys props !! k = None.
Proof.
  intros Hk. destruct unknownKeys; simpl; [apply lookup_empty|].
  rewrite extraProps_lookup. destruct (props !! k); [|reflexivity].
  now rewrite (bool_decide_eq_true_2 _ Hk).
Qed.

(** An object schema with stable fields takes what it returned, and
    returns it unchanged. *)
Lemma ZodObject_stable shape unknownKeys path payload out :
  NoDup shape.*1 -> "__proto__" ∉ shape.*1 ->
  Forall (fun kt : string * ZodType => stable kt.2) shape ->
  ZodObject shape unknownKeys path payload = OK out ->
  ZodObject shape unknownKeys path out = OK out.
Proof.
  intros Hnd Hproto Hst H.
  destruct payload as [| |b|n|s|xs|props]; try discriminate.
  destruct (ZodObject_out _ _ _ _ _ Hnd Hproto H) as (outp & -> & Hfield & Hother).
  rewrite Forall_forall in Hst.
  assert (Hf : forall k ty, (k, ty) ∈ shape ->
            ty (path ++ [k])%list (get outp k) = OK (get outp k)
            /\ fieldOut (OK (get outp k)) (bool_decide (is_Some (outp !! k)))
               = outp !! k).
  { intros k ty Hin. destruct (Hfield k ty Hin) as [Hc Ho].
    destruct (stable_field ty path k props outp (Hst _ Hin) Hc Ho) as (? & ? & _).
    auto. }
  unfold ZodObject. fold (extraOf shape unknownKeys outp).
  apply mergeObjectSync_OK. split.
  - unfold shapePairs. rewrite Forall_map, Forall_forall. intros [k ty] Hin. simpl.
    now rewrite (proj1 (Hf k ty Hin)).
  - f_equal. apply map_eq. intros k.
    destruct (decide (k ∈ shape.*1)) as [Hk|Hk].
    + apply list_elem_of_fmap in Hk as ([k' ty] & -> & Hin). simpl.
      assert (Hpair : (k', ty (path ++ [k'])%list (get outp k'),
                       bool_decide (is_Some (outp !! k'))) ∈ shapePairs shape path outp).
      { unfold shapePairs. apply list_elem_of_fmap. exists (k', ty). auto. }
      rewrite (fold_setPair_lookup _ _ _ _ _ (eq_ind_r (fun l => NoDup l) Hnd
                 (keyOf_shapePairs shape path outp)) Hpair).
      * destruct (Hf k' ty Hin) as [-> Hout]. rewrite Hout.
        destruct (outp !! k'); [reflexivity|].
        symmetry. apply extraOf_shape_key.
        apply list_elem_of_fmap. exists (k', ty). auto.
      * intros ->. apply Hproto. apply list_elem_of_fmap. exists ("__proto__", ty). auto.
    + rewrite fold_setPair_other by now rewrite keyOf_shapePairs.
      symmetry. eapply extraOf_idemp. apply Hother, Hk.
Qed.

Lemma declaredKeys_NoDup et : NoDup (declaredKeys et).
Proof. destruct et; apply (bool_decide_unpack _); vm_compute; reflexivity. Qed.

Lemma declaredKeys_proto et : "__proto__" ∉ declaredKeys et.
Proof.
  destruct et; simpl; rewrite ?not_elem_of_cons; repeat split;
    try discriminate; apply not_elem_of_nil.
Qed.

(** Each payload schema: an object schema over the declared keys, whose
    field validators are stable and informative. *)
Lemma schema_of et :
  exists shape,
    eventDataSchemaMap et = Some (ZodObject shape (unknownKeysOf et))
    /\ shape.*1 = declaredKeys et
    /\ Forall (fun kt : string * ZodType => stable kt.2) shape
    /\ Forall (fun kt : string * ZodType => informative kt.2) shape
    /\ Forall (fun kt : string * ZodType =>
                 (monetaryField et = Some kt.1 /\ kt.2 = monetaryValueSchema)
                 \/ (monetaryField et <> Some kt.1 /\ returnsInput kt.2)) shape.
Proof.
  destruct et; simpl; eexists; (split; [reflexivity|]); (split; [reflexivity|]);
    (split; [|split]); repeat (apply Forall_cons; split); try apply Forall_nil; simpl;
    try (left; split; reflexivity); try (right; split; [discriminate|]);
    auto using monetary_stable, monetary_informative, returnsInput_stable,
      ZodString_returnsInput, ZodNumber_returnsInput, ZodOptional_returnsInput,
      ZodNullable_returnsInput, ZodString_informative, ZodNumber_informative,
      ZodOptional_informative, ZodNullable_informative.
Qed.

(** X12: validation is idempotent.  A payload [validateEventPayload]
    returned is accepted when it is validated again for the same entity
    type, and comes back unchanged. *)
Theorem validated_payload_validates_unchanged et payload out :
  validateEventPayload et payload = Normal out ->
  validateEventPayload et out = Normal out.
Proof.
  intros H. apply validate_Normal in H as (schema & Hs & Hok).
  destruct (schema_of et) as (shape & Hs' & Hkeys & Hst & _ & _).
  rewrite Hs' in Hs. injection Hs as <-.
  apply validate_Normal. eexists. split; [exact Hs'|].
  apply (ZodObject_stable shape _ [] payload out); auto.
  - rewrite Hkeys. apply declaredKeys_NoDup.
  - rewrite Hkeys. apply declaredKeys_proto.
Qed.

(** The asset with a note is returned without it, and what is returned
    validates to itself. *)
Lemma validated_payload_validates_unchanged_witness :
  validateEventPayload ASSET taggedAsset = Normal plainAsset
  /\ validateEventPayload ASSET plainAsset = Normal plainAsset.
Proof.
  assert (H : validateEventPayload ASSET taggedAsset = Normal plainAsset)
    by (vm_compute; reflexivity).
  split; [exact H|].
  exact (validated_payload_validates_unchanged ASSET taggedAsset plainAsset H).
Defined.

(** X8: a payload that is not an object ([undefined], [null], a boolean,
    a number, a string or an array) is rejected for every entity type, with
    a single issue at the root of the payload: ['Required'] for
    [undefined], and ['Expected object, received ...'] otherwise. *)
Theorem non_object_payload_is_rejected et payload :
  notAnObject payload ->
  validateEventPayload et payload
  = Throw (ErrorObject ("Invalid " +:+ entityTypeName et +:+ " event payload: : "
                        +:+ issue_message (invalidType t_object [] payload))).
Proof.
  intros Hp. destruct payload as [| |b|n|s|xs|props]; try contradiction;
    destruct et; try reflexivity;
    unfold validateEventPayload, safeParse; simpl; destruct (isNaN n); reflexivity.
Qed.

(** [null] as an asset payload. *)
Lemma non_object_payload_is_rejected_witness :
  validateEventPayload ASSET JNull
  = Throw (ErrorObject "Invalid ASSET event payload: : Expected object, received null").
Proof. exact (non_object_payload_is_rejected ASSET JNull I). Defined.

Lemma shapePairs_insert_other shape path (props : gmap string value) k v :
  k ∉ shape.*1 ->
  shapePairs shape path (<[k := v]> props) = shapePairs shape path props.
Proof.
  intros Hk. unfold shapePairs. apply map_ext_in. intros [key ty] Hin.
  assert (key ≠ k).
  { intros ->. apply Hk. apply list_elem_of_fmap. exists (k, ty).
    split; [reflexivity|]. now apply list_elem_of_In. }
  unfold get. now rewrite lookup_insert_ne by congruence.
Qed.

(** X9: for the five entity types other than USER a key the schema does
    not declare is ignored: adding it to a payload, or changing its value,
    changes neither whether the payload is accepted, nor the payload
    returned, nor the error thrown. *)
Theorem unknown_key_is_ignored et k v props :
  et <> USER -> k ∉ declaredKeys et ->
  validateEventPayload et (JObject (<[k := v]> props))
  = validateEventPayload et (JObject props).
Proof.
  intros Het Hk. destruct (schema_of et) as (shape & Hs & Hkeys & _).
  unfold validateEventPayload, safeParse. rewrite Hs.
  assert (unknownKeysOf et = strip) as -> by (destruct et; auto; contradiction).
  unfold ZodObject. rewrite shapePairs_insert_other by now rewrite Hkeys.
  reflexivity.
Qed.

(** An asset with a note: the note is dropped. *)
Lemma unknown_key_is_ignored_witness :
  validateEventPayload ASSET taggedAsset = Normal plainAsset.
Proof.
  assert (H : validateEventPayload ASSET (JObject (<["note" := JString "x"]>
                 {[ "name" := JString "House"; "value" := JNumber (ofZ 10) ]}))
              = validateEventPayload ASSET plainAsset).
  { apply (unknown_key_is_ignored ASSET "note" (JString "x")); [discriminate|].
    simpl. rewrite !not_elem_of_cons. repeat split; try discriminate.
    apply not_elem_of_nil. }
  vm_compute in H. vm_compute. exact H.
Defined.

(** X10: the validator invents nothing.  Every key of the payload it
    returns is a key of the payload it was given, and, unless the entity
    type is USER, a key the schema declares; the value under it is the
    value supplied, an object in the monetary field being returned as the
    copy of its own defined properties. *)
Theorem validated_payload_holds_payload_fields et props out :
  validateEventPayload et (JObject props) = Normal out ->
  exists outp,
    out = JObject outp
    /\ forall k v', outp !! k = Some v' ->
         (et = USER \/ k ∈ declaredKeys et)
         /\ exists v, props !! k = Some v
                      /\ v' = if bool_decide (monetaryField et = Some k)
                              then returnedAs v else v.
Proof.
  intros H. apply validate_Normal in H as (schema & Hs & Hok).
  destruct (schema_of et) as (shape & Hs' & Hkeys & Hst & _ & Hret).
  rewrite Hs' in Hs. injection Hs as <-.
  pose proof (declaredKeys_NoDup et) as Hnd. pose proof (declaredKeys_proto et) as Hproto.
  rewrite <- Hkeys in Hnd, Hproto.
  destruct (ZodObject_out _ _ _ _ _ Hnd Hproto Hok) as (outp & -> & Hfield & Hother).
  exists outp. split; [reflexivity|]. intros k v' Hk.
  rewrite Forall_forall in Hst, Hret.
  destruct (decide (k ∈ shape.*1)) as [Hin|Hout].
  - split; [right; now rewrite <- Hkeys|].
    apply list_elem_of_fmap in Hin as ([k' ty] & -> & Hin). simpl in *.
    destruct (Hfield k' ty Hin) as [Hc Ho].
    destruct (stable_field ty [] k' props outp (Hst _ Hin) Hc Ho) as (_ & _ & Hsome).
    destruct (Hsome (ex_intro _ v' Hk)) as [v Hv]. exists v. split; [exact Hv|].
    rewrite Hk in Ho. unfold get in Hc, Ho. rewrite Hv in Hc, Ho. simpl in Hc, Ho.
    destruct (Hret _ Hin) as [[Hm Hty]|[Hm Hr]]; simpl in *.
    + subst ty. rewrite (bool_decide_eq_true_2 _ Hm).
      destruct (monetary_clean _ _ Hc) as [Hv' _]. rewrite Hv' in Ho.
      simpl in Ho. destruct (negb _ || _); congruence.
    + rewrite (bool_decide_eq_false_2 _ Hm).
      rewrite (Hr _ _ Hc) in Ho. simpl in Ho. destruct (negb _ || _); congruence.
  - rewrite Hother in Hk by exact Hout.
    assert (et = USER) as ->.
    { destruct et; auto; simpl in Hk; now rewrite lookup_empty in Hk. }
    split; [now left|]. simpl in Hk. rewrite extraProps_lookup in Hk.
    destruct (props !! k) as [v|]; [|discriminate]. exists v. split; [reflexivity|].
    destruct (_ || isUndefined v) in Hk; [discriminate|].
    rewrite bool_decide_eq_false_2 by discriminate. congruence.
Qed.

(** The asset with a note. *)
Lemma validated_payload_holds_payload_fields_witness :
  exists outp,
    plainAsset = JObject outp
    /\ forall k v', outp !! k = Some v' ->
         (ASSET = USER \/ k ∈ declaredKeys ASSET)
         /\ exists v, ({[ "name" := JString "House"; "value" := JNumber (ofZ 10);
                          "note" := JString "x" ]} : gmap string value) !! k = Some v
                      /\ v' = if bool_decide (monetaryField ASSET = Some k)
                              then returnedAs v else v.
Proof.
  apply (validated_payload_holds_payload_fields ASSET).
  vm_compute. reflexivity.
Defined.

(** X11: a USER payload keeps the keys the schema does not declare.  When
    the payload is accepted, every key other than [preferredCurrencyId],
    [name] and [email] comes back with the value it had, except [__proto__]
    and the keys whose value is [undefined], which are dropped. *)
Theorem user_payload_keeps_unknown_keys props out :
  validateEventPayload USER (JObject props) = Normal out ->
  exists outp,
    out = JObject outp
    /\ forall k, k ∉ declaredKeys USER -> outp !! k = ownProps props !! k.
Proof.
  intros H. apply validate_Normal in H as (schema & Hs & Hok).
  destruct (schema_of USER) as (shape & Hs' & Hkeys & _).
  rewrite Hs' in Hs. injection Hs as <-.
  pose proof (declaredKeys_NoDup USER) as Hnd.
  pose proof (declaredKeys_proto USER) as Hproto.
  rewrite <- Hkeys in Hnd, Hproto.
  destruct (ZodObject_out _ _ _ _ _ Hnd Hproto Hok) as (outp & -> & _ & Hother).
  exists outp. split; [reflexivity|]. intros k Hk. rewrite <- Hkeys in Hk.
  rewrite (Hother k Hk). cbn [unknownKeysOf extraOf]. rewrite extraProps_lookup.
  rewrite (bool_decide_eq_false_2 _ Hk). cbn [orb].
  unfold ownProps.
  destruct (props !! k) as [v|] eqn:Hp.
  - destruct (String.eqb_spec k "__proto__") as [->|Hne]; simpl.
    + symmetry. apply map_lookup_filter_None. right. intros x _ [Hx _]. now apply Hx.
    + destruct (isUndefined v) eqn:Hu.
      * symmetry. apply map_lookup_filter_None. right. intros x Hx [_ Hx'].
        simpl in *. congruence.
      * symmetry. apply map_lookup_filter_Some. simpl. auto.
  - symmetry. apply map_lookup_filter_None. now left.
Qed.

(** A user payload with a theme. *)
Lemma user_payload_keeps_unknown_keys_witness :
  validateEventPayload USER themedUser = Normal themedUser
  /\ exists outp,
       themedUser = JObject outp
       /\ forall k, k ∉ declaredKeys USER ->
            outp !! k
            = ownProps {[ "name" := JString "Ann"; "theme" := JString "dark" ]} !! k.
Proof.
  assert (H : validateEventPayload USER themedUser = Normal themedUser)
    by (vm_compute; reflexivity).
  split; [exact H|].
  exact (user_payload_keeps_unknown_keys _ _ H).
Defined.

(** X13: every error [validateEventPayload] throws reads
    ['Invalid <entity type> event payload: '] followed by at least one
    issue, the issues written [path: message] and separated by ['; ']; the
    error for a missing schema and zod's error for a rejection without
    issues are never thrown. *)
Theorem rejection_names_an_issue et payload e :
  validateEventPayload et payload = Throw e ->
  exists issue issues,
    e = ErrorObject ("Invalid " +:+ entityTypeName et +:+ " event payload: "
                     +:+ join "; " (map issueText (issue :: issues))).
Proof.
  destruct (schema_of et) as (shape & Hs & _ & _ & Hinf & _).
  unfold validateEventPayload, safeParse, bind. rewrite Hs.
  pose proof (ZodObject_informative shape (unknownKeysOf et) Hinf [] payload) as Hi.
  destruct (ZodObject shape (unknownKeysOf et) [] payload) as [v|v [|i l]|[|i l]];
    try discriminate; try congruence; intros [= <-]; eauto.
Qed.

(** The asset with an empty name. *)
Lemma rejection_names_an_issue_witness :
  exists issue issues,
    ErrorObject "Invalid ASSET event payload: name: Asset name is required"
    = ErrorObject ("Invalid " +:+ entityTypeName ASSET +:+ " event payload: "
                   +:+ join "; " (map issueText (issue :: issues))).
Proof.
  apply (rejection_names_an_issue ASSET emptyNameAsset). vm_compute. reflexivity.
Defined.

End PayloadProofs.

(* ===================================================================== *)
(** * Number strings: when [parseFloat] gives NaN *)
(* ===================================================================== *)

Section NumeralProofs.
Import JS Zod EventSchema.
#[local] Open Scope Z_scope.

Lemma shr_fexp_nonneg m e l : 0 <= m -> 0 <= shr_m (shr_fexp prec emax m e l).1.
Proof.
  intros Hm. unfold shr_fexp, shr.
  destruct (fexp prec emax (Zdigits2 m + e) - e) as [|n|n]; simpl;
    rewrite ?shr_record_of_loc_m; try exact Hm.
  apply iter_shr_1_spec. now rewrite shr_record_of_loc_m.
Qed.

Lemma round_nearest_even_nonneg m l : 0 <= m -> 0 <= round_nearest_even m l.
Proof.
  intros Hm. destruct l as [|[]]; simpl; try lia. destruct (Z.even m); lia.
Qed.

Lemma binary_round_aux_isNaN sx mx ex lx :
  0 <= mx -> isNaN (binary_round_aux prec emax sx mx ex lx) = false.
Proof.
  intros Hm. unfold binary_round_aux.
  pose proof (shr_fexp_nonneg mx ex lx Hm) as H1.
  destruct (shr_fexp prec emax mx ex lx) as [mrs' e']. simpl in H1.
  pose proof (round_nearest_even_nonneg _ (loc_of_shr_record mrs') H1) as H2.
  pose proof (shr_fexp_nonneg _ e' loc_Exact H2) as H3.
  destruct (shr_fexp prec emax _ e' loc_Exact) as [mrs'' e'']. simpl in H3.
  destruct (shr_m mrs'') as [|m|m]; try lia; [reflexivity|].
  destruct (e'' <=? emax - prec); reflexivity.
Qed.

Lemma binary_round_isNaN sx mx ex : isNaN (binary_round prec emax sx mx ex) = false.
Proof.
  unfold binary_round.
  destruct (shl_align mx ex (fexp prec emax (Z.pos (digits2_pos mx) + ex))) as [mz ez].
  apply binary_round_aux_isNaN. lia.
Qed.

Lemma SFdiv_isNaN sx mx ex sy my ey :
  isNaN (SFdiv prec emax (S754_finite sx mx ex) (S754_finite sy my ey)) = false.
Proof.
  unfold SFdiv, SFdiv_core_binary.
  set (e' := Z.min _ _). set (m' := match (ex - ey - e') with Z0 => _ | _ => _ end).
  assert (Hm' : 0 <= m').
  { unfold m'. destruct (ex - ey - e'); try lia. apply Z.shiftl_nonneg. lia. }
  pose proof (Z.div_pos m' (Z.pos my) Hm' ltac:(lia)) as Hq.
  unfold Z.div in Hq. destruct (Z.div_eucl m' (Z.pos my)) as [q r]. simpl in Hq.
  now apply binary_round_aux_isNaN.
Qed.

Lemma roundDecimal_isNaN neg n k : 0 <= n -> isNaN (roundDecimal neg n k) = false.
Proof.
  intros Hn. unfold roundDecimal. destruct n as [|p|p]; try lia; [reflexivity|].
  destruct (0 <=? k); [apply binary_round_isNaN|apply SFdiv_isNaN].
Qed.

Lemma spanDigits_nonneg s : Forall (fun d => 0 <= d) (spanDigits s).1.
Proof.
  induction s as [|c s IH]; simpl; [constructor|].
  destruct (isDigit c) eqn:Hc; [|constructor].
  destruct (spanDigits s) as [ds r]. simpl in *. constructor; [|exact IH].
  unfold isDigit in Hc. apply andb_prop in Hc as [Hc _]. apply N.leb_le in Hc. lia.
Qed.

Lemma digitsValue_nonneg ds : Forall (fun d => 0 <= d) ds -> 0 <= digitsValue ds.
Proof.
  unfold digitsValue. intros Hds.
  enough (H : forall acc, 0 <= acc ->
            0 <= fold_left (fun acc d => 10 * acc + d) ds acc) by (apply H; lia).
  intros acc Hacc. revert Hds. revert acc Hacc. induction ds as [|d ds IH]; intros acc Hacc Hds; simpl; [exact Hacc|].
  apply Forall_cons in Hds as [Hd Hds]. apply IH; [lia|exact Hds].
Qed.

Lemma spanDigits_nil s :
  (spanDigits s).1 = []
  <-> match s with String c _ => isDigit c = false | EmptyString => True end.
Proof.
  destruct s as [|c s]; simpl; [tauto|].
  destruct (isDigit c); [|tauto]. destruct (spanDigits s). simpl.
  split; discriminate.
Qed.

(** [parseFloat] gives NaN exactly when the trimmed text does not start
    with a numeral. *)
Lemma parseFloat_isNaN s : isNaN (parseFloat s) = negb (startsNumeral (trimStart s)).
Proof.
  unfold parseFloat, startsNumeral.
  destruct (spanSign (trimStart s)) as [neg r]. cbn [snd].
  destruct (String.prefix "Infinity" r); [reflexivity|]. cbn [orb].
  pose proof (spanDigits_nonneg r) as Hip. pose proof (spanDigits_nil r) as Hnil.
  destruct (spanDigits r) as [ip r1] eqn:Hr. cbn [fst] in *.
  destruct ip as [|d ip].
  - (* no integer digit: [r1] is [r] *)
    assert (r1 = r) as ->.
    { destruct r as [|c r]; simpl in Hr; [congruence|].
      destruct (isDigit c); [|congruence]. destruct (spanDigits r). discriminate. }
    destruct r as [|c r]; [reflexivity|].
    rewrite (proj1 Hnil eq_refl). cbn [orb].
    destruct (Ascii.eqb_spec c "."%char) as [->|Hne].
    + pose proof (spanDigits_nonneg r) as Hfp. pose proof (spanDigits_nil r) as Hfnil.
      destruct (spanDigits r) as [fp r2]. cbn [fst andb] in *.
      destruct fp as [|d fp].
      * destruct r as [|c' r]; [reflexivity|]. now rewrite (proj1 Hfnil eq_refl).
      * destruct r as [|c' r]; [destruct Hfnil as [_ Hf]; discriminate (Hf I)|].
        destruct (isDigit c') eqn:Hc.
        -- apply roundDecimal_isNaN, digitsValue_nonneg. exact Hfp.
        -- destruct Hfnil as [_ Hf]. discriminate (Hf eq_refl).
    + cbn [andb].
      destruct c as [[] [] [] [] [] [] [] []]; try reflexivity. now contradiction Hne.
  - (* an integer digit *)
    assert (Hd : match r with String c _ => isDigit c = true | EmptyString => False end).
    { destruct r as [|c r]; simpl in Hr; [discriminate|].
      destruct (isDigit c); [reflexivity|discriminate]. }
    destruct r as [|c r]; [contradiction|]. rewrite Hd. cbn [orb negb].
    set (fpr := match r1 with String "." r1' => spanDigits r1' | _ => ([], r1) end).
    assert (Hfp : Forall (fun d => 0 <= d) fpr.1).
    { unfold fpr. destruct r1 as [|c1 r1]; [constructor|].
      destruct c1 as [[] [] [] [] [] [] [] []]; try constructor.
      apply spanDigits_nonneg. }
    destruct fpr as [fp r2]. cbn [fst] in Hfp.
    apply roundDecimal_isNaN, digitsValue_nonneg, Forall_app. auto.
Qed.

(** The monetary union, form by form. *)
Lemma monetary_by_form path v :
  match monetaryValueSchema path v with
  | OK out => acceptsMonetary v = true /\ out = returnedAs v
  | DIRTY _ issues | INVALID issues => acceptsMonetary v = false /\ issues <> []
  end.
Proof.
  destruct v as [| |b|n|s|xs|o]; try (split; [reflexivity|discriminate]).
  - unfold monetaryValueSchema, ZodUnion. simpl.
    destruct (isNaN n); simpl; [split; [reflexivity|discriminate]|].
    destruct (lt n (S754_zero false)); simpl;
      [split; [reflexivity|discriminate]|auto].
  - unfold monetaryValueSchema, ZodUnion. simpl.
    unfold ZodEffects. simpl. rewrite parseFloat_isNaN, negb_involutive.
    destruct (startsNumeral (trimStart s)); simpl;
      [auto|split; [reflexivity|discriminate]].
  - rewrite monetary_object. simpl. auto.
Qed.

(** X14: what the monetary union accepts.  A number that is not NaN and
    not below zero (so [Infinity] and [-0] pass); any object; and a string
    that, after leading white space and an optional sign, starts with
    [Infinity], with a digit, or with a dot and a digit, whatever follows.
    What is accepted is returned as [returnedAs] gives it; everything else
    is rejected. *)
Theorem monetary_value_accept_set path v :
  match monetaryValueSchema path v with
  | OK out => acceptsMonetary v = true /\ out = returnedAs v
  | DIRTY _ _ | INVALID _ => acceptsMonetary v = false
  end.
Proof.
  pose proof (monetary_by_form path v) as H.
  destruct (monetaryValueSchema path v); tauto.
Qed.

End NumeralProofs.

(* ===================================================================== *)
(** * The event payload validator: what is accepted *)
(* ===================================================================== *)

Section AcceptProofs.
Import JS Zod EventSchema.

Lemma clean_finish_nil v issues : clean (finish v issues) = bool_decide (issues = []).
Proof. destruct issues; reflexivity. Qed.

Lemma clean_nonEmptyString message path v :
  clean (ZodString [str_min 1 message] path v) = nonEmptyString v.
Proof.
  destruct v as [| |b|n|s|xs|o]; try reflexivity.
  unfold ZodString, nonEmptyString. cbn [flat_map stringCheck app].
  destruct (Nat.ltb_spec (JS.length s) 1), (Nat.leb_spec 1 (JS.length s));
    try lia; reflexivity.
Qed.

Lemma clean_monetary path v : clean (monetaryValueSchema path v) = acceptsMonetary v.
Proof.
  pose proof (monetary_by_form path v) as H.
  destruct (monetaryValueSchema path v) as [out|out [|i l]|[|i l]]; simpl;
    try tauto; now destruct H.
Qed.

Lemma clean_nullishString path v :
  clean (ZodNullable (ZodOptional (ZodString [])) path v) = nullishString v.
Proof. destruct v; reflexivity. Qed.

Lemma clean_optionalString path v :
  clean (ZodOptional (ZodString []) path v) = optionalString v.
Proof. destruct v; reflexivity. Qed.

Lemma clean_optionalEmail path v :
  clean (ZodOptional (ZodString [str_email]) path v) = optionalEmail v.
Proof.
  destruct v as [| |b|n|s|xs|o]; try reflexivity.
  unfold ZodOptional, ZodString, optionalEmail. cbn [flat_map stringCheck app].
  destruct (emailRegex s); reflexivity.
Qed.

Lemma clean_optionalId path v :
  clean (ZodOptional (ZodNumber [int; positive]) path v) = optionalId v.
Proof.
  destruct v as [| |b|n|s|xs|o]; try reflexivity.
  unfold ZodOptional, ZodNumber, optionalId, int, positive.
  destruct (isNaN n); [reflexivity|].
  cbn [flat_map numberCheck app negb andb].
  destruct (isInteger n), (le n (ofZ 0)); reflexivity.
Qed.

Lemma validate_accepts et shape unknownKeys props :
  eventDataSchemaMap et = Some (ZodObject shape unknownKeys) ->
  (exists out, validateEventPayload et (JObject props) = Normal out)
  <-> Forall (fun kt : string * ZodType =>
                clean (kt.2 ([] ++ [kt.1])%list (get props kt.1)) = true) shape.
Proof.
  intros Hs. rewrite <- (ZodObject_accepts shape unknownKeys [] props). split.
  - intros [out H]. apply validate_Normal in H as (schema & Hs' & Hok).
    rewrite Hs in Hs'. injection Hs' as <-. eauto.
  - intros [out Hok]. exists out. apply validate_Normal. eauto.
Qed.

(** X23: the payload objects each entity type accepts, field by field.
    ASSET and LIABILITY: [name] is a string of one character or more and
    [value] is a monetary value the union accepts.  EXPENSE: the same with
    [amount].  INCOME: besides, [type] is any string of one character or
    more (it is not restricted to the three income types) and [quadrant]
    is a string, [null] or absent.  CASH_SAVINGS: [amount] alone.  USER:
    [preferredCurrencyId] is absent or a positive integer, [name] absent or
    a string, [email] absent or an e-mail address.  A key whose value is
    [undefined] counts as absent, and no other key matters. *)
Theorem accepted_payloads et props :
  (exists out, validateEventPayload et (JObject props) = Normal out)
  <-> acceptablePayload et props = true.
Proof.
  destruct et;
    (etransitivity; [eapply validate_accepts; reflexivity|]);
    rewrite ?Forall_cons; cbn [fst snd acceptablePayload];
    rewrite ?clean_nonEmptyString, ?clean_monetary, ?clean_nullishString,
      ?clean_optionalString, ?clean_optionalEmail, ?clean_optionalId,
      ?andb_true_iff;
    rewrite ?Forall_nil; tauto.
Qed.

End AcceptProofs.

(* ===================================================================== *)
(** * useIncome.ts: more on the totals *)
(* ===================================================================== *)

Section IncomeTotalsProofs.
Import JS UseIncome FinancialView.

Lemma add_NaN_l x : add S754_nan x = S754_nan.
Proof. reflexivity. Qed.

Lemma add_NaN_r x : add x S754_nan = S754_nan.
Proof. destruct x; reflexivity. Qed.

Lemma fold_add_from_NaN (items : list IncomeItem) :
  fold_left (fun sum i => add sum (amount i)) items S754_nan = S754_nan.
Proof. induction items; simpl; auto. Qed.

Lemma fold_add_NaN (items : list IncomeItem) acc i :
  In i items -> isNaN (amount i) = true ->
  fold_left (fun sum i => add sum (amount i)) items acc = S754_nan.
Proof.
  revert acc. induction items as [|j items IH]; intros acc [].
  - subst j. intros Hn. simpl. destruct (amount i); try discriminate.
    rewrite add_NaN_r. apply fold_add_from_NaN.
  - intros Hn. simpl. now apply IH.
Qed.

Lemma normalized_amount_isNaN toUpperCase line :
  isNaN (amount (normalizeIncomeItem toUpperCase line)) = unreadableAmount line.
Proof.
  unfold unreadableAmount, normalizeIncomeItem. simpl.
  destruct (raw_amount line); [reflexivity|apply parseFloat_isNaN].
Qed.

(** X15: one unreadable amount spoils the totals.  If some line of the
    response has an amount that is NaN, or an amount string that does not
    start with a numeral, then [totals.total] is NaN, whatever the other
    lines hold. *)
Theorem unreadable_amount_makes_the_total_NaN toUpperCase data line :
  In line data -> unreadableAmount line = true ->
  isNaN (totals_total (calculateIncomeTotals (normalizeIncomeData toUpperCase data)))
  = true.
Proof.
  intros Hin Hu. rewrite <- (normalized_amount_isNaN toUpperCase) in Hu.
  set (i := normalizeIncomeItem toUpperCase line) in *.
  assert (Hi : In i (map (normalizeIncomeItem toUpperCase) data))
    by (apply in_map, Hin).
  unfold calculateIncomeTotals, normalizeIncomeData. simpl.
  destruct (type i) eqn:Ht.
  - rewrite (fold_add_NaN (List.filter _ _) _ i); [reflexivity| |exact Hu].
    apply filter_by_type_In. auto.
  - rewrite (fold_add_NaN (List.filter (fun i => IncomeType_eqb (type i) Portfolio) _) _ i);
      [|apply filter_by_type_In; auto|exact Hu].
    now rewrite add_NaN_r.
  - rewrite (fold_add_NaN (List.filter (fun i => IncomeType_eqb (type i) Passive) _) _ i);
      [|apply filter_by_type_In; auto|exact Hu].
    now rewrite add_NaN_r.
Qed.

(** A line whose amount reads ['n/a']. *)
Lemma unreadable_amount_makes_the_total_NaN_witness :
  isNaN (totals_total (calculateIncomeTotals
           (normalizeIncomeData toUpperCase_ascii
              [incomeLine "0.10" "Earned"; incomeLine "n/a" "Passive"])))
  = true.
Proof.
  apply (unreadable_amount_makes_the_total_NaN toUpperCase_ascii _
           (incomeLine "n/a" "Passive")).
  - simpl. auto.
  - reflexivity.
Defined.

Lemma add_zero_r x : runningTotal x -> add x (ofZ 0) = x.
Proof. destruct x as [[]| | |]; simpl; try tauto; try discriminate; reflexivity. Qed.

Lemma add_zero_l x : runningTotal x -> add (ofZ 0) x = x.
Proof. destruct x as [[]| | |]; simpl; try tauto; try discriminate; reflexivity. Qed.

Lemma filter_all {A} (f : A -> bool) (l : list A) :
  Forall (fun x => f x = true) l -> List.filter f l = l.
Proof.
  induction 1 as [|x l Hx _ IH]; simpl; [reflexivity|]. now rewrite Hx, IH.
Qed.

Lemma filter_none {A} (f : A -> bool) (l : list A) :
  Forall (fun x => f x = false) l -> List.filter f l = [].
Proof.
  induction 1 as [|x l Hx _ IH]; simpl; [reflexivity|]. now rewrite Hx, IH.
Qed.

(** X16: when every income line is of one type and every amount is a
    finite number, [totals.total] is the left-to-right sum of all the
    amounts: the two empty buckets add nothing. *)
Theorem total_of_one_type_is_the_sum toUpperCase data t :
  Forall (fun i => type i = t) (all (normalizeIncomeData toUpperCase data)) ->
  Forall (fun i => finiteNumber (amount i) = true)
         (all (normalizeIncomeData toUpperCase data)) ->
  totals_total (calculateIncomeTotals (normalizeIncomeData toUpperCase data))
  = sumAmounts (all (normalizeIncomeData toUpperCase data)).
Proof.
  unfold calculateIncomeTotals, normalizeIncomeData. simpl.
  set (items := map (normalizeIncomeItem toUpperCase) data).
  intros Ht Hf.
  assert (Hsum : runningTotal (sumAmounts items)).
  { unfold sumAmounts. apply sum_runningTotal. now rewrite Forall_map. }
  assert (Hsame : List.filter (fun i => IncomeType_eqb (type i) t) items = items).
  { apply filter_all. eapply Forall_impl; [exact Ht|]. intros i ->. now destruct t. }
  assert (Hother : forall t', t' <> t ->
            List.filter (fun i => IncomeType_eqb (type i) t') items = []).
  { intros t' Hne. apply filter_none. eapply Forall_impl; [exact Ht|].
    intros i ->. destruct t, t'; try reflexivity; contradiction. }
  destruct t; rewrite Hsame, !Hother by discriminate; cbn [fold_left];
    rewrite !sumAmounts_fold.
  - rewrite !add_zero_r; auto. now rewrite add_zero_r.
  - rewrite add_zero_l by exact Hsum. now apply add_zero_r.
  - change (add (ofZ 0) (ofZ 0)) with (ofZ 0). now apply add_zero_l.
Qed.

(** Two passive lines. *)
Lemma total_of_one_type_is_the_sum_witness :
  totals_total (calculateIncomeTotals
    (normalizeIncomeData toUpperCase_ascii
       [incomeLine "0.10" "Passive"; incomeLine "1.10" "Passive"]))
  = sumAmounts (all (normalizeIncomeData toUpperCase_ascii
       [incomeLine "0.10" "Passive"; incomeLine "1.10" "Passive"])).
Proof.
  apply (total_of_one_type_is_the_sum toUpperCase_ascii _ Passive).
  - repeat constructor.
  - repeat constructor.
Defined.

End IncomeTotalsProofs.

(* ===================================================================== *)
(** * useIncome.ts: the optimistic mutations *)
(* ===================================================================== *)

Section MutationProofs.
Import JS UseIncome IncomeMutations.

Lemma updater_defined m old result :
  updaterOf m old = Normal result -> exists items, result = JArray items.
Proof.
  destruct m; simpl.
  - intros [= <-]. eauto.
  - unfold updateUpdater, bind. destruct (mapM _ _); [|discriminate].
    intros [= <-]. eauto.
  - unfold deleteUpdater, bind. destruct (filterM _ _); [|discriminate].
    intros [= <-]. eauto.
Qed.

(** X17: a failed mutation is rolled back.  For each of the three hooks
    (add, update, delete): when the cache holds data that is truthy, any
    array in particular, and the request fails, the callbacks [onMutate],
    [onError] and [onSettled] leave the cached data exactly as it was
    before the mutation, also when the optimistic update itself threw. *)
Theorem failed_mutation_restores_cached_data m q :
  truthy (getQueryData q) = true ->
  data (failedMutation (updaterOf m) q) = data q.
Proof.
  intros Ht. unfold failedMutation, onMutate, setQueryData, bind, getQueryData in *.
  destruct (updaterOf m (data q)) as [result|e] eqn:Hu; simpl; [|reflexivity].
  rewrite Ht. unfold setData. destruct (data q); simpl in *; try discriminate; reflexivity.
Qed.

(** A failed delete on a cache of two lines. *)
Lemma failed_mutation_restores_cached_data_witness :
  data (failedMutation (updaterOf (DeleteIncome {| delete_id := ofZ 1;
                                                   delete_type := Passive |}))
                       twoLines)
  = JArray [cachedLine 1 "Rent"; cachedLine 2 "Royalties"].
Proof.
  exact (failed_mutation_restores_cached_data
           (DeleteIncome {| delete_id := ofZ 1; delete_type := Passive |})
           twoLines eq_refl).
Defined.

(** X18: on an empty cache there is no rollback.  When nothing is cached
    ([getQueryData] gives [undefined]) the snapshot is falsy and [onError]
    restores nothing: after a failed add the cache holds the optimistic
    item alone, after a failed update or delete it holds the empty array. *)
Theorem failed_mutation_on_empty_cache_is_not_undone m q :
  getQueryData q = JUndefined ->
  data (failedMutation (updaterOf m) q)
  = match m with
    | AddIncome now input => JArray [optimisticItem now input]
    | _ => JArray []
    end.
Proof.
  unfold getQueryData. intros Hq.
  unfold failedMutation, onMutate, setQueryData, setData, bind, getQueryData.
  destruct m; simpl; rewrite Hq; reflexivity.
Qed.

(** A failed add before anything was fetched. *)
Lemma failed_mutation_on_empty_cache_is_not_undone_witness :
  data (failedMutation (updaterOf (AddIncome (ofZ 1700000000000) salary)) nothingCached)
  = JArray [optimisticItem (ofZ 1700000000000) salary].
Proof.
  exact (failed_mutation_on_empty_cache_is_not_undone
           (AddIncome (ofZ 1700000000000) salary) nothingCached eq_refl).
Defined.

Lemma mapM_Normal f items items' :
  mapM f items = Normal items' ->
  Forall2 (fun item item' => f item = Normal item') items items'.
Proof.
  revert items'. induction items as [|item items IH]; intros items'; simpl.
  - intros [= <-]. constructor.
  - unfold bind. destruct (f item) as [item'|] eqn:Hf; [|discriminate].
    destruct (mapM f items) as [rest'|]; [|discriminate].
    intros [= <-]. constructor; auto.
Qed.

Lemma filterM_Normal f items items' :
  filterM f items = Normal items' ->
  exists keep : value -> bool,
    Forall (fun item => f item = Normal (keep item)) items
    /\ items' = List.filter keep items.
Proof.
  intros H.
  exists (fun item => match f item with Normal b => b | Throw _ => false end).
  revert items' H. induction items as [|item items IH]; intros items'; simpl.
  - intros [= <-]. auto.
  - unfold bind. destruct (f item) as [b|] eqn:Hf; [|discriminate].
    destruct (filterM f items) as [rest'|]; [|discriminate].
    intros [= <-]. destruct (IH _ eq_refl) as [Hall ->].
    split; [constructor; [now rewrite Hf|exact Hall]|reflexivity].
Qed.

Lemma withFields_id input props : get (withFields input props) "id" = get props "id".
Proof.
  unfold withFields, get. now rewrite !lookup_insert_ne by discriminate.
Qed.

Lemma updateItem_spec updatedIncome item item' :
  updateItem updatedIncome item = Normal item' ->
  item_id item' = item_id item
  /\ if hasId (update_id updatedIncome) item
     then exists props,
            item = JObject props
            /\ item' = JObject (withFields (update_fields updatedIncome) props)
     else item' = item.
Proof.
  unfold updateItem, hasId, bind.
  destruct (item_id item) as [id|] eqn:Hid; [|discriminate].
  destruct (strictEqualsNumber id (update_id updatedIncome)) eqn:Heq;
    intros [= <-]; [|auto].
  destruct item as [| |b|n|s|xs|props]; simpl in *; try discriminate;
    try (injection Hid as <-; discriminate).
  split; [now rewrite withFields_id|]. eauto.
Qed.

(** X19: the optimistic update.  When [onMutate] of the update hook
    completes, the context holds the data as it was, and the cache holds an
    array with one item for each item it held, in the same order and with
    the same id: an item whose id is the number of the update is an object
    and has its [name], [amount], [type] and [quadrant] replaced, its other
    properties kept; every other item is untouched. *)
Theorem optimistic_update_touches_one_id updatedIncome q q' context :
  onMutate (updateUpdater updatedIncome) q = Normal (q', context) ->
  previousData context = data q
  /\ exists items',
       data q' = JArray items'
       /\ Forall2 (fun item item' =>
                     item_id item' = item_id item
                     /\ if hasId (update_id updatedIncome) item
                        then exists props,
                               item = JObject props
                               /\ item' = JObject (withFields
                                                     (update_fields updatedIncome) props)
                        else item' = item)
                  (oldArray (data q)) items'.
Proof.
  unfold onMutate, setQueryData, updateUpdater, bind, getQueryData.
  destruct (mapM _ _) as [items'|] eqn:Hm; [|discriminate].
  intros [= <- <-]. split; [reflexivity|]. exists items'. split; [reflexivity|].
  apply mapM_Normal in Hm. eapply Forall2_impl; [exact Hm|].
  intros item item'. apply updateItem_spec.
Qed.

(** Updating the second of two cached lines. *)
Lemma optimistic_update_touches_one_id_witness :
  exists q' context,
    onMutate (updateUpdater raise) twoLines = Normal (q', context)
    /\ previousData context = data twoLines
    /\ data q' = JArray [ cachedLine 1 "Rent";
                          JObject {[ "id" := JNumber (ofZ 2);
                                     "name" := JString "Royalties";
                                     "amount" := JNumber (ofZ 150);
                                     "type" := JString "Passive";
                                     "quadrant" := JString "INVESTOR" ]} ].
Proof.
  eexists _, _. split; [reflexivity|].
  split.
  - exact (proj1 (optimistic_update_touches_one_id raise twoLines _ _ eq_refl)).
  - vm_compute. reflexivity.
Defined.

(** X20: the optimistic delete.  When [onMutate] of the delete hook
    completes, the context holds the data as it was, the cache holds the
    items whose id is not the deleted number, in their order, and no cached
    item was [null] or [undefined] (on such an item the callback throws and
    the cache is left alone). *)
Theorem optimistic_delete_removes_one_id deletedIncome q q' context :
  onMutate (deleteUpdater deletedIncome) q = Normal (q', context) ->
  previousData context = data q
  /\ data q' = JArray (List.filter (fun item => negb (hasId (delete_id deletedIncome) item))
                                   (oldArray (data q)))
  /\ Forall (fun item => exists id, item_id item = Normal id) (oldArray (data q)).
Proof.
  unfold onMutate, setQueryData, deleteUpdater, bind, getQueryData.
  destruct (filterM _ _) as [items'|] eqn:Hm; [|discriminate].
  intros [= <- <-]. split; [reflexivity|].
  apply filterM_Normal in Hm as (keep & Hall & ->). simpl.
  split.
  - f_equal. apply filter_ext_in. intros item Hin.
    rewrite Forall_forall in Hall. apply list_elem_of_In in Hin.
    specialize (Hall _ Hin). unfold keepItem, hasId, bind in *.
    destruct (item_id item); [|discriminate]. congruence.
  - eapply Forall_impl; [exact Hall|]. intros item. unfold keepItem, bind.
    destruct (item_id item); [eauto|discriminate].
Qed.

(** Deleting the first of two cached lines. *)
Lemma optimistic_delete_removes_one_id_witness :
  exists q' context,
    onMutate (deleteUpdater {| delete_id := ofZ 1; delete_type := Passive |}) twoLines
    = Normal (q', context)
    /\ previousData context = data twoLines
    /\ data q' = JArray [cachedLine 2 "Royalties"].
Proof.
  eexists _, _. split; [reflexivity|].
  split.
  - exact (proj1 (optimistic_delete_removes_one_id
                    {| delete_id := ofZ 1; delete_type := Passive |} twoLines _ _ eq_refl)).
  - vm_compute. reflexivity.
Defined.

End MutationProofs.

(* ===================================================================== *)
(** * The income totals of the financial views *)
(* ===================================================================== *)

Section CashflowProofs.
Import JS FinancialView CashflowView.

Lemma incomeOfType_skip financialData before after line type :
  income_type line <> type ->
  incomeOfType type (withIncome financialData (before ++ line :: after))
  = incomeOfType type (withIncome financialData (before ++ after)).
Proof.
  intros Hne. unfold incomeOfType, withIncome. simpl.
  rewrite !List.filter_app. simpl.
  destruct (String.eqb_spec (income_type line) type); [contradiction|reflexivity].
Qed.

(** X21: an income line whose type is not exactly ['Earned'],
    ['Portfolio'] or ['Passive'] is counted nowhere: with or without it the
    total income of both views, and the cashflow of the admin view, are
    the same. *)
Theorem income_of_unrecognised_type_is_not_counted financialData before after line :
  income_type line ∉ recognisedTypes ->
  Admin.totalIncome (withIncome financialData (before ++ line :: after))
    = Admin.totalIncome (withIncome financialData (before ++ after))
  /\ Admin.cashflow (withIncome financialData (before ++ line :: after))
     = Admin.cashflow (withIncome financialData (before ++ after))
  /\ forall toString,
       User.totalIncome toString (withIncome financialData (before ++ line :: after))
       = User.totalIncome toString (withIncome financialData (before ++ after)).
Proof.
  unfold recognisedTypes. rewrite !not_elem_of_cons. intros (H1 & H2 & H3 & _).
  unfold Admin.cashflow, Admin.totalIncome, User.totalIncome.
  rewrite !(incomeOfType_skip financialData before after line) by assumption.
  auto.
Qed.

(** A salary typed ['EARNED'] counts for nothing; typed ['Earned'] it
    counts. *)
Lemma income_of_unrecognised_type_is_not_counted_witness :
  Admin.totalIncome (withIncome noData [salaryLine "EARNED"]) = ofZ 0
  /\ Admin.totalIncome (withIncome noData [salaryLine "Earned"]) = ofZ 5000.
Proof.
  split; [|vm_compute; reflexivity].
  assert (Hty : income_type (salaryLine "EARNED") ∉ recognisedTypes).
  { unfold recognisedTypes. rewrite !not_elem_of_cons.
    repeat split; try discriminate. apply not_elem_of_nil. }
  pose proof (proj1 (income_of_unrecognised_type_is_not_counted noData [] []
                       (salaryLine "EARNED") Hty)) as H.
  cbn [app] in H. rewrite H. vm_compute. reflexivity.
Defined.

End CashflowProofs.

(* ===================================================================== *)
(** * resetDatabase *)
(* ===================================================================== *)

Section ResetProofs.
Import JS TestDatabase.

Lemma length_qualified name : (0 < JS.length (qualified name))%nat.
Proof. unfold qualified, dquote. simpl. lia. Qed.

Lemma length_app_l s t : (0 < JS.length s)%nat -> (0 < JS.length (s +:+ t))%nat.
Proof.
  induction s as [|c s IH]; simpl; [lia|].
  destruct (code c <? 128)%N; [lia|]. destruct (code c <? 192)%N; [|destruct (code c <? 240)%N; lia].
  simpl. intros H. apply IH in H. lia.
Qed.

Lemma length_join sep part parts :
  (0 < JS.length part)%nat -> (0 < JS.length (EventSchema.join sep (part :: parts)))%nat.
Proof.
  intros H. destruct parts as [|p ps]; [exact H|].
  change (EventSchema.join sep (part :: p :: ps))
    with (part +:+ sep +:+ EventSchema.join sep (p :: ps)).
  now apply length_app_l.
Qed.

(** X22: [resetDatabase] issues no statement when the public schema holds
    no table other than [_prisma_migrations], and otherwise one TRUNCATE ...
    CASCADE naming every other table, qualified and quoted, in the order
    the catalogue listed them; the migration log is never named. *)
Theorem resetDatabase_truncates_the_data_tables tablenames :
  resetDatabase tablenames
  = match dataTables tablenames with
    | [] => []
    | tables =>
        ["TRUNCATE TABLE " +:+ EventSchema.join ", " (map qualified tables)
         +:+ " CASCADE;"]
    end
  /\ forall name,
       In name (dataTables tablenames)
       <-> In name tablenames /\ name <> "_prisma_migrations".
Proof.
  split.
  - unfold resetDatabase, dataTables.
    destruct (List.filter _ tablenames) as [|name names]; [reflexivity|].
    rewrite map_cons.
    pose proof (length_join ", " (qualified name) (map qualified names)
                  (length_qualified name)) as H.
    apply Nat.ltb_lt in H. now rewrite H.
  - intros name. unfold dataTables. rewrite filter_In, negb_true_iff.
    now rewrite String.eqb_neq.
Qed.

End ResetProofs.
